(** * health-ac: the analytics and decision engine

    A shallow embedding of [src/utils/metrics.ts] (totals, adherence, range
    filters, the weekly-over-daily fallback resolver, the performance index,
    the pain-spike detector, the decision chain, the KPI summary and the CSV
    serializer) and of [normalizeWeeklyMeasurements] from the storage module,
    followed by the properties of the specification that concern them.

    Conventions of the embedding.
    - A JavaScript [number] is an exact rational ([Q]).  Stored values are
      finite (the storage layer discards non-finite ones), so an optional
      numeric field is an [option Q].  Binary floating point is not
      modelled.  The doubles of the code differ from the rationals by their
      rounding error, which decides the result only where the code rounds a
      value that lies on a decimal tie ([toFixed], [Math.round]) or compares
      a difference with a threshold that it equals.  Where that can
      happen, what is proved of a rounded value is that it is a nearest
      value ([roundedTo]), whichever way a tie goes, and the threshold of
      0.6 of the decision leaves a difference of exactly 0.6 out.
    - An ISO date string [YYYY-MM-DD] is the number of its day counted from
      1970-01-01 ([IsoDate]); on canonical strings the string order, string
      equality and [localeCompare] agree with the order of the day numbers.
    - A JavaScript [Date] is an instant in milliseconds since the epoch.
      [addDays], [getRange], [isNextDay] and what is built on them are the
      code on a host whose clock stays at a fixed offset from UTC, where
      adding a day on the local calendar adds 24 hours to the instant.
      Module [Zoned] has them on any host, given by its offsets from UTC;
      where a property needs the fixed offset, it says so. *)

From Stdlib Require Import ZArith QArith Qround Qminmax Qabs.
From Stdlib Require Import List String Ascii Bool Lia DecimalString.
From Stdlib Require Import Permutation Sorted Lqa.
Import ListNotations.

Local Open Scope Q_scope.

(** ** JavaScript numbers *)

Module Js.

(** [a < b] on numbers. *)
Definition ltb (a b : Q) : bool := negb (Qle_bool b a).

(** [a >= b] on numbers. *)
Definition geb (a b : Q) : bool := Qle_bool b a.

(** Truthiness of a number: every number but zero (and NaN). *)
Definition truthy (x : Q) : bool := negb (Qeq_bool x 0).

(** [Math.round]: the nearest integer, halves going up. *)
Definition Math_round (x : Q) : Q := inject_Z (Qfloor (x + (1 # 2))).

(** [Number(x.toFixed(digits))]: [x] rounded to [digits] decimals, halves
    going away from zero.  (The code rounds the double that it holds for
    [x]; on a decimal tie that double can lie on either side of [x].) *)
Definition toFixed (digits : nat) (x : Q) : Q :=
  let scale := Z.to_pos (10 ^ Z.of_nat digits) in
  let scaleQ := inject_Z (Zpos scale) in
  if Qle_bool 0 x
  then Qmake (Qfloor (x * scaleQ + (1 # 2))) scale
  else Qmake (- Qfloor (- x * scaleQ + (1 # 2))) scale.

(** Sum of a list as [reduce((acc, v) => acc + v, 0)] computes it. *)
Definition sum (values : list Q) : Q :=
  fold_left (fun acc value => acc + value) values 0.

(** The length of an array, as a number. *)
Definition len {A : Type} (l : list A) : Q := inject_Z (Z.of_nat (List.length l)).

(** Values that reach the engine from parsed JSON. *)
Inductive value : Type :=
| Undefined
| Null
| Number (q : Q)
| NaN
| Infinity (negative : bool)
| Str (s : string).

(** [typeof v === 'number' && Number.isFinite(v) ? v : undefined]. *)
Definition finiteNumber (v : value) : option Q :=
  match v with
  | Number q => Some q
  | _ => None
  end.

(** The elements of an array of optional numbers that are numbers:
    [.filter((value) => typeof value === 'number')]. *)
Fixpoint numbers (l : list (option Q)) : list Q :=
  match l with
  | [] => []
  | Some v :: rest => v :: numbers rest
  | None :: rest => numbers rest
  end.

(** [Array.prototype.some]. *)
Definition some {A : Type} (f : A -> bool) (l : list A) : bool := existsb f l.

(** [Array.prototype.find]. *)
Definition find {A : Type} (f : A -> bool) (l : list A) : option A := List.find f l.

(** A stable sort, as [Array.prototype.sort] is: [before a b] says that the
    comparator does not put [b] strictly before [a]. *)
Fixpoint insert {A : Type} (before : A -> A -> bool) (x : A) (l : list A) : list A :=
  match l with
  | [] => [x]
  | y :: rest => if before x y then x :: y :: rest else y :: insert before x rest
  end.

Definition sort {A : Type} (before : A -> A -> bool) (l : list A) : list A :=
  fold_right (insert before) [] l.

End Js.

(** ** Dates *)

Definition IsoDate := Z.
Definition Date := Z.

Definition msPerDay : Z := 86400000.

(** [new Date('YYYY-MM-DD')]: midnight UTC of that day. *)
Definition dateOfIso (d : IsoDate) : Date := (d * msPerDay)%Z.

(** [new Date('YYYY-MM-DD' + 'T00:00:00')]: midnight of that day on the host's
    clock, [offset] milliseconds ahead of UTC. *)
Definition localMidnight (offset : Z) (d : IsoDate) : Date := (d * msPerDay - offset)%Z.

(** [date.toISOString().slice(0, 10)]: the UTC day of an instant. *)
Definition isoOfDate (t : Date) : IsoDate := (t / msPerDay)%Z.

(** The day number of a civil date, to write dates legibly. *)
Definition ymd (y m d : Z) : IsoDate :=
  (let y' := if m <=? 2 then y - 1 else y in
   let era := y' / 400 in
   let yoe := y' - era * 400 in
   let mp := (m + 9) mod 12 in
   let doy := (153 * mp + 2) / 5 + d - 1 in
   let doe := yoe * 365 + yoe / 4 - yoe / 100 + doy in
   era * 146097 + doe - 719468)%Z.

(** [out.setDate(out.getDate() + days)] moves the date on the host's
    calendar; with a fixed offset from UTC that is [days] times 24 hours. *)
Definition addDays (date : Date) (days : Z) : Date := (date + days * msPerDay)%Z.

Record Range : Type := { start : IsoDate; end_ : IsoDate }.

Definition getRange (days : Z) (from : Date) : Range :=
  let end' := from in
  let start' := addDays end' (- (days - 1)) in
  {| start := isoOfDate start'; end_ := isoOfDate end' |}.

Definition isInRange (date start end' : IsoDate) : bool :=
  ((start <=? date) && (date <=? end'))%Z.

(** ** Data model ([types.ts]) *)

Inductive TrainingDayType : Type := gym | nogym.
Inductive MealName : Type := desayuno | comida | cena.
Inductive CoreExerciseId : Type := jalon | remo | laterales | press_inclinado.
Inductive MealSource : Type := preset | manual.

Definition MealName_eqb (a b : MealName) : bool :=
  match a, b with
  | desayuno, desayuno | comida, comida | cena, cena => true
  | _, _ => false
  end.

(** The strings behind the identifiers. *)
Definition mealNameString (m : MealName) : string :=
  match m with
  | desayuno => "desayuno"
  | comida => "comida"
  | cena => "cena"
  end.

Definition coreExerciseString (e : CoreExerciseId) : string :=
  match e with
  | jalon => "jalon"
  | remo => "remo"
  | laterales => "laterales"
  | press_inclinado => "press_inclinado"
  end.

Definition mealSourceString (s : MealSource) : string :=
  match s with
  | preset => "preset"
  | manual => "manual"
  end.

Definition dayTypeString (t : TrainingDayType) : string :=
  match t with
  | gym => "gym"
  | nogym => "nogym"
  end.

Module MealItem.
Record t : Type := mk {
  id : string;
  dayId : string;
  meal : MealName;
  presetId : option string;
  grams : Q;
  p : Q;
  f : Q;
  c : Q;
  kcal : Q;
  source : MealSource;
  notes : option string
}.
End MealItem.

Module WorkoutSet.
Record t : Type := mk {
  exerciseId : string;
  sets : Q;
  reps : Q;
  weightKg : Q;
  rir : option Q;
  exercise : option CoreExerciseId
}.
End WorkoutSet.

Module WorkoutSession.
Record t : Type := mk {
  id : string;
  dayId : string;
  durationMin : option Q;
  sets : list WorkoutSet.t
}.
End WorkoutSession.

Module Adherence.
Record t : Type := mk {
  nutritionPercent : Q;
  kpiFlags : list string
}.
End Adherence.

Module DailyLog.
Record t : Type := mk {
  id : string;
  date : IsoDate;
  dayType : TrainingDayType;
  weightKg : option Q;
  waistCm : option Q;
  lumbarPain : Q;
  sleepHours : option Q;
  steps : option Q;
  note : option string;
  meals : list MealItem.t;
  workout : list WorkoutSession.t;
  adherence : Adherence.t
}.

(** [keyof DailyLog]. *)
Inductive key : Type :=
| k_id | k_date | k_dayType | k_weightKg | k_waistCm | k_lumbarPain
| k_sleepHours | k_steps | k_note | k_meals | k_workout | k_adherence.

(** [row[field]] when [typeof row[field] === 'number']. *)
Definition number (field : key) (row : t) : option Q :=
  match field with
  | k_weightKg => weightKg row
  | k_waistCm => waistCm row
  | k_lumbarPain => Some (lumbarPain row)
  | k_sleepHours => sleepHours row
  | k_steps => steps row
  | k_id | k_date | k_dayType | k_note | k_meals | k_workout | k_adherence => None
  end.
End DailyLog.

Module WeeklyMeasurement.
Record t : Type := mk {
  id : string;
  weekStart : IsoDate;
  avgWeightKg : option Q;
  waistCm : option Q;
  avgLumbarPain : option Q;
  steps : option Q;
  sleepHours : option Q;
  chestCm : option Q;
  shouldersCm : option Q;
  armCm : option Q;
  hipsCm : option Q
}.

(** [WeeklyNumberField = keyof Omit<WeeklyMeasurement, 'id' | 'weekStart'>]. *)
Inductive field : Type :=
| f_avgWeightKg | f_waistCm | f_avgLumbarPain | f_steps | f_sleepHours
| f_chestCm | f_shouldersCm | f_armCm | f_hipsCm.

(** [row[field]]. *)
Definition get (fld : field) (row : t) : option Q :=
  match fld with
  | f_avgWeightKg => avgWeightKg row
  | f_waistCm => waistCm row
  | f_avgLumbarPain => avgLumbarPain row
  | f_steps => steps row
  | f_sleepHours => sleepHours row
  | f_chestCm => chestCm row
  | f_shouldersCm => shouldersCm row
  | f_armCm => armCm row
  | f_hipsCm => hipsCm row
  end.
End WeeklyMeasurement.

(** The part of [AppState] that the engine reads.  The engine reads the
    weekly measurements as [state.weeklyMeasurements ?? []]: a missing list
    is the empty list. *)
Module AppState.
Record t : Type := mk {
  logs : list DailyLog.t;
  weeklyMeasurements : list WeeklyMeasurement.t
}.
End AppState.

(** ** Constants ([constants.ts]) *)

Definition CORE_EXERCISE_IDS : list CoreExerciseId :=
  [jalon; remo; laterales; press_inclinado].

Module DayTarget.
Record t : Type := mk { kcal : Q; p : Q; f : Q; c : Q }.
End DayTarget.

Definition DAY_TARGETS (dayType : TrainingDayType) : DayTarget.t :=
  match dayType with
  | gym => {| DayTarget.kcal := 2200; DayTarget.p := 150; DayTarget.f := 60; DayTarget.c := 250 |}
  | nogym => {| DayTarget.kcal := 2000; DayTarget.p := 150; DayTarget.f := 70; DayTarget.c := 170 |}
  end.

(** ** Totals and adherence *)

Inductive KpiDecision : Type := none | down150kcal | up125kcal | deload.

Module DailyTotal.
Record t : Type := mk { p : Q; f : Q; c : Q; kcal : Q }.
End DailyTotal.

Definition clamp (value min max : Q) : Q := Qmax min (Qmin max value).

Definition getDailyTotals (log : DailyLog.t) : DailyTotal.t :=
  fold_left
    (fun acc meal =>
       {| DailyTotal.p := DailyTotal.p acc + MealItem.p meal;
          DailyTotal.f := DailyTotal.f acc + MealItem.f meal;
          DailyTotal.c := DailyTotal.c acc + MealItem.c meal;
          DailyTotal.kcal := DailyTotal.kcal acc + MealItem.kcal meal |})
    (DailyLog.meals log)
    {| DailyTotal.p := 0; DailyTotal.f := 0; DailyTotal.c := 0; DailyTotal.kcal := 0 |}.

Definition getSetExerciseId (set : WorkoutSet.t) : string :=
  if negb (String.eqb (WorkoutSet.exerciseId set) EmptyString)
  then WorkoutSet.exerciseId set
  else match WorkoutSet.exercise set with
       | Some e => coreExerciseString e
       | None => EmptyString
       end.

Definition closeness (actual target : Q) : Q :=
  if Qle_bool target 0 then 1
  else clamp (1 - Qabs (actual - target) / target) 0 1.

Definition computeDayAdherence (log : DailyLog.t) : Adherence.t :=
  let totals := getDailyTotals log in
  let target := DAY_TARGETS (DailyLog.dayType log) in
  let completed (slot : MealName) :=
    Js.some (fun m => MealName_eqb (MealItem.meal m) slot) (DailyLog.meals log) in
  let mealCompleted_desayuno := completed desayuno in
  let mealCompleted_comida := completed comida in
  let mealCompleted_cena := completed cena in
  let flags0 : list string := [] in
  let flags1 := if negb mealCompleted_desayuno then flags0 ++ ["missing_desayuno"%string] else flags0 in
  let flags2 := if negb mealCompleted_comida then flags1 ++ ["missing_comida"%string] else flags1 in
  let flags := if negb mealCompleted_cena then flags2 ++ ["missing_cena"%string] else flags2 in
  let mealScore :=
    Js.len (filter (fun b : bool => b)
              [mealCompleted_desayuno; mealCompleted_comida; mealCompleted_cena]) / 3 in
  let macroScore :=
    closeness (DailyTotal.p totals) (DayTarget.p target) * 0.45 +
    closeness (DailyTotal.f totals) (DayTarget.f target) * 0.2 +
    closeness (DailyTotal.c totals) (DayTarget.c target) * 0.2 +
    closeness (DailyTotal.kcal totals) (DayTarget.kcal target) * 0.15 in
  {| Adherence.nutritionPercent :=
       clamp (Js.Math_round ((mealScore * 0.35 + macroScore * 0.65) * 100)) 0 100;
     Adherence.kpiFlags := flags |}.

(** ** Range filters *)

Definition filterRange (logs : list DailyLog.t) (range : Range) : list DailyLog.t :=
  filter (fun log => isInRange (DailyLog.date log) (start range) (end_ range)) logs.

Definition filterWeeklyRange (weeks : list WeeklyMeasurement.t) (range : Range)
  : list WeeklyMeasurement.t :=
  filter (fun week => isInRange (WeeklyMeasurement.weekStart week) (start range) (end_ range)) weeks.

(** ** Averages and the weekly-over-daily resolver *)

Definition average (values : list Q) : Q :=
  match values with
  | [] => 0
  | _ => Js.toFixed 2 (Js.sum values / Js.len values)
  end.

(** [b.date.localeCompare(a.date)]: newest first. *)
Definition dailyNewestFirst (a b : DailyLog.t) : bool :=
  (DailyLog.date b <=? DailyLog.date a)%Z.

(** [a.date.localeCompare(b.date)]: oldest first. *)
Definition dailyOldestFirst (a b : DailyLog.t) : bool :=
  (DailyLog.date a <=? DailyLog.date b)%Z.

(** [b.weekStart.localeCompare(a.weekStart)]: newest first. *)
Definition weeklyNewestFirst (a b : WeeklyMeasurement.t) : bool :=
  (WeeklyMeasurement.weekStart b <=? WeeklyMeasurement.weekStart a)%Z.

Definition isSome {A : Type} (o : option A) : bool :=
  match o with Some _ => true | None => false end.

Definition lastNumberFor (rows : list DailyLog.t) (field : DailyLog.key) : option Q :=
  let reversed := Js.sort dailyNewestFirst rows in
  match Js.find (fun item => isSome (DailyLog.number field item)) reversed with
  | None => None
  | Some row => DailyLog.number field row
  end.

Definition lastWeeklyNumber (rows : list WeeklyMeasurement.t) (field : WeeklyMeasurement.field)
  : option Q :=
  let reversed := Js.sort weeklyNewestFirst rows in
  match Js.find (fun item => isSome (WeeklyMeasurement.get field item)) reversed with
  | None => None
  | Some row => WeeklyMeasurement.get field row
  end.

Definition avgByField (rows : list DailyLog.t) (field : DailyLog.key) : Q :=
  let values := Js.numbers (map (DailyLog.number field) rows) in
  average values.

Definition avgWeeklyByField (rows : list WeeklyMeasurement.t) (field : WeeklyMeasurement.field) : Q :=
  let values := Js.numbers (map (WeeklyMeasurement.get field) rows) in
  average values.

Definition latestFromWeeklyOrDaily
    (weeklyRows : list WeeklyMeasurement.t) (dailyRows : list DailyLog.t)
    (weeklyField : WeeklyMeasurement.field) (dailyField : DailyLog.key) : option Q :=
  match lastWeeklyNumber weeklyRows weeklyField with
  | Some weeklyValue => Some weeklyValue
  | None =>
      match lastNumberFor dailyRows dailyField with
      | None => None
      | Some dailyValue => Some dailyValue
      end
  end.

Definition avgFromWeeklyOrDaily
    (weeklyRows : list WeeklyMeasurement.t) (dailyRows : list DailyLog.t)
    (weeklyField : WeeklyMeasurement.field) (dailyField : DailyLog.key) : Q :=
  let hasWeeklyValue :=
    Js.some (fun row => isSome (WeeklyMeasurement.get weeklyField row)) weeklyRows in
  if hasWeeklyValue then avgWeeklyByField weeklyRows weeklyField
  else avgByField dailyRows dailyField.

Definition lumbarAvg (rows : list DailyLog.t) : Q :=
  average (map DailyLog.lumbarPain rows).

Definition latestWeeklyPainAverage (rows : list WeeklyMeasurement.t) : option Q :=
  let values := Js.numbers (map WeeklyMeasurement.avgLumbarPain rows) in
  match values with
  | [] => None
  | _ => Some (average values)
  end.

(** ** Pain-spike detector *)

Definition isNextDay (a b : IsoDate) : bool :=
  let previous := addDays (dateOfIso a) 1 in
  (isoOfDate previous =? b)%Z.

(** The body of the [for] loop of [hasConsecutivePainSpike], with its two
    mutable variables [run] and [lastDate]. *)
Fixpoint painSpikeLoop (threshold minStreak : Q) (run : Q) (lastDate : option IsoDate)
    (ordered : list DailyLog.t) : bool :=
  match ordered with
  | [] => false
  | row :: rest =>
      if Js.geb (DailyLog.lumbarPain row) threshold then
        let run' :=
          if match lastDate with
             | Some d => isNextDay d (DailyLog.date row)
             | None => false
             end
          then run + 1
          else 1 in
        if Js.geb run' minStreak then true
        else painSpikeLoop threshold minStreak run' (Some (DailyLog.date row)) rest
      else
        painSpikeLoop threshold minStreak 0 (Some (DailyLog.date row)) rest
  end.

Definition hasConsecutivePainSpikeWith (rows : list DailyLog.t) (threshold minStreak : Q) : bool :=
  let ordered := Js.sort dailyOldestFirst rows in
  match ordered with
  | [] => false
  | _ => painSpikeLoop threshold minStreak 0 None ordered
  end.

(** The call with the default [threshold = 7] and [minStreak = 3]. *)
Definition hasConsecutivePainSpike (rows : list DailyLog.t) : bool :=
  hasConsecutivePainSpikeWith rows 7 3.

Definition weekHasHighPainWith (rows : list WeeklyMeasurement.t) (threshold : Q) : bool :=
  Js.some
    (fun row =>
       match WeeklyMeasurement.avgLumbarPain row with
       | Some pain => Js.geb pain threshold
       | None => false
       end)
    rows.

(** The call with the default [threshold = 7]. *)
Definition weekHasHighPain (rows : list WeeklyMeasurement.t) : bool :=
  weekHasHighPainWith rows 7.

(** ** Performance index *)

(** A [Map<string, number>] keyed by date; entries keep their insertion
    order, and setting an existing key keeps its place. *)
Module DateMap.
Definition t : Type := list (IsoDate * Q).

Definition empty : t := [].

Fixpoint get (k : IsoDate) (m : t) : option Q :=
  match m with
  | [] => None
  | (k', v) :: rest => if (k =? k')%Z then Some v else get k rest
  end.

Fixpoint set (k : IsoDate) (v : Q) (m : t) : t :=
  match m with
  | [] => [(k, v)]
  | (k', v') :: rest =>
      if (k =? k')%Z then (k, v) :: rest else (k', v') :: set k v rest
  end.

Definition values (m : t) : list Q := map snd m.
End DateMap.

(** The best load of one log for an exercise: the [best] of the callback of
    [getExerciseBest]. *)
Definition logBest (exercise : CoreExerciseId) (log : DailyLog.t) : Q :=
  fold_left
    (fun acc set =>
       let load := WorkoutSet.sets set * WorkoutSet.reps set * WorkoutSet.weightKg set in
       Qmax acc load)
    (filter (fun set => String.eqb (getSetExerciseId set) (coreExerciseString exercise))
       (flat_map WorkoutSession.sets (DailyLog.workout log)))
    0.

Definition groupByDate (exercise : CoreExerciseId) (rows : list DailyLog.t) : DateMap.t :=
  fold_left
    (fun groupedByDate log =>
       let day := DailyLog.date log in
       let best := logBest exercise log in
       if Js.ltb 0 best
       then DateMap.set day
              (Qmax (match DateMap.get day groupedByDate with Some v => v | None => 0 end) best)
              groupedByDate
       else groupedByDate)
    rows DateMap.empty.

Definition getExerciseBest (rows : list DailyLog.t) (exercise : CoreExerciseId) : Q :=
  average (DateMap.values (groupByDate exercise rows)).

(** The callback of [keys.map] in [performanceIndex]. *)
Definition exerciseDiff (currentWindow previousWindow : list DailyLog.t) (key : CoreExerciseId) : Q :=
  let current := getExerciseBest currentWindow key in
  let previous := getExerciseBest previousWindow key in
  if negb (Js.truthy previous) || negb (Js.truthy current) then 0
  else (current - previous) / previous.

Definition performanceIndex (state : AppState.t) (fromDate : Date) : Q :=
  let currentWindow := filterRange (AppState.logs state) (getRange 7 fromDate) in
  let previousWindow := filterRange (AppState.logs state) (getRange 7 (addDays fromDate (-7))) in
  let keys := CORE_EXERCISE_IDS in
  let diffs := map (exerciseDiff currentWindow previousWindow) keys in
  match diffs with
  | [] => 0
  | _ => Js.toFixed 3 (Js.sum diffs / Js.len diffs)
  end.

(** ** Decision engine *)

Module Decision.
Record t : Type := mk { decision : KpiDecision; reason : string }.
End Decision.

Definition decide (state : AppState.t) (fromDate : Date) : Decision.t :=
  let this14 := filterRange (AppState.logs state) (getRange 14 fromDate) in
  let prev14 := filterRange (AppState.logs state) (getRange 14 (addDays fromDate (-14))) in
  let this14Weekly := filterWeeklyRange (AppState.weeklyMeasurements state) (getRange 14 fromDate) in
  let prev14Weekly :=
    filterWeeklyRange (AppState.weeklyMeasurements state) (getRange 14 (addDays fromDate (-14))) in
  let hasHighPain := weekHasHighPain this14Weekly || hasConsecutivePainSpike this14 in
  if hasHighPain then
    {| Decision.decision := deload;
       Decision.reason :=
         "Dolor lumbar alto (semanal o diario). Aplicar deload 30-40% de volumen 1 semana y sustituciones seguras." |}
  else
    let thisWaist := latestFromWeeklyOrDaily this14Weekly this14
                       WeeklyMeasurement.f_waistCm DailyLog.k_waistCm in
    let prevWaist := latestFromWeeklyOrDaily prev14Weekly prev14
                       WeeklyMeasurement.f_waistCm DailyLog.k_waistCm in
    let thisWeight := avgFromWeeklyOrDaily this14Weekly this14
                        WeeklyMeasurement.f_avgWeightKg DailyLog.k_weightKg in
    let prevWeight := avgFromWeeklyOrDaily prev14Weekly prev14
                        WeeklyMeasurement.f_avgWeightKg DailyLog.k_weightKg in
    let adherence :=
      match this14 with
      | [] => 0
      | _ =>
          Js.Math_round
            (fold_left
               (fun sum log => sum + Adherence.nutritionPercent (computeDayAdherence log))
               this14 0
             / Js.len this14)
      end in
    let waistNotDown :=
      match thisWaist, prevWaist with
      | Some tw, Some pw => Js.geb tw pw
      | _, _ => false
      end in
    let weightNotDown :=
      if Js.truthy thisWeight && Js.truthy prevWeight
      then Js.geb thisWeight prevWeight
      else false in
    let perf := performanceIndex state fromDate in
    if waistNotDown && weightNotDown && Js.geb adherence 80 then
      {| Decision.decision := down150kcal;
         Decision.reason :=
           "No baja cintura ni peso, adherencia >=80. Sugerencia: -150 kcal o +2000 pasos por dia." |}
    else
      let weightDrop := if Js.truthy prevWeight then prevWeight - thisWeight else 0 in
      if Js.ltb 0.6 weightDrop || Js.ltb perf (-0.05) then
        {| Decision.decision := up125kcal;
           Decision.reason :=
             "Pérdida de >0.6kg/semana o descenso de rendimiento. Sugerencia: +100/125 kcal en días de gimnasio." |}
      else
        {| Decision.decision := none;
           Decision.reason := "Sin ajuste automatico en esta quincena." |}.

(** ** KPI summary *)

Module Kpis7.
Record t : Type := mk {
  avgWeight : Q;
  waist : option Q;
  waistTrend : option Q;
  lumbar : Q;
  adherence : Q;
  weightPoints : Q;
  waistPoints : Q
}.
End Kpis7.

Module Kpis14.
Record t : Type := mk {
  avgWeight : Q;
  waist : option Q;
  waistTrend : option Q;
  lumbar : Q;
  adherence : Q;
  perfIndex : Q;
  decision : KpiDecision;
  reason : string
}.
End Kpis14.

Module KpiSummary.
Record t : Type := mk { kpis7 : Kpis7.t; kpis14 : Kpis14.t }.
End KpiSummary.

Definition calculateKpis (state : AppState.t) (fromDate : Date) : KpiSummary.t :=
  let rows7 := filterRange (AppState.logs state) (getRange 7 fromDate) in
  let rows14 := filterRange (AppState.logs state) (getRange 14 fromDate) in
  let prev7 := filterRange (AppState.logs state) (getRange 7 (addDays fromDate (-7))) in
  let prev14 := filterRange (AppState.logs state) (getRange 14 (addDays fromDate (-14))) in
  let weekly7 := filterWeeklyRange (AppState.weeklyMeasurements state) (getRange 7 fromDate) in
  let weekly14 := filterWeeklyRange (AppState.weeklyMeasurements state) (getRange 14 fromDate) in
  let prevWeekly7 :=
    filterWeeklyRange (AppState.weeklyMeasurements state) (getRange 7 (addDays fromDate (-7))) in
  let prevWeekly14 :=
    filterWeeklyRange (AppState.weeklyMeasurements state) (getRange 14 (addDays fromDate (-14))) in
  let waist7 := latestFromWeeklyOrDaily weekly7 rows7 WeeklyMeasurement.f_waistCm DailyLog.k_waistCm in
  let waist14 := latestFromWeeklyOrDaily weekly14 rows14 WeeklyMeasurement.f_waistCm DailyLog.k_waistCm in
  let waist7Prev :=
    latestFromWeeklyOrDaily prevWeekly7 prev7 WeeklyMeasurement.f_waistCm DailyLog.k_waistCm in
  let waist14Prev :=
    latestFromWeeklyOrDaily prevWeekly14 prev14 WeeklyMeasurement.f_waistCm DailyLog.k_waistCm in
  let weightPoints :=
    Js.len (filter (fun row => isSome (WeeklyMeasurement.avgWeightKg row)) weekly7)
    + Js.len (filter (fun row => isSome (DailyLog.weightKg row)) rows7) in
  let waistPoints :=
    Js.len (filter (fun row => isSome (WeeklyMeasurement.waistCm row)) weekly7)
    + Js.len (filter (fun row => isSome (DailyLog.waistCm row)) rows7) in
  let verdict := decide state fromDate in
  {| KpiSummary.kpis7 :=
       {| Kpis7.avgWeight :=
            avgFromWeeklyOrDaily weekly7 rows7 WeeklyMeasurement.f_avgWeightKg DailyLog.k_weightKg;
          Kpis7.waist := waist7;
          Kpis7.waistTrend :=
            match waist7, waist7Prev with
            | Some w, Some wPrev => Some (Js.toFixed 2 (w - wPrev))
            | _, _ => None
            end;
          Kpis7.lumbar :=
            match latestWeeklyPainAverage weekly7 with
            | Some pain => pain
            | None => match rows7 with [] => 0 | _ => lumbarAvg rows7 end
            end;
          Kpis7.adherence :=
            match rows7 with
            | [] => 0
            | _ =>
                Js.Math_round
                  (fold_left
                     (fun sum log => sum + Adherence.nutritionPercent (computeDayAdherence log))
                     rows7 0
                   / Js.len rows7)
            end;
          Kpis7.weightPoints := weightPoints;
          Kpis7.waistPoints := waistPoints |};
     KpiSummary.kpis14 :=
       {| Kpis14.avgWeight :=
            avgFromWeeklyOrDaily weekly14 rows14 WeeklyMeasurement.f_avgWeightKg DailyLog.k_weightKg;
          Kpis14.waist := waist14;
          Kpis14.waistTrend :=
            match waist14, waist14Prev with
            | Some w, Some wPrev => Some (Js.toFixed 2 (w - wPrev))
            | _, _ => None
            end;
          Kpis14.lumbar :=
            match latestWeeklyPainAverage weekly14 with
            | Some pain => pain
            | None => match rows14 with [] => 0 | _ => lumbarAvg rows14 end
            end;
          Kpis14.adherence :=
            match rows14 with
            | [] => 0
            | _ =>
                Js.Math_round
                  (fold_left
                     (fun sum log => sum + Adherence.nutritionPercent (computeDayAdherence log))
                     rows14 0
                   / Js.len rows14)
            end;
          Kpis14.perfIndex := performanceIndex state fromDate;
          Kpis14.decision := Decision.decision verdict;
          Kpis14.reason := Decision.reason verdict |} |}.

(** ** Normalization of stored weekly measurements (storage module) *)

(** A weekly row as parsed from storage or from an imported file: any field
    may be missing or hold something that is not a finite number.  A missing
    or empty [weekStart] is [None]. *)
Module RawWeekly.
Record t : Type := mk {
  id : option string;
  weekStart : option IsoDate;
  avgWeightKg : Js.value;
  waistCm : Js.value;
  avgLumbarPain : Js.value;
  steps : Js.value;
  sleepHours : Js.value;
  chestCm : Js.value;
  shouldersCm : Js.value;
  armCm : Js.value;
  hipsCm : Js.value
}.
End RawWeekly.

Section Storage.

(** [uid()] draws on the clock and on [Math.random]; [uid i] stands for the
    identifier it returns for the row at index [i]. *)
Variable uid : nat -> string.

(** The callback of [.map] followed by [.filter((row) => row.weekStart)]. *)
Definition normalizeWeeklyRow (i : nat) (row : RawWeekly.t) : option WeeklyMeasurement.t :=
  match RawWeekly.weekStart row with
  | None => None
  | Some weekStart =>
      Some {| WeeklyMeasurement.id :=
                match RawWeekly.id row with Some id => id | None => uid i end;
              WeeklyMeasurement.weekStart := weekStart;
              WeeklyMeasurement.avgWeightKg := Js.finiteNumber (RawWeekly.avgWeightKg row);
              WeeklyMeasurement.waistCm := Js.finiteNumber (RawWeekly.waistCm row);
              WeeklyMeasurement.avgLumbarPain := Js.finiteNumber (RawWeekly.avgLumbarPain row);
              WeeklyMeasurement.steps := Js.finiteNumber (RawWeekly.steps row);
              WeeklyMeasurement.sleepHours := Js.finiteNumber (RawWeekly.sleepHours row);
              WeeklyMeasurement.chestCm := Js.finiteNumber (RawWeekly.chestCm row);
              WeeklyMeasurement.shouldersCm := Js.finiteNumber (RawWeekly.shouldersCm row);
              WeeklyMeasurement.armCm := Js.finiteNumber (RawWeekly.armCm row);
              WeeklyMeasurement.hipsCm := Js.finiteNumber (RawWeekly.hipsCm row) |}
  end.

Fixpoint normalizeWeeklyRows (i : nat) (rawWeekly : list RawWeekly.t)
  : list WeeklyMeasurement.t :=
  match rawWeekly with
  | [] => []
  | row :: rest =>
      match normalizeWeeklyRow i row with
      | Some r => r :: normalizeWeeklyRows (S i) rest
      | None => normalizeWeeklyRows (S i) rest
      end
  end.

(** [seen.has(weekStart)] on the [Set<string>] of the second filter. *)
Definition seenHas (weekStart : IsoDate) (seen : list IsoDate) : bool :=
  existsb (Z.eqb weekStart) seen.

(** The second [.filter]: a row passes unless its [weekStart] was seen. *)
Fixpoint filterUnseen (seen : list IsoDate) (rows : list WeeklyMeasurement.t)
  : list WeeklyMeasurement.t :=
  match rows with
  | [] => []
  | row :: rest =>
      if seenHas (WeeklyMeasurement.weekStart row) seen
      then filterUnseen seen rest
      else row :: filterUnseen (WeeklyMeasurement.weekStart row :: seen) rest
  end.

Definition normalizeWeeklyMeasurements (rawWeekly : list RawWeekly.t)
  : list WeeklyMeasurement.t :=
  Js.sort weeklyNewestFirst (filterUnseen [] (normalizeWeeklyRows 0 rawWeekly)).

End Storage.

(** ** CSV serializer *)

Definition quoteChar : ascii := ascii_of_nat 34.
Definition newlineChar : ascii := ascii_of_nat 10.
Definition commaChar : ascii := ascii_of_nat 44.

Fixpoint stringHas (test : ascii -> bool) (s : string) : bool :=
  match s with
  | EmptyString => false
  | String ch rest => test ch || stringHas test rest
  end.

(** The [replace] of [escapeValue]: every double quote is written twice. *)
Fixpoint doubleQuotes (s : string) : string :=
  match s with
  | EmptyString => EmptyString
  | String ch rest =>
      if Ascii.eqb ch quoteChar
      then String quoteChar (String quoteChar (doubleQuotes rest))
      else String ch (doubleQuotes rest)
  end.

Definition escapeValue (value : string) : string :=
  if stringHas (fun ch => Ascii.eqb ch quoteChar || Ascii.eqb ch commaChar
                          || Ascii.eqb ch newlineChar) value
  then String quoteChar (doubleQuotes value ++ String quoteChar EmptyString)
  else value.

Definition getWeekForDate (hostOffset : Z) (weeklyRows : list WeeklyMeasurement.t)
    (date : IsoDate) : option WeeklyMeasurement.t :=
  let ordered := Js.sort weeklyNewestFirst weeklyRows in
  Js.find
    (fun row =>
       let start' := WeeklyMeasurement.weekStart row in
       let end' := isoOfDate (addDays (localMidnight hostOffset start') 6) in
       ((start' <=? date) && (date <=? end'))%Z)
    ordered.

(** An element of the local array [meals] of [toCsv]: a meal item of the log,
    or the stand-in used for a log without meals, which has an empty name,
    zero quantities and no [source]. *)
Inductive CsvMeal : Type :=
| Logged (item : MealItem.t)
| StandIn.

Definition csvHeader : list string :=
  [ "fecha"; "tipo_dia"; "pesoKg"; "cinturaCm"; "dolor_lumbar"; "sueño_h"; "pasos";
    "peso_semanal_kg"; "cintura_semanal_cm"; "dolor_lumbar_promedio"; "sueño_semanal_h";
    "pasos_semanal"; "pecho_cm"; "hombros_cm"; "brazo_cm"; "cadera_cm";
    "comida"; "gramos"; "proteinas"; "grasas"; "carbos"; "kcal";
    "ejercicio"; "sets"; "reps"; "kg"; "rir" ]%string.

Section Csv.

(** [String(n)] on a number. *)
Variable numberString : Q -> string.

(** The text [YYYY-MM-DD] of a date. *)
Variable dateString : IsoDate -> string.

(** The host clock's offset from UTC, in milliseconds. *)
Variable hostOffset : Z.

(** [x ? String(x) : ''] on an optional number: blank when absent or zero. *)
Definition truthyCell (x : option Q) : string :=
  match x with
  | Some v => if Js.truthy v then numberString v else EmptyString
  | None => EmptyString
  end.

(** [weekly?.x != null ? String(weekly.x) : '']. *)
Definition weeklyCell (weekly : option WeeklyMeasurement.t)
    (field : WeeklyMeasurement.field) : string :=
  match weekly with
  | Some w =>
      match WeeklyMeasurement.get field w with
      | Some v => numberString v
      | None => EmptyString
      end
  | None => EmptyString
  end.

Definition mealLabel (m : CsvMeal) : string :=
  match m with
  | Logged item =>
      (mealNameString (MealItem.meal item) ++ " ("
       ++ mealSourceString (MealItem.source item) ++ ")")%string
  | StandIn => (EmptyString ++ " (" ++ "undefined" ++ ")")%string
  end.

Definition mealNumber (get : MealItem.t -> Q) (m : CsvMeal) : Q :=
  match m with
  | Logged item => get item
  | StandIn => 0
  end.

Definition mealCells (meal : option CsvMeal) : list string :=
  match meal with
  | Some m =>
      [ mealLabel m;
        numberString (mealNumber MealItem.grams m);
        numberString (mealNumber MealItem.p m);
        numberString (mealNumber MealItem.f m);
        numberString (mealNumber MealItem.c m);
        numberString (mealNumber MealItem.kcal m) ]
  | None => [ EmptyString; EmptyString; EmptyString; EmptyString; EmptyString; EmptyString ]
  end.

Definition setCells (set : option WorkoutSet.t) : list string :=
  match set with
  | Some s =>
      [ getSetExerciseId s;
        numberString (WorkoutSet.sets s);
        numberString (WorkoutSet.reps s);
        numberString (WorkoutSet.weightKg s);
        match WorkoutSet.rir s with Some r => numberString r | None => EmptyString end ]
  | None => [ EmptyString; EmptyString; EmptyString; EmptyString; EmptyString ]
  end.

(** The array [meals] of the loop body. *)
Definition csvMeals (log : DailyLog.t) : list CsvMeal :=
  match DailyLog.meals log with
  | [] => [StandIn]
  | items => map Logged items
  end.

(** The array [sets] of the loop body. *)
Definition csvSets (log : DailyLog.t) : list WorkoutSet.t :=
  flat_map WorkoutSession.sets (DailyLog.workout log).

Definition rowsInDay (log : DailyLog.t) : nat :=
  Nat.max (Nat.max (List.length (csvMeals log)) (List.length (csvSets log))) 1.

(** The array [row] built at index [i], after [.map(escapeValue)]. *)
Definition csvRow (weekly : option WeeklyMeasurement.t) (log : DailyLog.t) (i : nat)
  : list string :=
  let meal := nth_error (csvMeals log) i in
  let set := nth_error (csvSets log) i in
  map escapeValue
    ([ dateString (DailyLog.date log);
       dayTypeString (DailyLog.dayType log);
       truthyCell (DailyLog.weightKg log);
       truthyCell (DailyLog.waistCm log);
       numberString (DailyLog.lumbarPain log);
       truthyCell (DailyLog.sleepHours log);
       truthyCell (DailyLog.steps log);
       weeklyCell weekly WeeklyMeasurement.f_avgWeightKg;
       weeklyCell weekly WeeklyMeasurement.f_waistCm;
       weeklyCell weekly WeeklyMeasurement.f_avgLumbarPain;
       weeklyCell weekly WeeklyMeasurement.f_sleepHours;
       weeklyCell weekly WeeklyMeasurement.f_steps;
       weeklyCell weekly WeeklyMeasurement.f_chestCm;
       weeklyCell weekly WeeklyMeasurement.f_shouldersCm;
       weeklyCell weekly WeeklyMeasurement.f_armCm;
       weeklyCell weekly WeeklyMeasurement.f_hipsCm ]
     ++ mealCells meal ++ setCells set).

(** The rows that one pass of [selected.forEach] produces for a log. *)
Definition csvRowsOfLog (weeklyRows : list WeeklyMeasurement.t) (log : DailyLog.t)
  : list (list string) :=
  let weekly := getWeekForDate hostOffset weeklyRows (DailyLog.date log) in
  map (csvRow weekly log) (seq 0 (rowsInDay log)).

(** The array [lines] at the end of [toCsv]. *)
Definition toCsvLines (rows : list DailyLog.t) (start' end' : IsoDate)
    (weeklyRows : list WeeklyMeasurement.t) : list string :=
  let selected := filter (fun row => isInRange (DailyLog.date row) start' end') rows in
  String.concat ","%string csvHeader
  :: flat_map (fun log => map (String.concat ","%string) (csvRowsOfLog weeklyRows log)) selected.

Definition toCsv (rows : list DailyLog.t) (start' end' : IsoDate)
    (weeklyRows : list WeeklyMeasurement.t) : string :=
  String.concat (String newlineChar EmptyString) (toCsvLines rows start' end' weeklyRows).

End Csv.


(** ** Meal targets ([constants.ts], [mealTargetFor]) *)

Module MealTarget.
Record t : Type := mk { p : Q; f : Q; c : Q; kcal : Q }.
End MealTarget.

Definition MEAL_TARGETS (meal : MealName) : MealTarget.t :=
  match meal with
  | desayuno => {| MealTarget.p := 45; MealTarget.f := 20; MealTarget.c := 70; MealTarget.kcal := 650 |}
  | comida => {| MealTarget.p := 45; MealTarget.f := 20; MealTarget.c := 80; MealTarget.kcal := 700 |}
  | cena => {| MealTarget.p := 60; MealTarget.f := 20; MealTarget.c := 100; MealTarget.kcal := 850 |}
  end.

Definition mealTargetFor (dayType : TrainingDayType) (meal : MealName) : MealTarget.t :=
  match dayType with
  | gym => MEAL_TARGETS meal
  | nogym =>
      match meal with
      | desayuno =>
          {| MealTarget.p := 50; MealTarget.f := 25; MealTarget.c := 50; MealTarget.kcal := 650 |}
      | comida =>
          {| MealTarget.p := 50; MealTarget.f := 25; MealTarget.c := 60; MealTarget.kcal := 750 |}
      | cena =>
          {| MealTarget.p := 50; MealTarget.f := 20; MealTarget.c := 60; MealTarget.kcal := 600 |}
      end
  end.

(** ** Week bounds (backup module and [App.tsx]) *)

(** [date.getDay()]: the day of the week on the host's clock, Sunday being 0;
    1970-01-01 was a Thursday. *)
Definition getDay (hostOffset : Z) (t : Date) : Z :=
  (((t + hostOffset) / msPerDay + 4) mod 7)%Z.

Definition toWeekStart (hostOffset : Z) (date : IsoDate) : IsoDate :=
  let base := localMidnight hostOffset date in
  let day := getDay hostOffset base in
  let diff := ((day + 6) mod 7)%Z in
  isoOfDate (addDays base (- diff)).

Definition toWeekEnd (hostOffset : Z) (weekStart : IsoDate) : IsoDate :=
  let end' := localMidnight hostOffset weekStart in
  isoOfDate (addDays end' 6).

Definition inDateRange (value start' end' : IsoDate) : bool :=
  ((start' <=? value) && (value <=? end'))%Z.

Module WeekBounds.
Record t : Type := mk { weekStart : IsoDate; weekEnd : IsoDate }.
End WeekBounds.

Definition getWeekBounds (hostOffset : Z) (referenceDate : IsoDate) : WeekBounds.t :=
  let weekStart := toWeekStart hostOffset referenceDate in
  let weekEnd := toWeekEnd hostOffset weekStart in
  {| WeekBounds.weekStart := weekStart; WeekBounds.weekEnd := weekEnd |}.

(** The [logs] and [weeklyMeasurements] of the payload of [exportWeeklyJson]. *)
Definition exportWeeklyLogs (hostOffset : Z) (state : AppState.t) (referenceDate : IsoDate)
  : list DailyLog.t :=
  let bounds := getWeekBounds hostOffset referenceDate in
  filter (fun log => inDateRange (DailyLog.date log)
                       (WeekBounds.weekStart bounds) (WeekBounds.weekEnd bounds))
    (AppState.logs state).

Definition exportWeeklyMeasurements (hostOffset : Z) (state : AppState.t)
    (referenceDate : IsoDate) : list WeeklyMeasurement.t :=
  let bounds := getWeekBounds hostOffset referenceDate in
  filter (fun row => inDateRange (WeeklyMeasurement.weekStart row)
                       (WeekBounds.weekStart bounds) (WeekBounds.weekEnd bounds))
    (AppState.weeklyMeasurements state).

(** ** Exercise catalog and presets (storage module) *)

Module ExerciseCatalogItem.
Record t : Type := mk {
  id : string;
  name : string;
  isCore : bool;
  coreId : option CoreExerciseId
}.
End ExerciseCatalogItem.

(** A catalog item as parsed from storage: a field may be missing. *)
Module RawCatalogItem.
Record t : Type := mk {
  id : option string;
  name : option string;
  isCore : option bool;
  coreId : option CoreExerciseId
}.
End RawCatalogItem.

Definition CORE_EXERCISE_LABELS (e : CoreExerciseId) : string :=
  match e with
  | jalon => "Jalon al pecho"
  | remo => "Remo cable / maquina"
  | laterales => "Elevaciones laterales"
  | press_inclinado => "Press inclinado"
  end.

Definition coreItem (e : CoreExerciseId) : ExerciseCatalogItem.t :=
  {| ExerciseCatalogItem.id := coreExerciseString e;
     ExerciseCatalogItem.name := CORE_EXERCISE_LABELS e;
     ExerciseCatalogItem.isCore := true;
     ExerciseCatalogItem.coreId := Some e |}.

Definition plainItem (id name : string) : ExerciseCatalogItem.t :=
  {| ExerciseCatalogItem.id := id; ExerciseCatalogItem.name := name;
     ExerciseCatalogItem.isCore := false; ExerciseCatalogItem.coreId := None |}.

Definition DEFAULT_EXERCISE_CATALOG : list ExerciseCatalogItem.t :=
  [ coreItem jalon; coreItem remo; coreItem laterales; coreItem press_inclinado;
    plainItem "press_pecho_maquina" "Press pecho máquina";
    plainItem "prensa" "Prensa";
    plainItem "pallof" "Pallof press";
    plainItem "hip_thrust" "Hip thrust";
    plainItem "extension_cuadriceps" "Extensión cuádriceps";
    plainItem "face_pulls" "Face pulls";
    plainItem "dead_bug" "Dead bug";
    plainItem "hack_squat" "Hack squat";
    plainItem "abductores" "Abductores";
    plainItem "curl_femoral" "Curl femoral";
    plainItem "rkc" "RKC 20-40s";
    plainItem "farmer_carry" "Farmer carry" ].

(** Truthiness of an optional string: present and not empty. *)
Definition truthyString (s : option string) : bool :=
  match s with
  | Some v => negb (String.eqb v EmptyString)
  | None => false
  end.

Definition stringOr (s : option string) : string :=
  match s with Some v => v | None => EmptyString end.

(** [knownIds.has(id)] on the [Set<string>] of [normalizeExerciseCatalog]. *)
Definition knownHas (id : string) (knownIds : list string) : bool :=
  existsb (String.eqb id) knownIds.

(** The callback of [rawCatalog.forEach], on the pair of [merged] and
    [knownIds]; a [null] item is [None]. *)
Definition mergeCatalogItem (acc : list ExerciseCatalogItem.t * list string)
    (item : option RawCatalogItem.t) : list ExerciseCatalogItem.t * list string :=
  let (merged, knownIds) := acc in
  match item with
  | None => acc
  | Some it =>
      if negb (truthyString (RawCatalogItem.id it)) || negb (truthyString (RawCatalogItem.name it))
      then acc
      else
        let id := stringOr (RawCatalogItem.id it) in
        if negb (knownHas id knownIds)
        then (merged ++ [ {| ExerciseCatalogItem.id := id;
                             ExerciseCatalogItem.name := stringOr (RawCatalogItem.name it);
                             ExerciseCatalogItem.isCore :=
                               match RawCatalogItem.isCore it with
                               | Some b => b
                               | None => false
                               end;
                             ExerciseCatalogItem.coreId := RawCatalogItem.coreId it |} ],
              knownIds ++ [id])
        else acc
  end.

Definition normalizeExerciseCatalog (rawCatalog : list (option RawCatalogItem.t))
  : list ExerciseCatalogItem.t :=
  let merged := DEFAULT_EXERCISE_CATALOG in
  let knownIds := map ExerciseCatalogItem.id merged in
  fst (fold_left mergeCatalogItem rawCatalog (merged, knownIds)).

Module FoodPreset.
Record t : Type := mk {
  id : string;
  name : string;
  pPer100g : Q;
  fPer100g : Q;
  cPer100g : Q;
  kcalPer100g : Q
}.
End FoodPreset.

(** [sanitizePresetId]; the result is [None] where the code returns
    [undefined]. *)
Definition sanitizePresetId (presetId : option string) (presets : list FoodPreset.t)
  : option string :=
  let exists' :=
    Js.some (fun preset => match presetId with
                           | Some id => String.eqb (FoodPreset.id preset) id
                           | None => false
                           end) presets in
  if exists' then presetId
  else match presets with
       | first :: _ => Some (FoodPreset.id first)
       | [] => None
       end.

(** ** State updates of the form layer ([App.tsx]) *)

Definition getWorkoutSetId (set : WorkoutSet.t) : string :=
  if negb (String.eqb (WorkoutSet.exerciseId set) EmptyString)
  then WorkoutSet.exerciseId set
  else match WorkoutSet.exercise set with
       | Some e => coreExerciseString e
       | None => EmptyString
       end.

(** [clampPain] on a number; for [NaN], which [Q] does not have, the code
    returns 0. *)
Definition clampPain (value : Q) : Q := Qmin 10 (Qmax 0 (Js.Math_round value)).

Definition createEmptySession (freshId : string) (dayId : string) : WorkoutSession.t :=
  {| WorkoutSession.id := freshId; WorkoutSession.dayId := dayId;
     WorkoutSession.durationMin := None; WorkoutSession.sets := [] |}.

(** [findIndex]: the index of the first element that passes, if any. *)
Fixpoint findIndex {A : Type} (f : A -> bool) (l : list A) : option nat :=
  match l with
  | [] => None
  | x :: rest => if f x then Some O else option_map S (findIndex f rest)
  end.

(** [l.map((entry, entryIndex) => entryIndex === index ? g(entry) : entry)]. *)
Fixpoint mapAt {A : Type} (index : nat) (g : A -> A) (l : list A) : list A :=
  match l, index with
  | [], _ => []
  | x :: rest, O => g x :: rest
  | x :: rest, S i => x :: mapAt i g rest
  end.

(** [{ ...entry, ...sanitized }]: every field of [sanitized] overrides, the
    legacy [exercise] field of [entry] stays. *)
Definition mergeSet (entry sanitized : WorkoutSet.t) : WorkoutSet.t :=
  {| WorkoutSet.exerciseId := WorkoutSet.exerciseId sanitized;
     WorkoutSet.sets := WorkoutSet.sets sanitized;
     WorkoutSet.reps := WorkoutSet.reps sanitized;
     WorkoutSet.weightKg := WorkoutSet.weightKg sanitized;
     WorkoutSet.rir := WorkoutSet.rir sanitized;
     WorkoutSet.exercise := WorkoutSet.exercise entry |}.

Definition withWorkout (prev : DailyLog.t) (workout : list WorkoutSession.t) : DailyLog.t :=
  {| DailyLog.id := DailyLog.id prev; DailyLog.date := DailyLog.date prev;
     DailyLog.dayType := DailyLog.dayType prev; DailyLog.weightKg := DailyLog.weightKg prev;
     DailyLog.waistCm := DailyLog.waistCm prev; DailyLog.lumbarPain := DailyLog.lumbarPain prev;
     DailyLog.sleepHours := DailyLog.sleepHours prev; DailyLog.steps := DailyLog.steps prev;
     DailyLog.note := DailyLog.note prev; DailyLog.meals := DailyLog.meals prev;
     DailyLog.workout := workout; DailyLog.adherence := DailyLog.adherence prev |}.

Definition withSets (session : WorkoutSession.t) (sets : list WorkoutSet.t) : WorkoutSession.t :=
  {| WorkoutSession.id := WorkoutSession.id session;
     WorkoutSession.dayId := WorkoutSession.dayId session;
     WorkoutSession.durationMin := WorkoutSession.durationMin session;
     WorkoutSession.sets := sets |}.

(** The updater that [upsertWorkoutSet] passes to [setDraftLog]; [freshId] is
    the identifier that [uid()] would give to a new session. *)
Definition upsertWorkoutSet (freshId : string) (setData : WorkoutSet.t) (prev : DailyLog.t)
  : DailyLog.t :=
  let baseSession :=
    match DailyLog.workout prev with
    | first :: _ => first
    | [] => createEmptySession freshId (DailyLog.id prev)
    end in
  let index :=
    findIndex (fun entry => String.eqb (getWorkoutSetId entry) (WorkoutSet.exerciseId setData))
      (WorkoutSession.sets baseSession) in
  let sanitized :=
    {| WorkoutSet.exerciseId := WorkoutSet.exerciseId setData;
       WorkoutSet.sets := WorkoutSet.sets setData;
       WorkoutSet.reps := WorkoutSet.reps setData;
       WorkoutSet.weightKg := WorkoutSet.weightKg setData;
       WorkoutSet.rir := WorkoutSet.rir setData;
       WorkoutSet.exercise := None |} in
  let nextSets :=
    match index with
    | Some i => mapAt i (fun entry => mergeSet entry sanitized) (WorkoutSession.sets baseSession)
    | None => WorkoutSession.sets baseSession ++ [sanitized]
    end in
  withWorkout prev (withSets baseSession nextSets :: tl (DailyLog.workout prev)).

(** The updater of [removeWorkoutSet]. *)
Definition removeWorkoutSet (freshId : string) (exerciseId : string) (prev : DailyLog.t)
  : DailyLog.t :=
  let baseSession :=
    match DailyLog.workout prev with
    | first :: _ => first
    | [] => createEmptySession freshId (DailyLog.id prev)
    end in
  let nextSets :=
    filter (fun entry => negb (String.eqb (getWorkoutSetId entry) exerciseId))
      (WorkoutSession.sets baseSession) in
  withWorkout prev (withSets baseSession nextSets :: tl (DailyLog.workout prev)).

(** The list of logs that the updater of [saveDraft] builds: [cleaned] is the
    draft with the active date and a recomputed adherence. *)
Definition cleanedDraft (draftLog : DailyLog.t) (activeDate : IsoDate) : DailyLog.t :=
  {| DailyLog.id := DailyLog.id draftLog; DailyLog.date := activeDate;
     DailyLog.dayType := DailyLog.dayType draftLog; DailyLog.weightKg := DailyLog.weightKg draftLog;
     DailyLog.waistCm := DailyLog.waistCm draftLog;
     DailyLog.lumbarPain := DailyLog.lumbarPain draftLog;
     DailyLog.sleepHours := DailyLog.sleepHours draftLog; DailyLog.steps := DailyLog.steps draftLog;
     DailyLog.note := DailyLog.note draftLog; DailyLog.meals := DailyLog.meals draftLog;
     DailyLog.workout := DailyLog.workout draftLog;
     DailyLog.adherence := computeDayAdherence draftLog |}.

Definition saveDraftLogs (draftLog : DailyLog.t) (activeDate : IsoDate)
    (prevLogs : list DailyLog.t) : list DailyLog.t :=
  let cleaned := cleanedDraft draftLog activeDate in
  let existing := Js.some (fun row => (DailyLog.date row =? activeDate)%Z) prevLogs in
  if existing
  then map (fun row => if (DailyLog.date row =? activeDate)%Z then cleaned else row) prevLogs
  else prevLogs ++ [cleaned].

(** The list of weekly measurements that the updater of [saveWeekly] builds
    from the entry [{ ...weeklyDraft, weekStart, id }]. *)
Definition saveWeeklyRows (entry : WeeklyMeasurement.t) (prev : list WeeklyMeasurement.t)
  : list WeeklyMeasurement.t :=
  let weekStart := WeeklyMeasurement.weekStart entry in
  let records :=
    Js.some (fun row => (WeeklyMeasurement.weekStart row =? weekStart)%Z) prev in
  if records
  then map (fun row => if (WeeklyMeasurement.weekStart row =? weekStart)%Z then entry else row) prev
  else prev ++ [entry].

(** A [Map<string, WeeklyMeasurement>] keyed by [weekStart], in insertion
    order. *)
Module WeekMap.
Definition t : Type := list (IsoDate * WeeklyMeasurement.t).

Fixpoint has (k : IsoDate) (m : t) : bool :=
  match m with
  | [] => false
  | (k', _) :: rest => (k =? k')%Z || has k rest
  end.

Fixpoint set (k : IsoDate) (v : WeeklyMeasurement.t) (m : t) : t :=
  match m with
  | [] => [(k, v)]
  | (k', v') :: rest => if (k =? k')%Z then (k, v) :: rest else (k', v') :: set k v rest
  end.

(** [new Map(entries)]. *)
Definition ofEntries (entries : list (IsoDate * WeeklyMeasurement.t)) : t :=
  fold_left (fun m e => set (fst e) (snd e) m) entries [].

Definition values (m : t) : list WeeklyMeasurement.t := map snd m.
End WeekMap.

(** The weekly measurements that the import of [importJson] builds; an
    incoming row that is [null] or lacks its [weekStart] is [None]. *)
Definition importWeekly (prev : list WeeklyMeasurement.t)
    (incomingWeekly : list (option WeeklyMeasurement.t)) : list WeeklyMeasurement.t :=
  let byWeek :=
    WeekMap.ofEntries (map (fun row => (WeeklyMeasurement.weekStart row, row)) prev) in
  let byWeek' :=
    fold_left
      (fun m row =>
         match row with
         | None => m
         | Some r =>
             if negb (WeekMap.has (WeeklyMeasurement.weekStart r) m)
             then WeekMap.set (WeeklyMeasurement.weekStart r) r m
             else m
         end)
      incomingWeekly byWeek in
  WeekMap.values byWeek'.

(** A typed weekly measurement handed to [normalizeWeeklyMeasurements], as
    [saveAppState] does through [normalizeState]. *)
Definition rawOfWeekly (row : WeeklyMeasurement.t) : RawWeekly.t :=
  let num (x : option Q) : Js.value :=
    match x with Some v => Js.Number v | None => Js.Undefined end in
  {| RawWeekly.id := Some (WeeklyMeasurement.id row);
     RawWeekly.weekStart := Some (WeeklyMeasurement.weekStart row);
     RawWeekly.avgWeightKg := num (WeeklyMeasurement.avgWeightKg row);
     RawWeekly.waistCm := num (WeeklyMeasurement.waistCm row);
     RawWeekly.avgLumbarPain := num (WeeklyMeasurement.avgLumbarPain row);
     RawWeekly.steps := num (WeeklyMeasurement.steps row);
     RawWeekly.sleepHours := num (WeeklyMeasurement.sleepHours row);
     RawWeekly.chestCm := num (WeeklyMeasurement.chestCm row);
     RawWeekly.shouldersCm := num (WeeklyMeasurement.shouldersCm row);
     RawWeekly.armCm := num (WeeklyMeasurement.armCm row);
     RawWeekly.hipsCm := num (WeeklyMeasurement.hipsCm row) |}.


(** ** The host's time zone

    [getDate] and [setDate] read and move a [Date] on the calendar of the
    host's time zone, while [toISOString] reads it in UTC.  [addDays],
    [getRange] and [isNextDay] above are the code on a host whose clock
    stays a fixed number of milliseconds ahead of UTC.  This module has them,
    and the detector that rests on [isNextDay], on any host. *)

Module Zoned.

(** A time zone: the offset of local time from UTC, in milliseconds, at an
    instant ([LocalTZA(t, true)] of ECMAScript) and at a local time
    ([LocalTZA(t, false)]; a local time that a transition skips or repeats
    is read with the offset before the transition). *)
Record Host : Type := { offsetAt : Date -> Z; offsetOfLocal : Z -> Z }.

(** A host that stays [offset] milliseconds ahead of UTC. *)
Definition fixedOffset (offset : Z) : Host :=
  {| offsetAt := fun _ => offset; offsetOfLocal := fun _ => offset |}.

(** Europe/Madrid in 2024: one hour ahead of UTC, and two hours from
    2024-03-31T01:00Z until 2024-10-27T01:00Z. *)
Definition madrid2024 : Host :=
  let hour := 3600000%Z in
  let spring := (dateOfIso (ymd 2024 3 31) + hour)%Z in
  let autumn := (dateOfIso (ymd 2024 10 27) + hour)%Z in
  {| offsetAt := fun t =>
       if ((spring <=? t) && (t <? autumn))%Z then (2 * hour)%Z else hour;
     offsetOfLocal := fun l =>
       if ((spring + 2 * hour <=? l) && (l <? autumn + 2 * hour))%Z
       then (2 * hour)%Z else hour |}.

(** [out.setDate(out.getDate() + days)]: the local time of the instant is
    moved by [days] days on the local calendar and read back as an
    instant. *)
Definition addDays (host : Host) (date : Date) (days : Z) : Date :=
  let local := (date + offsetAt host date + days * msPerDay)%Z in
  (local - offsetOfLocal host local)%Z.

Definition getRange (host : Host) (days : Z) (from : Date) : Range :=
  let end' := from in
  let start' := addDays host end' (- (days - 1)) in
  {| start := isoOfDate start'; end_ := isoOfDate end' |}.

Definition isNextDay (host : Host) (a b : IsoDate) : bool :=
  let previous := addDays host (dateOfIso a) 1 in
  (isoOfDate previous =? b)%Z.

Fixpoint painSpikeLoop (host : Host) (threshold minStreak : Q) (run : Q)
    (lastDate : option IsoDate) (ordered : list DailyLog.t) : bool :=
  match ordered with
  | [] => false
  | row :: rest =>
      if Js.geb (DailyLog.lumbarPain row) threshold then
        let run' :=
          if match lastDate with
             | Some d => isNextDay host d (DailyLog.date row)
             | None => false
             end
          then run + 1
          else 1 in
        if Js.geb run' minStreak then true
        else painSpikeLoop host threshold minStreak run' (Some (DailyLog.date row)) rest
      else
        painSpikeLoop host threshold minStreak 0 (Some (DailyLog.date row)) rest
  end.

Definition hasConsecutivePainSpikeWith (host : Host) (rows : list DailyLog.t)
    (threshold minStreak : Q) : bool :=
  let ordered := Js.sort dailyOldestFirst rows in
  match ordered with
  | [] => false
  | _ => painSpikeLoop host threshold minStreak 0 None ordered
  end.

Definition hasConsecutivePainSpike (host : Host) (rows : list DailyLog.t) : bool :=
  hasConsecutivePainSpikeWith host rows 7 3.

End Zoned.
(** ** Scenarios

    Concrete logs and states on which the properties below are exercised. *)

Module Scenario.

Definition mealOf (slot : MealName) (p f c kcal : Q) : MealItem.t :=
  {| MealItem.id := "m"; MealItem.dayId := "d"; MealItem.meal := slot;
     MealItem.presetId := None; MealItem.grams := 100;
     MealItem.p := p; MealItem.f := f; MealItem.c := c; MealItem.kcal := kcal;
     MealItem.source := manual; MealItem.notes := None |}.

Definition setOf (exerciseId : string) (sets reps weightKg : Q) : WorkoutSet.t :=
  {| WorkoutSet.exerciseId := exerciseId; WorkoutSet.sets := sets; WorkoutSet.reps := reps;
     WorkoutSet.weightKg := weightKg; WorkoutSet.rir := None; WorkoutSet.exercise := None |}.

Definition logOf (date : IsoDate) (pain : Q) (meals : list MealItem.t)
    (sets : list WorkoutSet.t) : DailyLog.t :=
  {| DailyLog.id := "log"; DailyLog.date := date; DailyLog.dayType := nogym;
     DailyLog.weightKg := None; DailyLog.waistCm := None; DailyLog.lumbarPain := pain;
     DailyLog.sleepHours := None; DailyLog.steps := None; DailyLog.note := None;
     DailyLog.meals := meals;
     DailyLog.workout :=
       [ {| WorkoutSession.id := "s"; WorkoutSession.dayId := "log";
            WorkoutSession.durationMin := None; WorkoutSession.sets := sets |} ];
     DailyLog.adherence := {| Adherence.nutritionPercent := 0; Adherence.kpiFlags := [] |} |}.

Definition weekOf (weekStart : IsoDate) (weight waist pain : option Q) : WeeklyMeasurement.t :=
  {| WeeklyMeasurement.id := "w"; WeeklyMeasurement.weekStart := weekStart;
     WeeklyMeasurement.avgWeightKg := weight; WeeklyMeasurement.waistCm := waist;
     WeeklyMeasurement.avgLumbarPain := pain; WeeklyMeasurement.steps := None;
     WeeklyMeasurement.sleepHours := None; WeeklyMeasurement.chestCm := None;
     WeeklyMeasurement.shouldersCm := None; WeeklyMeasurement.armCm := None;
     WeeklyMeasurement.hipsCm := None |}.

(** A log that only records a body weight. *)
Definition weighed (date : IsoDate) (weightKg : Q) : DailyLog.t :=
  {| DailyLog.id := "log"; DailyLog.date := date; DailyLog.dayType := nogym;
     DailyLog.weightKg := Some weightKg; DailyLog.waistCm := None; DailyLog.lumbarPain := 0;
     DailyLog.sleepHours := None; DailyLog.steps := None; DailyLog.note := None;
     DailyLog.meals := []; DailyLog.workout := [];
     DailyLog.adherence := {| Adherence.nutritionPercent := 0; Adherence.kpiFlags := [] |} |}.

(** Three meals that meet the rest-day targets exactly. *)
Definition onTargetMeals : list MealItem.t :=
  [ mealOf desayuno 50 20 50 600; mealOf comida 50 25 60 750; mealOf cena 50 25 60 650 ].

(** Three meals that each meet the rest-day target of their slot. *)
Definition perMealTargetMeals : list MealItem.t :=
  [ mealOf desayuno 50 25 50 650; mealOf comida 50 25 60 750; mealOf cena 50 20 60 600 ].

(** Three meals that meet every target but protein, which stops at 73 g. *)
Definition lowProteinMeals : list MealItem.t :=
  [ mealOf desayuno 23 20 50 600; mealOf comida 25 25 60 750; mealOf cena 25 25 60 650 ].

(** The reference date: noon UTC of 2024-03-20. *)
Definition today : Date := (dateOfIso (ymd 2024 3 20) + 43200000)%Z.

(** Waist 88 to 88, average weight 72.4 to 72.4, one logged day at 85 %,
    no pain. *)
Definition plateau : AppState.t :=
  {| AppState.logs := [ logOf (ymd 2024 3 20) 0 lowProteinMeals [] ];
     AppState.weeklyMeasurements :=
       [ weekOf (ymd 2024 3 18) (Some 72.4) (Some 88) None;
         weekOf (ymd 2024 3 4) (Some 72.4) (Some 88) None ] |}.

(** The plateau again, with a weekly average lumbar pain of 8 this week. *)
Definition painAndPlateau : AppState.t :=
  {| AppState.logs := [ logOf (ymd 2024 3 20) 0 lowProteinMeals [] ];
     AppState.weeklyMeasurements :=
       [ weekOf (ymd 2024 3 18) (Some 72.4) (Some 88) (Some 8);
         weekOf (ymd 2024 3 4) (Some 72.4) (Some 88) None ] |}.

(** The plateau in weight, with no waist measurement anywhere. *)
Definition noWaistData : AppState.t :=
  {| AppState.logs := [ logOf (ymd 2024 3 20) 0 lowProteinMeals [] ];
     AppState.weeklyMeasurements :=
       [ weekOf (ymd 2024 3 18) (Some 72.4) None None;
         weekOf (ymd 2024 3 4) (Some 72.4) None None ] |}.


(** Two logged days: one without meals (0 %), one with two of the three
    meals and no macros (23 %). *)
Definition twoSparseDays : AppState.t :=
  {| AppState.logs :=
       [ logOf (ymd 2024 3 20) 0 [] [];
         logOf (ymd 2024 3 19) 0 [ mealOf desayuno 0 0 0 0; mealOf cena 0 0 0 0 ] [] ];
     AppState.weeklyMeasurements := [] |}.

(** Pain of 8 on three successive days. *)
Definition threePainDays : list DailyLog.t :=
  [ logOf (ymd 2024 3 2) 8 [] []; logOf (ymd 2024 3 1) 8 [] []; logOf (ymd 2024 3 3) 8 [] [] ].

(** Two training days of one week: a load of 300 and a load of 600 on the
    lat pulldown. *)
Definition twoTrainingDays : list DailyLog.t :=
  [ logOf (ymd 2024 3 18) 0 [] [ setOf "jalon" 3 10 10 ];
    logOf (ymd 2024 3 20) 0 [] [ setOf "jalon" 3 10 20 ] ].

(** Two stored rows for the week of 2024-03-18: a waist of 80 written
    first, a waist of 90 written after it. *)
Definition rawOf (id : string) (weekStart : IsoDate) (waist : Q) : RawWeekly.t :=
  {| RawWeekly.id := Some id; RawWeekly.weekStart := Some weekStart;
     RawWeekly.avgWeightKg := Js.Undefined; RawWeekly.waistCm := Js.Number waist;
     RawWeekly.avgLumbarPain := Js.Undefined; RawWeekly.steps := Js.Undefined;
     RawWeekly.sleepHours := Js.Undefined; RawWeekly.chestCm := Js.Undefined;
     RawWeekly.shouldersCm := Js.Undefined; RawWeekly.armCm := Js.Undefined;
     RawWeekly.hipsCm := Js.Undefined |}.

Definition sameWeekTwice : list RawWeekly.t :=
  [ rawOf "first" (ymd 2024 3 18) 80; rawOf "second" (ymd 2024 3 18) 90 ].

Definition noUid : nat -> string := fun _ => "generated"%string.

(** A day with two meal items and one workout set, and a day with one
    workout set and no meal item. *)
Definition twoMealsOneSet : DailyLog.t :=
  logOf (ymd 2024 3 20) 0
    [ mealOf desayuno 50 20 50 600; mealOf comida 50 25 60 750 ]
    [ setOf "jalon" 3 10 40 ].

Definition oneSetNoMeal : DailyLog.t :=
  logOf (ymd 2024 3 20) 0 [] [ setOf "jalon" 3 10 40 ].

(** [String(n)] on the integers of these scenarios. *)
Definition showNumber (n : Q) : string :=
  NilZero.string_of_int (Z.to_int (Qfloor n)).

(** The text [YYYY-MM-DD] of a day number, for years of four digits. *)
Definition twoDigits (n : Z) : string :=
  ((if (n <? 10)%Z then "0" else EmptyString) ++ NilZero.string_of_int (Z.to_int n))%string.

Definition showDate (date : IsoDate) : string :=
  (let z := date + 719468 in
   let era := z / 146097 in
   let doe := z - era * 146097 in
   let yoe := (doe - doe / 1460 + doe / 36524 - doe / 146096) / 365 in
   let doy := doe - (365 * yoe + yoe / 4 - yoe / 100) in
   let mp := (5 * doy + 2) / 153 in
   let d := doy - (153 * mp + 2) / 5 + 1 in
   let m := if mp <? 10 then mp + 3 else mp - 9 in
   let y := yoe + era * 400 + (if m <=? 2 then 1 else 0) in
   (NilZero.string_of_int (Z.to_int y) ++ "-" ++ twoDigits m ++ "-" ++ twoDigits d)%string)%Z.

(** A host one hour ahead of UTC, in milliseconds. *)
Definition oneHourEast : Z := 3600000.

(** A weekly row that only has its [weekStart]. *)
Definition weekAt (weekStart : IsoDate) : WeeklyMeasurement.t := weekOf weekStart None None None.

(** Pain of 8 on the three days around the start of summer time in 2024. *)
Definition springChange : list DailyLog.t :=
  [ logOf (ymd 2024 3 30) 8 [] []; logOf (ymd 2024 3 31) 8 [] [];
    logOf (ymd 2024 4 1) 8 [] [] ].

End Scenario.

(** ** Notions of the specification

    The quantities that the specification names, written over the functions
    of the code. *)

(** A trailing window of [days] days ending on the day of [fromDate]. *)
Definition inWindow (days : Z) (fromDate : Date) (date : IsoDate) : Prop :=
  (isoOfDate fromDate - (days - 1) <= date <= isoOfDate fromDate)%Z.

(** The current and the prior 14-day windows of the decision. *)
Definition this14 (state : AppState.t) (fromDate : Date) : list DailyLog.t :=
  filterRange (AppState.logs state) (getRange 14 fromDate).

Definition prev14 (state : AppState.t) (fromDate : Date) : list DailyLog.t :=
  filterRange (AppState.logs state) (getRange 14 (addDays fromDate (-14))).

Definition this14Weekly (state : AppState.t) (fromDate : Date) : list WeeklyMeasurement.t :=
  filterWeeklyRange (AppState.weeklyMeasurements state) (getRange 14 fromDate).

Definition prev14Weekly (state : AppState.t) (fromDate : Date) : list WeeklyMeasurement.t :=
  filterWeeklyRange (AppState.weeklyMeasurements state) (getRange 14 (addDays fromDate (-14))).

(** The Pain-Spike Detector on the 14-day window. *)
Definition painSpikeFires (state : AppState.t) (fromDate : Date) : bool :=
  weekHasHighPain (this14Weekly state fromDate) || hasConsecutivePainSpike (this14 state fromDate).

(** Latest waist and average weight of the two windows. *)
Definition thisWaist (state : AppState.t) (fromDate : Date) : option Q :=
  latestFromWeeklyOrDaily (this14Weekly state fromDate) (this14 state fromDate)
    WeeklyMeasurement.f_waistCm DailyLog.k_waistCm.

Definition prevWaist (state : AppState.t) (fromDate : Date) : option Q :=
  latestFromWeeklyOrDaily (prev14Weekly state fromDate) (prev14 state fromDate)
    WeeklyMeasurement.f_waistCm DailyLog.k_waistCm.

Definition thisWeight (state : AppState.t) (fromDate : Date) : Q :=
  avgFromWeeklyOrDaily (this14Weekly state fromDate) (this14 state fromDate)
    WeeklyMeasurement.f_avgWeightKg DailyLog.k_weightKg.

Definition prevWeight (state : AppState.t) (fromDate : Date) : Q :=
  avgFromWeeklyOrDaily (prev14Weekly state fromDate) (prev14 state fromDate)
    WeeklyMeasurement.f_avgWeightKg DailyLog.k_weightKg.

(** The decision and the adherence that [calculateKpis] reports for 14 days. *)
Definition decision14 (state : AppState.t) (fromDate : Date) : KpiDecision :=
  Kpis14.decision (KpiSummary.kpis14 (calculateKpis state fromDate)).

Definition adherence14 (state : AppState.t) (fromDate : Date) : Q :=
  Kpis14.adherence (KpiSummary.kpis14 (calculateKpis state fromDate)).

Definition adherence7 (state : AppState.t) (fromDate : Date) : Q :=
  Kpis7.adherence (KpiSummary.kpis7 (calculateKpis state fromDate)).

(** The mean of the per-day [nutritionPercent] over some logs. *)
Definition meanNutritionPercent (rows : list DailyLog.t) : Q :=
  Js.sum (map (fun log => Adherence.nutritionPercent (computeDayAdherence log)) rows)
  / Js.len rows.

(** "Not improved" as the specification's rule 2 words it: the comparison
    holds, or a side of it is unknown. *)
Definition specWaistNotImproved (state : AppState.t) (fromDate : Date) : bool :=
  match thisWaist state fromDate, prevWaist state fromDate with
  | Some tw, Some pw => Js.geb tw pw
  | _, _ => true
  end.

Definition weightKnown (weeklyRows : list WeeklyMeasurement.t) (dailyRows : list DailyLog.t) : bool :=
  existsb (fun row => isSome (WeeklyMeasurement.avgWeightKg row)) weeklyRows
  || existsb (fun row => isSome (DailyLog.weightKg row)) dailyRows.

Definition specWeightNotImproved (state : AppState.t) (fromDate : Date) : bool :=
  if weightKnown (this14Weekly state fromDate) (this14 state fromDate)
     && weightKnown (prev14Weekly state fromDate) (prev14 state fromDate)
  then Js.geb (thisWeight state fromDate) (prevWeight state fromDate)
  else true.

(** The empty state. *)
Definition emptyState : AppState.t :=
  {| AppState.logs := []; AppState.weeklyMeasurements := [] |}.

(** The values of a field over the rows that have it. *)
Definition weeklyValues (field : WeeklyMeasurement.field) (rows : list WeeklyMeasurement.t)
  : list Q :=
  flat_map (fun row => match WeeklyMeasurement.get field row with
                       | Some v => [v]
                       | None => []
                       end) rows.

Definition dailyValues (field : DailyLog.key) (rows : list DailyLog.t) : list Q :=
  flat_map (fun row => match DailyLog.number field row with
                       | Some v => [v]
                       | None => []
                       end) rows.

(** The sum and the arithmetic mean of a list of numbers. *)
Fixpoint total (values : list Q) : Q :=
  match values with
  | [] => 0
  | value :: rest => value + total rest
  end.

Definition arithmeticMean (values : list Q) : Q :=
  total values / inject_Z (Z.of_nat (List.length values)).

(** One unit of the last of [digits] decimals. *)
Definition decimalUnit (digits : nat) : Q := 1 / inject_Z (10 ^ Z.of_nat digits).

(** [r] is [x] rounded to [digits] decimals: a whole number of units, at
    most half a unit away from [x].  Which of its two neighbours a value
    halfway between them gets is left open: the code rounds the binary
    double that it holds, which can lie on either side of a decimal tie. *)
Definition roundedTo (digits : nat) (x r : Q) : Prop :=
  (exists k : Z, r == inject_Z k * decimalUnit digits)
  /\ Qabs (r - x) <= decimalUnit digits / 2.

(** The adherence formula as the specification words it. *)
Definition slotFilled (log : DailyLog.t) (slot : MealName) : bool :=
  existsb (fun m => MealName_eqb (MealItem.meal m) slot) (DailyLog.meals log).

Definition specMealScore (log : DailyLog.t) : Q :=
  inject_Z (Z.of_nat (List.length (filter (slotFilled log) [desayuno; comida; cena]))) / 3.

(** The total of a macro over meal items, one item after the other. *)
Definition macroTotal (macro : MealItem.t -> Q) (meals : list MealItem.t) : Q :=
  fold_right (fun item acc => macro item + acc) 0 meals.

(** A number brought into the interval from 0 to 1. *)
Definition unitClamp (x : Q) : Q :=
  if Qle_bool x 0 then 0 else if Qle_bool 1 x then 1 else x.

Definition specCloseness (actual target : Q) : Q :=
  unitClamp (1 - Qabs (actual - target) / target).

Definition specMacroScore (log : DailyLog.t) : Q :=
  let target := DAY_TARGETS (DailyLog.dayType log) in
  let eaten macro := macroTotal macro (DailyLog.meals log) in
  0.45 * specCloseness (eaten MealItem.p) (DayTarget.p target)
  + 0.20 * specCloseness (eaten MealItem.f) (DayTarget.f target)
  + 0.20 * specCloseness (eaten MealItem.c) (DayTarget.c target)
  + 0.15 * specCloseness (eaten MealItem.kcal) (DayTarget.kcal target).

(** The blend of meal completeness and macro closeness, in percent, before
    it is rounded. *)
Definition specBlend (log : DailyLog.t) : Q :=
  100 * (0.35 * specMealScore log + 0.65 * specMacroScore log).

Definition specFlags (log : DailyLog.t) : list string :=
  map (fun slot => ("missing_" ++ mealNameString slot)%string)
    (filter (fun slot => negb (slotFilled log slot)) [desayuno; comida; cena]).

(** A daily log with a lumbar pain of 7 or more. *)
Definition highPain (row : DailyLog.t) : bool := Js.geb (DailyLog.lumbarPain row) 7.

(** [l] begins with a high-pain log dated the day after [d]. *)
Definition continuesRun (d : IsoDate) (l : list DailyLog.t) : bool :=
  match l with
  | a :: _ => highPain a && (d + 1 =? DailyLog.date a)%Z
  | [] => false
  end.

(** [l] begins with two high-pain logs dated one and two days after [d]. *)
Definition continuesRunTwice (d : IsoDate) (l : list DailyLog.t) : bool :=
  match l with
  | a :: rest => highPain a && (d + 1 =? DailyLog.date a)%Z && continuesRun (DailyLog.date a) rest
  | [] => false
  end.

(** Three neighbours of [l] have high pain and are dated on successive days. *)
Fixpoint hasStreak3 (l : list DailyLog.t) : bool :=
  match l with
  | a :: rest => (highPain a && continuesRunTwice (DailyLog.date a) rest) || hasStreak3 rest
  | [] => false
  end.

(** Three consecutive calendar dates each have a log with high pain. *)
Definition threeConsecutiveHighPainDays (rows : list DailyLog.t) : Prop :=
  exists (day : IsoDate) (a b c : DailyLog.t),
    In a rows /\ In b rows /\ In c rows
    /\ DailyLog.date a = day /\ DailyLog.date b = (day + 1)%Z /\ DailyLog.date c = (day + 2)%Z
    /\ 7 <= DailyLog.lumbarPain a /\ 7 <= DailyLog.lumbarPain b /\ 7 <= DailyLog.lumbarPain c.

(** The best load of a calendar day for an exercise: the maximum of
    [sets * reps * weightKg] over the sets of that exercise logged that day. *)
Definition dayBest (exercise : CoreExerciseId) (rows : list DailyLog.t) (day : IsoDate) : Q :=
  fold_left Qmax
    (map (logBest exercise) (filter (fun log => (DailyLog.date log =? day)%Z) rows))
    0.

(** The dates of a list, each once, in the order of their first occurrence. *)
Definition distinctDates (dates : list IsoDate) : list IsoDate :=
  fold_left (fun acc d => if existsb (Z.eqb d) acc then acc else acc ++ [d]) dates [].

(** The days of a window on which an exercise has a positive load. *)
Definition daysWithLoad (exercise : CoreExerciseId) (rows : list DailyLog.t) : list IsoDate :=
  distinctDates
    (map DailyLog.date (filter (fun log => Js.ltb 0 (logBest exercise log)) rows)).

(** The best of a window as the specification words it: the maximum over the
    days of the window of the best load of the day. *)
Definition specWindowBest (exercise : CoreExerciseId) (rows : list DailyLog.t) : Q :=
  fold_left Qmax (map (dayBest exercise rows) (distinctDates (map DailyLog.date rows))) 0.

(** The contribution of an exercise to the performance index. *)
Definition contribution (current previous : Q) : Q :=
  if Qeq_bool current 0 || Qeq_bool previous 0 then 0
  else (current - previous) / previous.

(** A workout set recorded for an exercise: under its [exerciseId], or under
    the older [exercise] field when it has no [exerciseId]. *)
Definition setIsOf (exercise : CoreExerciseId) (set : WorkoutSet.t) : bool :=
  if String.eqb (WorkoutSet.exerciseId set) EmptyString
  then match WorkoutSet.exercise set with
       | Some e => String.eqb (coreExerciseString e) (coreExerciseString exercise)
       | None => false
       end
  else String.eqb (WorkoutSet.exerciseId set) (coreExerciseString exercise).

(** The load of a workout set. *)
Definition setLoad (set : WorkoutSet.t) : Q :=
  WorkoutSet.sets set * WorkoutSet.reps set * WorkoutSet.weightKg set.

(** The largest of some numbers and 0. *)
Definition maximum (values : list Q) : Q := fold_right Qmax 0 values.

(** The sets of an exercise that the logs of a day hold, over all their
    sessions. *)
Definition setsOfDay (exercise : CoreExerciseId) (rows : list DailyLog.t) (day : IsoDate)
  : list WorkoutSet.t :=
  filter (setIsOf exercise)
    (flat_map (fun log => flat_map WorkoutSession.sets (DailyLog.workout log))
       (filter (fun log => (DailyLog.date log =? day)%Z) rows)).

(** The best load of a day for an exercise as the specification words it:
    the maximum of [sets * reps * weightKg] over the sets of the exercise
    recorded that day (0 without such a set). *)
Definition specDayBest (exercise : CoreExerciseId) (rows : list DailyLog.t) (day : IsoDate) : Q :=
  maximum (map setLoad (setsOfDay exercise rows day)).

(** The days of some logs on which an exercise has a positive best load,
    each once. *)
Definition specDaysWithLoad (exercise : CoreExerciseId) (rows : list DailyLog.t) : list IsoDate :=
  filter (fun day => negb (Qle_bool (specDayBest exercise rows day) 0))
    (nodup Z.eq_dec (map DailyLog.date rows)).

(** The 7-day windows that the performance index compares. *)
Definition current7 (state : AppState.t) (fromDate : Date) : list DailyLog.t :=
  filterRange (AppState.logs state) (getRange 7 fromDate).

Definition previous7 (state : AppState.t) (fromDate : Date) : list DailyLog.t :=
  filterRange (AppState.logs state) (getRange 7 (addDays fromDate (-7))).

(** The columns of a CSV row that describe the meal item (comida, gramos,
    proteinas, grasas, carbos, kcal) and the workout set (ejercicio, sets,
    reps, kg, rir). *)
Definition mealColumns (row : list string) : list string := firstn 6 (skipn 16 row).

Definition workoutColumns (row : list string) : list string := skipn 22 row.

(** The number of meal items and of workout sets of a log. *)
Definition mealCount (log : DailyLog.t) : nat := List.length (DailyLog.meals log).

Definition workoutSetCount (log : DailyLog.t) : nat :=
  List.length (flat_map WorkoutSession.sets (DailyLog.workout log)).

(** The number of data rows that the specification gives to a log. *)
Definition specRowCount (log : DailyLog.t) : nat :=
  Nat.max (Nat.max (mealCount log) (workoutSetCount log)) 1.

(** The meal items of a log that belong to a slot. *)
Definition slotItems (log : DailyLog.t) (slot : MealName) : list MealItem.t :=
  filter (fun item => MealName_eqb (MealItem.meal item) slot) (DailyLog.meals log).

(** A log whose items of a slot add up to the target of the slot. *)
Definition slotOnTarget (log : DailyLog.t) (slot : MealName) : Prop :=
  let target := mealTargetFor (DailyLog.dayType log) slot in
  macroTotal MealItem.p (slotItems log slot) == MealTarget.p target
  /\ macroTotal MealItem.f (slotItems log slot) == MealTarget.f target
  /\ macroTotal MealItem.c (slotItems log slot) == MealTarget.c target
  /\ macroTotal MealItem.kcal (slotItems log slot) == MealTarget.kcal target.

(** The Monday on or before a day. *)
Definition mondayOf (date : IsoDate) : IsoDate := (date - (date + 3) mod 7)%Z.

(** A value that [escapeValue] has to quote: it holds a double quote, a
    comma or a line feed. *)
Definition needsQuoting (value : string) : bool :=
  stringHas (fun ch => Ascii.eqb ch quoteChar || Ascii.eqb ch commaChar
                       || Ascii.eqb ch newlineChar) value.

(** The week of a weekly row reaches [span] days past its [weekStart]. *)
Definition weekCovers (span : Z) (row : WeeklyMeasurement.t) (date : IsoDate) : Prop :=
  (WeeklyMeasurement.weekStart row <= date <= WeeklyMeasurement.weekStart row + span)%Z.

(** A typed catalog item handed to [normalizeExerciseCatalog], as
    [saveAppState] does through [normalizeState]. *)
Definition rawOfCatalogItem (item : ExerciseCatalogItem.t) : option RawCatalogItem.t :=
  Some {| RawCatalogItem.id := Some (ExerciseCatalogItem.id item);
          RawCatalogItem.name := Some (ExerciseCatalogItem.name item);
          RawCatalogItem.isCore := Some (ExerciseCatalogItem.isCore item);
          RawCatalogItem.coreId := ExerciseCatalogItem.coreId item |}.

(** A stored catalog item that [normalizeExerciseCatalog] does not skip. *)
Definition usableCatalogItem (item : RawCatalogItem.t) : bool :=
  truthyString (RawCatalogItem.id item) && truthyString (RawCatalogItem.name item).

(** What [normalizeExerciseCatalog] keeps true of [merged] and [knownIds]. *)
Definition catalogInvariant (acc : list ExerciseCatalogItem.t * list string) : Prop :=
  snd acc = map ExerciseCatalogItem.id (fst acc)
  /\ NoDup (snd acc)
  /\ (forall item, In item (fst acc) ->
        ExerciseCatalogItem.id item <> EmptyString
        /\ ExerciseCatalogItem.name item <> EmptyString)
  /\ exists extras, fst acc = DEFAULT_EXERCISE_CATALOG ++ extras.

(** The sets of the first workout session of a log, the one that the form
    edits. *)
Definition firstSessionSets (log : DailyLog.t) : list WorkoutSet.t :=
  match DailyLog.workout log with
  | first :: _ => WorkoutSession.sets first
  | [] => []
  end.

(** * Properties *)

(** ** Numbers and dates *)

Lemma and_iff_both (A B C D : Prop) : (A <-> C) -> (B <-> D) -> (A /\ B <-> C /\ D).
Proof. tauto. Qed.

Lemma geb_true_iff (a b : Q) : Js.geb a b = true <-> b <= a.
Proof. unfold Js.geb. apply Qle_bool_iff. Qed.

Lemma geb_false_iff (a b : Q) : Js.geb a b = false <-> a < b.
Proof.
  unfold Js.geb. split; intros H.
  - apply Qnot_le_lt. intros Hle. apply Qle_bool_iff in Hle. congruence.
  - destruct (Qle_bool b a) eqn:E; [|reflexivity].
    apply Qle_bool_iff in E. exfalso. exact (Qlt_not_le _ _ H E).
Qed.

Lemma ltb_true_iff (a b : Q) : Js.ltb a b = true <-> a < b.
Proof.
  unfold Js.ltb. rewrite negb_true_iff. apply (geb_false_iff a b).
Qed.

Lemma truthy_true_iff (x : Q) : Js.truthy x = true <-> ~ x == 0.
Proof.
  unfold Js.truthy. rewrite negb_true_iff. split; intros H.
  - apply Qeq_bool_neq. exact H.
  - destruct (Qeq_bool x 0) eqn:E; [|reflexivity].
    apply Qeq_bool_iff in E. contradiction.
Qed.

Lemma isoOfDate_addDays (t : Date) (n : Z) : isoOfDate (addDays t n) = (isoOfDate t + n)%Z.
Proof.
  unfold isoOfDate, addDays. apply Z.div_add. unfold msPerDay. lia.
Qed.

Lemma isoOfDate_dateOfIso (d : IsoDate) : isoOfDate (dateOfIso d) = d.
Proof.
  unfold isoOfDate, dateOfIso. apply Z.div_mul. unfold msPerDay. lia.
Qed.

Lemma isNextDay_spec (a b : IsoDate) : isNextDay a b = (a + 1 =? b)%Z.
Proof.
  unfold isNextDay. rewrite isoOfDate_addDays, isoOfDate_dateOfIso. reflexivity.
Qed.

(** The window of [getRange] ends on the day of the reference date and
    starts [days - 1] days before it. *)
Lemma getRange_spec (days : Z) (from : Date) :
  getRange days from
  = {| start := (isoOfDate from - (days - 1))%Z; end_ := isoOfDate from |}.
Proof.
  unfold getRange. rewrite isoOfDate_addDays. f_equal; lia.
Qed.

Lemma isInRange_getRange (days : Z) (from : Date) (date : IsoDate) :
  isInRange date (start (getRange days from)) (end_ (getRange days from)) = true
  <-> inWindow days from date.
Proof.
  rewrite getRange_spec. unfold isInRange, inWindow. cbn [start end_].
  rewrite andb_true_iff, !Z.leb_le. tauto.
Qed.

(** ** The decision chain *)

Lemma fold_adherence_sum (rows : list DailyLog.t) (acc : Q) :
  fold_left (fun sum log => sum + Adherence.nutritionPercent (computeDayAdherence log)) rows acc
  = fold_left (fun a v => a + v)
      (map (fun log => Adherence.nutritionPercent (computeDayAdherence log)) rows) acc.
Proof.
  revert acc. induction rows as [|row rows IH]; intros acc; [reflexivity|].
  cbn [fold_left map]. apply IH.
Qed.

(** The 14-day adherence of the report, as a rounded mean. *)
Lemma adherence14_eq (state : AppState.t) (fromDate : Date) :
  adherence14 state fromDate
  = match this14 state fromDate with
    | [] => 0
    | _ => Js.Math_round (meanNutritionPercent (this14 state fromDate))
    end.
Proof.
  unfold adherence14, calculateKpis, this14, meanNutritionPercent, Js.sum.
  cbn [KpiSummary.kpis14 Kpis14.adherence].
  destruct (filterRange (AppState.logs state) (getRange 14 fromDate)) as [|row rows];
    [reflexivity|].
  rewrite fold_adherence_sum. reflexivity.
Qed.

Lemma adherence7_eq (state : AppState.t) (fromDate : Date) :
  adherence7 state fromDate
  = match filterRange (AppState.logs state) (getRange 7 fromDate) with
    | [] => 0
    | rows => Js.Math_round (meanNutritionPercent rows)
    end.
Proof.
  unfold adherence7, calculateKpis, meanNutritionPercent, Js.sum.
  cbn [KpiSummary.kpis7 Kpis7.adherence].
  destruct (filterRange (AppState.logs state) (getRange 7 fromDate)) as [|row rows];
    [reflexivity|].
  rewrite fold_adherence_sum. reflexivity.
Qed.

(** The chain of [decide], branch by branch, over the named quantities. *)
Lemma decision14_chain (state : AppState.t) (fromDate : Date) :
  decision14 state fromDate
  = if painSpikeFires state fromDate then deload
    else if match thisWaist state fromDate, prevWaist state fromDate with
            | Some tw, Some pw => Js.geb tw pw
            | _, _ => false
            end
            && (if Js.truthy (thisWeight state fromDate) && Js.truthy (prevWeight state fromDate)
                then Js.geb (thisWeight state fromDate) (prevWeight state fromDate)
                else false)
            && Js.geb (adherence14 state fromDate) 80
         then down150kcal
         else if Js.ltb 0.6 (if Js.truthy (prevWeight state fromDate)
                             then prevWeight state fromDate - thisWeight state fromDate
                             else 0)
                 || Js.ltb (performanceIndex state fromDate) (-0.05)
              then up125kcal
              else none.
Proof.
  unfold decision14, adherence14, calculateKpis.
  cbn [KpiSummary.kpis14 Kpis14.decision Kpis14.adherence].
  unfold decide, painSpikeFires, thisWaist, prevWaist, thisWeight, prevWeight,
    this14, prev14, this14Weekly, prev14Weekly.
  repeat match goal with
         | |- context [if ?b then _ else _] =>
             lazymatch b with
             | context [if _ then _ else _] => fail
             | _ => destruct b eqn:?
             end
         end; reflexivity.
Qed.

Lemma weekHasHighPain_exists (rows : list WeeklyMeasurement.t) :
  weekHasHighPain rows = true
  <-> exists week pain,
        In week rows /\ WeeklyMeasurement.avgLumbarPain week = Some pain /\ 7 <= pain.
Proof.
  unfold weekHasHighPain, weekHasHighPainWith, Js.some. rewrite existsb_exists. split.
  - intros (week & Hin & Hp).
    destruct (WeeklyMeasurement.avgLumbarPain week) as [pain|] eqn:E; [|discriminate].
    exists week, pain. apply geb_true_iff in Hp. auto.
  - intros (week & pain & Hin & E & Hp). exists week. split; [exact Hin|].
    rewrite E. apply geb_true_iff. exact Hp.
Qed.

Lemma this14Weekly_In (state : AppState.t) (fromDate : Date) (week : WeeklyMeasurement.t) :
  In week (this14Weekly state fromDate)
  <-> In week (AppState.weeklyMeasurements state)
      /\ inWindow 14 fromDate (WeeklyMeasurement.weekStart week).
Proof.
  unfold this14Weekly, filterWeeklyRange. rewrite filter_In, isInRange_getRange. tauto.
Qed.

Lemma this14_In (state : AppState.t) (fromDate : Date) (log : DailyLog.t) :
  In log (this14 state fromDate)
  <-> In log (AppState.logs state) /\ inWindow 14 fromDate (DailyLog.date log).
Proof.
  unfold this14, filterRange. rewrite filter_In, isInRange_getRange. tauto.
Qed.

(** C1. Whenever the Pain-Spike Detector fires on the 14-day window ending on
    the reference date (a weekly measurement of the window has an average
    lumbar pain of 7 or more, or the daily logs of the window hold a
    qualifying streak), [calculateKpis] reports the decision [deload],
    whatever the waist, the weight, the adherence and the performance index
    are. *)
Theorem deload_takes_priority (state : AppState.t) (fromDate : Date) :
  (exists week pain,
      In week (AppState.weeklyMeasurements state)
      /\ inWindow 14 fromDate (WeeklyMeasurement.weekStart week)
      /\ WeeklyMeasurement.avgLumbarPain week = Some pain /\ 7 <= pain)
  \/ hasConsecutivePainSpike (this14 state fromDate) = true ->
  decision14 state fromDate = deload.
Proof.
  intros H. rewrite decision14_chain.
  assert (Hfires : painSpikeFires state fromDate = true).
  { unfold painSpikeFires. apply orb_true_iff. destruct H as [(week & pain & Hin & Hw & E & Hp)|H].
    - left. apply weekHasHighPain_exists. exists week, pain.
      split; [|split; assumption]. apply this14Weekly_In. split; assumption.
    - right. exact H. }
  rewrite Hfires. reflexivity.
Qed.

(** The detector fires on a state in which the conditions of [down150kcal]
    hold as well (waist 88 to 88, weight 72.4 to 72.4, adherence 85), and the
    decision is [deload]. *)
Lemma deload_takes_priority_witness :
  thisWaist Scenario.painAndPlateau Scenario.today = Some 88
  /\ prevWaist Scenario.painAndPlateau Scenario.today = Some 88
  /\ prevWeight Scenario.painAndPlateau Scenario.today
     <= thisWeight Scenario.painAndPlateau Scenario.today
  /\ 80 <= adherence14 Scenario.painAndPlateau Scenario.today
  /\ decision14 Scenario.painAndPlateau Scenario.today = deload.
Proof.
  split; [vm_compute; reflexivity|].
  split; [vm_compute; reflexivity|].
  split; [apply Qle_bool_iff; vm_compute; reflexivity|].
  split; [apply Qle_bool_iff; vm_compute; reflexivity|].
  apply deload_takes_priority. left.
  exists (Scenario.weekOf (ymd 2024 3 18) (Some 72.4) (Some 88) (Some 8)), 8.
  split; [left; reflexivity|].
  split; [unfold inWindow; vm_compute; split; discriminate|].
  split; [reflexivity|].
  apply Qle_bool_iff. reflexivity.
Defined.

(** ** Rule 2: reduce calories *)

Lemma down150kcal_branch (state : AppState.t) (fromDate : Date) :
  painSpikeFires state fromDate = false ->
  (decision14 state fromDate = down150kcal
   <-> match thisWaist state fromDate, prevWaist state fromDate with
       | Some tw, Some pw => Js.geb tw pw
       | _, _ => false
       end
       && (if Js.truthy (thisWeight state fromDate) && Js.truthy (prevWeight state fromDate)
           then Js.geb (thisWeight state fromDate) (prevWeight state fromDate)
           else false)
       && Js.geb (adherence14 state fromDate) 80 = true).
Proof.
  intros Hno. rewrite decision14_chain, Hno.
  destruct (_ && _ && Js.geb (adherence14 state fromDate) 80).
  - tauto.
  - destruct (_ || _); split; discriminate.
Qed.

(** C2, as the code has it. When no pain spike fires, [calculateKpis] reports
    [down150kcal] exactly when the latest waist of both windows is known and
    the current one is not below the prior one, the average weight of both
    windows is known (nonzero) and the current one is not below the prior
    one, and the 14-day adherence is 80 or more; a side that is unknown
    blocks the rule.  In particular waist 88 to 88, average weight 72.4 to
    72.4 and adherence 85 without a pain spike give [down150kcal]. *)
Theorem down150kcal_iff (state : AppState.t) (fromDate : Date) :
  painSpikeFires state fromDate = false ->
  (decision14 state fromDate = down150kcal
   <-> (exists tw pw,
           thisWaist state fromDate = Some tw /\ prevWaist state fromDate = Some pw /\ pw <= tw)
       /\ (~ thisWeight state fromDate == 0 /\ ~ prevWeight state fromDate == 0
           /\ prevWeight state fromDate <= thisWeight state fromDate)
       /\ 80 <= adherence14 state fromDate)
  /\ (thisWaist state fromDate = Some 88 -> prevWaist state fromDate = Some 88 ->
      thisWeight state fromDate == 72.4 -> prevWeight state fromDate == 72.4 ->
      adherence14 state fromDate == 85 ->
      decision14 state fromDate = down150kcal).
Proof.
  intros Hno.
  assert (Hiff :
    decision14 state fromDate = down150kcal
    <-> (exists tw pw,
            thisWaist state fromDate = Some tw /\ prevWaist state fromDate = Some pw /\ pw <= tw)
        /\ (~ thisWeight state fromDate == 0 /\ ~ prevWeight state fromDate == 0
            /\ prevWeight state fromDate <= thisWeight state fromDate)
        /\ 80 <= adherence14 state fromDate).
  { rewrite (down150kcal_branch state fromDate Hno), !andb_true_iff, geb_true_iff.
    rewrite and_assoc. apply and_iff_both; [|apply and_iff_both; [|reflexivity]].
    - destruct (thisWaist state fromDate) as [tw|], (prevWaist state fromDate) as [pw|].
      + rewrite geb_true_iff. split.
        * intros H. exists tw, pw. auto.
        * intros (tw' & pw' & E1 & E2 & H). injection E1 as <-. injection E2 as <-. exact H.
      + split; [discriminate|]. intros (tw' & pw' & _ & E & _). discriminate.
      + split; [discriminate|]. intros (tw' & pw' & E & _ & _). discriminate.
      + split; [discriminate|]. intros (tw' & pw' & E & _ & _). discriminate.
    - destruct (Js.truthy (thisWeight state fromDate)) eqn:Et;
        destruct (Js.truthy (prevWeight state fromDate)) eqn:Ep; cbn [andb].
      + apply truthy_true_iff in Et. apply truthy_true_iff in Ep. rewrite geb_true_iff. tauto.
      + split; [discriminate|]. intros (_ & Hp & _). apply truthy_true_iff in Hp. congruence.
      + split; [discriminate|]. intros (Ht & _ & _). apply truthy_true_iff in Ht. congruence.
      + split; [discriminate|]. intros (Ht & _ & _). apply truthy_true_iff in Ht. congruence. }
  split; [exact Hiff|].
  intros Etw Epw Et Ep Ea. apply Hiff. split; [|split].
  - exists 88, 88. repeat split; try assumption. apply Qle_refl.
  - rewrite Et, Ep. repeat split; try (intros H; discriminate H); try apply Qle_refl.
  - rewrite Ea. apply Qle_bool_iff. reflexivity.
Qed.

Lemma down150kcal_iff_witness :
  painSpikeFires Scenario.plateau Scenario.today = false
  /\ decision14 Scenario.plateau Scenario.today = down150kcal.
Proof.
  assert (Hno : painSpikeFires Scenario.plateau Scenario.today = false)
    by (vm_compute; reflexivity).
  split; [exact Hno|].
  apply (proj2 (down150kcal_iff Scenario.plateau Scenario.today Hno));
    vm_compute; reflexivity.
Defined.

(** C2, as the specification words it, fails: with no waist measurement in
    either window (so that the waist counts as "not improved" under the
    specification's reading), a flat weight and an adherence of 85, the
    decision is not [down150kcal]. *)
Lemma unknown_waist_blocks_down150kcal :
  painSpikeFires Scenario.noWaistData Scenario.today = false
  /\ specWaistNotImproved Scenario.noWaistData Scenario.today = true
  /\ specWeightNotImproved Scenario.noWaistData Scenario.today = true
  /\ Js.geb (adherence14 Scenario.noWaistData Scenario.today) 80 = true
  /\ decision14 Scenario.noWaistData Scenario.today <> down150kcal.
Proof.
  repeat split; try (vm_compute; reflexivity).
  vm_compute. discriminate.
Qed.

(** ** Rules 3 and 4: increase calories, or no change *)




(** ** The empty state, and the adherence of a window *)

(** C9, as the code has it. For every reference date, [calculateKpis] on the
    state without logs and without weekly measurements reports a 7-day
    adherence of 0 and the decision [none]; and in general the 14-day
    adherence is the mean of the per-day [nutritionPercent] over the logs of
    the window rounded to the nearest integer, and 0 when the window has no
    logs. *)
Theorem empty_state_kpis :
  (forall fromDate : Date,
      adherence7 emptyState fromDate = 0 /\ decision14 emptyState fromDate = none)
  /\ (forall (state : AppState.t) (fromDate : Date),
         adherence14 state fromDate
         = match this14 state fromDate with
           | [] => 0
           | _ => Js.Math_round (meanNutritionPercent (this14 state fromDate))
           end).
Proof.
  split.
  - intros fromDate. split; reflexivity.
  - exact adherence14_eq.
Qed.

(** C9, as the specification words it, fails: over two logged days at 0 and
    23 the mean is 11.5, and the 14-day adherence is 12. *)
Lemma adherence_is_a_rounded_mean :
  meanNutritionPercent (this14 Scenario.twoSparseDays Scenario.today) == 11.5
  /\ adherence14 Scenario.twoSparseDays Scenario.today == 12
  /\ ~ adherence14 Scenario.twoSparseDays Scenario.today
       == meanNutritionPercent (this14 Scenario.twoSparseDays Scenario.today).
Proof.
  split; [vm_compute; reflexivity|].
  split; [vm_compute; reflexivity|].
  vm_compute. discriminate.
Qed.

(** ** The weekly-over-daily resolver *)

Lemma numbers_weeklyValues (field : WeeklyMeasurement.field) (rows : list WeeklyMeasurement.t) :
  Js.numbers (map (WeeklyMeasurement.get field) rows) = weeklyValues field rows.
Proof.
  induction rows as [|row rows IH]; [reflexivity|].
  cbn [map Js.numbers weeklyValues flat_map].
  destruct (WeeklyMeasurement.get field row); cbn [app]; [f_equal|]; exact IH.
Qed.

Lemma numbers_dailyValues (field : DailyLog.key) (rows : list DailyLog.t) :
  Js.numbers (map (DailyLog.number field) rows) = dailyValues field rows.
Proof.
  induction rows as [|row rows IH]; [reflexivity|].
  cbn [map Js.numbers dailyValues flat_map].
  destruct (DailyLog.number field row); cbn [app]; [f_equal|]; exact IH.
Qed.

Lemma weeklyValues_nonempty (field : WeeklyMeasurement.field) (rows : list WeeklyMeasurement.t) :
  (exists row, In row rows /\ WeeklyMeasurement.get field row <> None) ->
  weeklyValues field rows <> [].
Proof.
  intros (row & Hin & Hget). induction rows as [|r rows IH]; [contradiction|].
  cbn [weeklyValues flat_map]. destruct Hin as [->|Hin].
  - destruct (WeeklyMeasurement.get field row); [discriminate|congruence].
  - destruct (WeeklyMeasurement.get field r); [discriminate|]. exact (IH Hin).
Qed.

Lemma hasWeeklyValue_iff (field : WeeklyMeasurement.field) (rows : list WeeklyMeasurement.t) :
  Js.some (fun row => isSome (WeeklyMeasurement.get field row)) rows = true
  <-> exists row, In row rows /\ WeeklyMeasurement.get field row <> None.
Proof.
  unfold Js.some. rewrite existsb_exists. split; intros (row & Hin & H); exists row;
    (split; [exact Hin|]); destruct (WeeklyMeasurement.get field row);
    try discriminate; try reflexivity; congruence.
Qed.

(** ** Rounded values *)

Lemma Js_sum_acc (values : list Q) (acc : Q) :
  fold_left (fun a value => a + value) values acc == acc + total values.
Proof.
  revert acc. induction values as [|v values IH]; intros acc; cbn [fold_left total].
  - ring.
  - rewrite IH. ring.
Qed.

(** The sum that [reduce] builds from the left is the sum of the values. *)
Lemma Js_sum_total (values : list Q) : Js.sum values == total values.
Proof. unfold Js.sum. rewrite Js_sum_acc. ring. Qed.

Lemma decimalUnit_positive (digits : nat) : 0 < decimalUnit digits.
Proof.
  unfold decimalUnit. apply Qlt_shift_div_l.
  - change 0 with (inject_Z 0). rewrite <- Zlt_Qlt. apply Z.pow_pos_nonneg; lia.
  - rewrite Qmult_0_l. reflexivity.
Qed.

Lemma half_unit_of_floor (scale x : Q) (k : Z) :
  0 < scale ->
  inject_Z k <= x * scale + (1 # 2) -> x * scale + (1 # 2) < inject_Z k + 1 ->
  Qabs (inject_Z k / scale - x) <= 1 / scale / 2.
Proof.
  intros Hscale Hle Hlt.
  assert (Hnz : ~ scale == 0) by (apply Qnot_eq_sym, Qlt_not_eq, Hscale).
  assert (Hinv : 0 <= 1 / scale).
  { apply Qle_shift_div_l; [exact Hscale|]. rewrite Qmult_0_l. discriminate. }
  assert (E : inject_Z k / scale - x == (inject_Z k - x * scale) * (1 / scale))
    by (field; exact Hnz).
  rewrite E, Qabs_Qmult, (Qabs_pos (1 / scale)) by exact Hinv.
  assert (E' : 1 / scale / 2 == (1 # 2) * (1 / scale)) by (field; exact Hnz).
  rewrite E'. apply Qmult_le_compat_r; [|exact Hinv].
  apply Qabs_Qle_condition. set (y := x * scale) in *. clearbody y. split; lra.
Qed.

(** [Number(x.toFixed(digits))] is [x] rounded to [digits] decimals. *)
Lemma toFixed_rounded (digits : nat) (x : Q) : roundedTo digits x (Js.toFixed digits x).
Proof.
  assert (Hpow : (0 < 10 ^ Z.of_nat digits)%Z) by (apply Z.pow_pos_nonneg; lia).
  assert (Hscale : inject_Z (Zpos (Z.to_pos (10 ^ Z.of_nat digits)))
                   = inject_Z (10 ^ Z.of_nat digits)) by (rewrite Z2Pos.id; auto).
  assert (Hpos : 0 < inject_Z (10 ^ Z.of_nat digits))
    by (change 0 with (inject_Z 0); rewrite <- Zlt_Qlt; exact Hpow).
  assert (Hnz : ~ inject_Z (10 ^ Z.of_nat digits) == 0)
    by (apply Qnot_eq_sym, Qlt_not_eq, Hpos).
  unfold roundedTo, decimalUnit, Js.toFixed. cbv zeta. rewrite Hscale.
  set (scale := inject_Z (10 ^ Z.of_nat digits)) in *.
  destruct (Qle_bool 0 x).
  - pose proof (Qfloor_le (x * scale + (1 # 2))) as Hle.
    pose proof (Qlt_floor (x * scale + (1 # 2))) as Hlt.
    rewrite inject_Z_plus in Hlt. change (inject_Z 1) with 1 in Hlt.
    set (k := Qfloor (x * scale + (1 # 2))) in *.
    assert (E : Qmake k (Z.to_pos (10 ^ Z.of_nat digits)) == inject_Z k / scale).
    { rewrite <- Hscale. apply Qmake_Qdiv. }
    split.
    + exists k. rewrite E. field. exact Hnz.
    + rewrite E. apply half_unit_of_floor; assumption.
  - pose proof (Qfloor_le (- x * scale + (1 # 2))) as Hle.
    pose proof (Qlt_floor (- x * scale + (1 # 2))) as Hlt.
    rewrite inject_Z_plus in Hlt. change (inject_Z 1) with 1 in Hlt.
    set (k := Qfloor (- x * scale + (1 # 2))) in *.
    assert (E : Qmake (- k) (Z.to_pos (10 ^ Z.of_nat digits)) == - (inject_Z k / scale)).
    { rewrite (Qmake_Qdiv (- k)), Hscale, inject_Z_opp. field. exact Hnz. }
    split.
    + exists (- k)%Z. rewrite E, inject_Z_opp. field. exact Hnz.
    + rewrite E.
      assert (E' : - (inject_Z k / scale) - x == - (inject_Z k / scale - - x)) by ring.
      rewrite E', Qabs_opp. apply half_unit_of_floor; assumption.
Qed.

Lemma roundedTo_comp (digits : nat) (x y r : Q) :
  x == y -> roundedTo digits x r -> roundedTo digits y r.
Proof.
  intros E (Hk & Hd). split; [exact Hk|]. rewrite <- E. exact Hd.
Qed.

(** [average] of a list that is not empty is the arithmetic mean of its
    values rounded to two decimals. *)
Lemma average_rounded (values : list Q) :
  values <> [] -> roundedTo 2 (arithmeticMean values) (average values).
Proof.
  intros Hne. destruct values as [|v values]; [congruence|].
  unfold average. apply (roundedTo_comp 2 (Js.sum (v :: values) / Js.len (v :: values))).
  - unfold arithmeticMean, Js.len. rewrite Js_sum_total. reflexivity.
  - apply toFixed_rounded.
Qed.

(** C5. Whenever a weekly row of the window has a value for the weekly
    field, [avgFromWeeklyOrDaily] is the arithmetic mean over exactly the
    weekly rows that have the field, rounded to two decimals, and the daily
    rows have no influence; only when no weekly row has the field is the
    result the rounded mean over the daily rows that have the daily field
    (0 when there is none). *)
Theorem avgFromWeeklyOrDaily_mean
    (weeklyRows : list WeeklyMeasurement.t)
    (weeklyField : WeeklyMeasurement.field) (dailyField : DailyLog.key) :
  ((exists row, In row weeklyRows /\ WeeklyMeasurement.get weeklyField row <> None) ->
   forall d1 d2 : list DailyLog.t,
     roundedTo 2 (arithmeticMean (weeklyValues weeklyField weeklyRows))
       (avgFromWeeklyOrDaily weeklyRows d1 weeklyField dailyField)
     /\ avgFromWeeklyOrDaily weeklyRows d1 weeklyField dailyField
        = avgFromWeeklyOrDaily weeklyRows d2 weeklyField dailyField)
  /\ ((forall row, In row weeklyRows -> WeeklyMeasurement.get weeklyField row = None) ->
      forall d : list DailyLog.t,
        match dailyValues dailyField d with
        | [] => avgFromWeeklyOrDaily weeklyRows d weeklyField dailyField = 0
        | values =>
            roundedTo 2 (arithmeticMean values)
              (avgFromWeeklyOrDaily weeklyRows d weeklyField dailyField)
        end).
Proof.
  split.
  - intros Hex d1 d2. unfold avgFromWeeklyOrDaily.
    rewrite (proj2 (hasWeeklyValue_iff weeklyField weeklyRows) Hex).
    split; [|reflexivity].
    unfold avgWeeklyByField. rewrite numbers_weeklyValues.
    apply average_rounded. apply weeklyValues_nonempty. exact Hex.
  - intros Hnone d. unfold avgFromWeeklyOrDaily.
    destruct (Js.some _ weeklyRows) eqn:E.
    + apply hasWeeklyValue_iff in E. destruct E as (row & Hin & Hget).
      elim Hget. exact (Hnone row Hin).
    + unfold avgByField. rewrite numbers_dailyValues.
      destruct (dailyValues dailyField d) as [|v values] eqn:Ev; [reflexivity|].
      apply average_rounded. discriminate.
Qed.

(** Two weekly rows at 72.4 and 73.0 give the same average, with or without
    a daily weight of 80. *)
Lemma avgFromWeeklyOrDaily_mean_witness :
  avgFromWeeklyOrDaily
    [ Scenario.weekOf (ymd 2024 3 18) (Some 72.4) None None;
      Scenario.weekOf (ymd 2024 3 11) (Some 73.0) None None ]
    [] WeeklyMeasurement.f_avgWeightKg DailyLog.k_weightKg
  = avgFromWeeklyOrDaily
      [ Scenario.weekOf (ymd 2024 3 18) (Some 72.4) None None;
        Scenario.weekOf (ymd 2024 3 11) (Some 73.0) None None ]
      [ Scenario.weighed (ymd 2024 3 19) 80 ]
      WeeklyMeasurement.f_avgWeightKg DailyLog.k_weightKg.
Proof.
  refine (proj2 (proj1 (avgFromWeeklyOrDaily_mean _ _ _) _ _ _)).
  exists (Scenario.weekOf (ymd 2024 3 18) (Some 72.4) None None).
  split; [left; reflexivity|discriminate].
Defined.


(** ** Adherence *)

(** ** Totals and clamping *)

Lemma getDailyTotals_fold (meals : list MealItem.t) (acc : DailyTotal.t) :
  let total :=
    fold_left
      (fun acc meal =>
         {| DailyTotal.p := DailyTotal.p acc + MealItem.p meal;
            DailyTotal.f := DailyTotal.f acc + MealItem.f meal;
            DailyTotal.c := DailyTotal.c acc + MealItem.c meal;
            DailyTotal.kcal := DailyTotal.kcal acc + MealItem.kcal meal |})
      meals acc in
  DailyTotal.p total == DailyTotal.p acc + macroTotal MealItem.p meals
  /\ DailyTotal.f total == DailyTotal.f acc + macroTotal MealItem.f meals
  /\ DailyTotal.c total == DailyTotal.c acc + macroTotal MealItem.c meals
  /\ DailyTotal.kcal total == DailyTotal.kcal acc + macroTotal MealItem.kcal meals.
Proof.
  revert acc. induction meals as [|meal meals IH]; intros acc; cbv zeta;
    cbn [fold_left macroTotal fold_right].
  - (split; [|split; [|split]]); ring.
  - destruct (IH {| DailyTotal.p := DailyTotal.p acc + MealItem.p meal;
                    DailyTotal.f := DailyTotal.f acc + MealItem.f meal;
                    DailyTotal.c := DailyTotal.c acc + MealItem.c meal;
                    DailyTotal.kcal := DailyTotal.kcal acc + MealItem.kcal meal |})
      as (Hp & Hf & Hc & Hk).
    cbn [DailyTotal.p DailyTotal.f DailyTotal.c DailyTotal.kcal] in Hp, Hf, Hc, Hk.
    fold (macroTotal MealItem.p meals) (macroTotal MealItem.f meals)
      (macroTotal MealItem.c meals) (macroTotal MealItem.kcal meals).
    rewrite Hp, Hf, Hc, Hk. (split; [|split; [|split]]); ring.
Qed.

Lemma getDailyTotals_macroTotal (log : DailyLog.t) :
  DailyTotal.p (getDailyTotals log) == macroTotal MealItem.p (DailyLog.meals log)
  /\ DailyTotal.f (getDailyTotals log) == macroTotal MealItem.f (DailyLog.meals log)
  /\ DailyTotal.c (getDailyTotals log) == macroTotal MealItem.c (DailyLog.meals log)
  /\ DailyTotal.kcal (getDailyTotals log) == macroTotal MealItem.kcal (DailyLog.meals log).
Proof.
  unfold getDailyTotals.
  destruct (getDailyTotals_fold (DailyLog.meals log)
              {| DailyTotal.p := 0; DailyTotal.f := 0; DailyTotal.c := 0; DailyTotal.kcal := 0 |})
    as (Hp & Hf & Hc & Hk).
  cbn [DailyTotal.p DailyTotal.f DailyTotal.c DailyTotal.kcal] in Hp, Hf, Hc, Hk.
  rewrite Hp, Hf, Hc, Hk. (split; [|split; [|split]]); ring.
Qed.

Lemma macroTotal_app (macro : MealItem.t -> Q) (l1 l2 : list MealItem.t) :
  macroTotal macro (l1 ++ l2) == macroTotal macro l1 + macroTotal macro l2.
Proof.
  induction l1 as [|item l1 IH]; cbn [app].
  - change (macroTotal macro []) with 0. ring.
  - change (macroTotal macro (item :: l1 ++ l2))
      with (macro item + macroTotal macro (l1 ++ l2)).
    change (macroTotal macro (item :: l1)) with (macro item + macroTotal macro l1).
    rewrite IH. ring.
Qed.

Lemma Qmax_cases (a b : Q) : Qmax a b = a \/ Qmax a b = b.
Proof.
  unfold Qmax, GenericMinMax.gmax. destruct (a ?= b); auto.
Qed.

Lemma Qmin_cases (a b : Q) : Qmin a b = a \/ Qmin a b = b.
Proof.
  unfold Qmin, GenericMinMax.gmin. destruct (a ?= b); auto.
Qed.

Lemma clamp_bounds (value lo hi : Q) : lo <= hi -> lo <= clamp value lo hi <= hi.
Proof.
  intros H. unfold clamp. split; [apply Q.le_max_l|].
  apply Q.max_lub; [exact H|apply Q.le_min_l].
Qed.

(** A clamped integer between integer bounds is an integer between them. *)
Lemma clamp_integer (z lo hi : Z) :
  (lo <= hi)%Z ->
  exists k : Z, clamp (inject_Z z) (inject_Z lo) (inject_Z hi) = inject_Z k /\ (lo <= k <= hi)%Z.
Proof.
  intros H.
  assert (Hb := clamp_bounds (inject_Z z) (inject_Z lo) (inject_Z hi)).
  rewrite <- Zle_Qle in Hb. specialize (Hb H).
  unfold clamp in *.
  destruct (Qmax_cases (inject_Z lo) (Qmin (inject_Z hi) (inject_Z z))) as [E|E];
    rewrite E in *.
  - exists lo. split; [reflexivity|lia].
  - destruct (Qmin_cases (inject_Z hi) (inject_Z z)) as [E'|E']; rewrite E' in *.
    + exists hi. split; [reflexivity|lia].
    + exists z. rewrite <- !Zle_Qle in Hb. split; [reflexivity|exact Hb].
Qed.

Lemma unitClamp_bounds (x : Q) : 0 <= unitClamp x <= 1.
Proof.
  unfold unitClamp. destruct (Qle_bool x 0) eqn:E0; [split; discriminate|].
  destruct (Qle_bool 1 x) eqn:E1; [split; discriminate|].
  apply not_true_iff_false in E0, E1. rewrite Qle_bool_iff in E0, E1.
  split; apply Qlt_le_weak, Qnot_le_lt; assumption.
Qed.

Lemma unitClamp_comp (x y : Q) : x == y -> unitClamp x == unitClamp y.
Proof.
  intros E. unfold unitClamp.
  assert (H0 : Qle_bool x 0 = Qle_bool y 0) by (rewrite E; reflexivity).
  assert (H1 : Qle_bool 1 x = Qle_bool 1 y) by (rewrite E; reflexivity).
  rewrite H0, H1.
  destruct (Qle_bool y 0); [reflexivity|]. destruct (Qle_bool 1 y); [reflexivity|exact E].
Qed.

(** The clamp of the code, between 0 and 1, is the clamp of the
    specification. *)
Lemma clamp_unitClamp (x : Q) : clamp x 0 1 == unitClamp x.
Proof.
  unfold clamp, unitClamp.
  destruct (Qle_bool x 0) eqn:E0.
  - apply Qle_bool_iff in E0. rewrite Q.min_r by lra. apply Q.max_l. exact E0.
  - apply not_true_iff_false in E0. rewrite Qle_bool_iff in E0.
    destruct (Qle_bool 1 x) eqn:E1.
    + apply Qle_bool_iff in E1. rewrite Q.min_l by exact E1. apply Q.max_r. discriminate.
    + apply not_true_iff_false in E1. rewrite Qle_bool_iff in E1.
      rewrite Q.min_r by lra. apply Q.max_r. lra.
Qed.

Lemma closeness_specCloseness (actual actual' target : Q) :
  0 < target -> actual == actual' -> closeness actual target == specCloseness actual' target.
Proof.
  intros Ht E. unfold closeness, specCloseness.
  destruct (Qle_bool target 0) eqn:E0; [apply Qle_bool_iff in E0; lra|].
  rewrite clamp_unitClamp. apply unitClamp_comp. rewrite E. reflexivity.
Qed.

Lemma specMealScore_bounds (log : DailyLog.t) : 0 <= specMealScore log <= 1.
Proof.
  unfold specMealScore. cbn [filter].
  destruct (slotFilled log desayuno), (slotFilled log comida), (slotFilled log cena);
    split; discriminate.
Qed.

Lemma specBlend_bounds (log : DailyLog.t) : 0 <= specBlend log <= 100.
Proof.
  unfold specBlend, specMacroScore, specCloseness. cbv zeta.
  pose proof (specMealScore_bounds log) as Hm.
  set (m := specMealScore log) in *. clearbody m.
  match goal with
  | |- context [0.45 * unitClamp ?a + 0.20 * unitClamp ?b + 0.20 * unitClamp ?c
                + 0.15 * unitClamp ?d] =>
      pose proof (unitClamp_bounds a) as Ha; pose proof (unitClamp_bounds b) as Hb;
      pose proof (unitClamp_bounds c) as Hc; pose proof (unitClamp_bounds d) as Hd;
      set (ca := unitClamp a) in *; set (cb := unitClamp b) in *;
      set (cc := unitClamp c) in *; set (cd := unitClamp d) in *;
      clearbody ca cb cc cd
  end.
  split; lra.
Qed.

(** The blend that [computeDayAdherence] rounds is the blend of the
    specification. *)
Lemma computeDayAdherence_blend (log : DailyLog.t) :
  exists v : Q,
    Adherence.nutritionPercent (computeDayAdherence log)
    = clamp (Js.Math_round v) 0 100
    /\ v == specBlend log.
Proof.
  unfold computeDayAdherence. cbn [Adherence.nutritionPercent]. eexists. split; [reflexivity|].
  unfold Js.some. fold (slotFilled log desayuno) (slotFilled log comida) (slotFilled log cena).
  assert (Hmeal :
    Js.len (filter (fun b : bool => b) [slotFilled log desayuno; slotFilled log comida;
                                        slotFilled log cena]) / 3
    = specMealScore log).
  { unfold specMealScore. cbn [filter].
    destruct (slotFilled log desayuno), (slotFilled log comida), (slotFilled log cena);
      reflexivity. }
  rewrite Hmeal. unfold specBlend, specMacroScore. cbv zeta.
  destruct (getDailyTotals_macroTotal log) as (Hp & Hf & Hc & Hk).
  assert (Htarget : 0 < DayTarget.p (DAY_TARGETS (DailyLog.dayType log))
                    /\ 0 < DayTarget.f (DAY_TARGETS (DailyLog.dayType log))
                    /\ 0 < DayTarget.c (DAY_TARGETS (DailyLog.dayType log))
                    /\ 0 < DayTarget.kcal (DAY_TARGETS (DailyLog.dayType log)))
    by (destruct (DailyLog.dayType log); repeat split; reflexivity).
  destruct Htarget as (Tp & Tf & Tc & Tk).
  rewrite (closeness_specCloseness _ _ _ Tp Hp), (closeness_specCloseness _ _ _ Tf Hf),
    (closeness_specCloseness _ _ _ Tc Hc), (closeness_specCloseness _ _ _ Tk Hk).
  ring.
Qed.

(** C7. For every daily log, the adherence that [computeDayAdherence]
    returns is a whole number from 0 to 100 that lies at most one half from
    the blend, in percent, of 35 % meal completeness and 65 % macro closeness
    against the fixed targets of the day type: the blend rounded to the
    nearest whole number.  The log gets one [missing_<slot>] flag for each
    empty meal slot. *)
Theorem computeDayAdherence_nearest_percent (log : DailyLog.t) :
  (exists n : Z,
      Adherence.nutritionPercent (computeDayAdherence log) = inject_Z n
      /\ (0 <= n <= 100)%Z
      /\ Qabs (inject_Z n - specBlend log) <= 1 # 2)
  /\ Adherence.kpiFlags (computeDayAdherence log) = specFlags log.
Proof.
  split.
  - destruct (computeDayAdherence_blend log) as (v & Hcode & Hv).
    pose proof (specBlend_bounds log) as Hb. rewrite <- Hv in *.
    pose proof (Qfloor_le (v + (1 # 2))) as Hle.
    pose proof (Qlt_floor (v + (1 # 2))) as Hlt.
    rewrite inject_Z_plus in Hlt. change (inject_Z 1) with 1 in Hlt.
    unfold Js.Math_round in Hcode.
    set (z := Qfloor (v + (1 # 2))) in *.
    assert (Hz : (0 <= z <= 100)%Z).
    { split.
      - apply Qfloor_resp_le with (x := 0) (y := v + (1 # 2)). lra.
      - apply Z.lt_succ_r. change (Z.succ 100) with 101%Z. rewrite Zlt_Qlt.
        change (inject_Z 101) with 101. lra. }
    destruct (clamp_integer z 0 100 ltac:(lia)) as (n & Hn & Hrange).
    change (inject_Z 0) with 0 in Hn. change (inject_Z 100) with 100 in Hn.
    exists n. split; [congruence|]. split; [exact Hrange|].
    assert (E : inject_Z n == inject_Z z).
    { rewrite <- Hn. unfold clamp.
      rewrite Q.min_r by (change 100 with (inject_Z 100); rewrite <- Zle_Qle; lia).
      apply Q.max_r. change 0 with (inject_Z 0). rewrite <- Zle_Qle. lia. }
    rewrite E. apply Qabs_Qle_condition. split; lra.
  - unfold computeDayAdherence, specFlags, Js.some. cbn [Adherence.kpiFlags].
    fold (slotFilled log desayuno) (slotFilled log comida) (slotFilled log cena).
    cbn [filter map].
    destruct (slotFilled log desayuno), (slotFilled log comida), (slotFilled log cena);
      reflexivity.
Qed.


(** ** Sorting *)

Section Sort.

Context {A : Type}.
Variable before : A -> A -> bool.

Lemma insert_perm (x : A) (l : list A) : Permutation (Js.insert before x l) (x :: l).
Proof.
  induction l as [|y l IH]; cbn [Js.insert]; [apply Permutation_refl|].
  destruct (before x y); [apply Permutation_refl|].
  apply perm_trans with (y :: x :: l); [apply perm_skip; exact IH|apply perm_swap].
Qed.

Lemma sort_perm (l : list A) : Permutation (Js.sort before l) l.
Proof.
  induction l as [|x l IH]; cbn [Js.sort fold_right]; [apply perm_nil|].
  apply perm_trans with (x :: Js.sort before l); [apply insert_perm|].
  apply perm_skip. exact IH.
Qed.

Lemma sort_In (x : A) (l : list A) : In x (Js.sort before l) <-> In x l.
Proof.
  split; apply Permutation_in; [apply sort_perm|apply Permutation_sym, sort_perm].
Qed.

Hypothesis before_total : forall a b, before a b = false -> before b a = true.
Hypothesis before_trans : forall a b c, before a b = true -> before b c = true -> before a c = true.

Lemma insert_sorted (x : A) (l : list A) :
  StronglySorted (fun a b => before a b = true) l ->
  StronglySorted (fun a b => before a b = true) (Js.insert before x l).
Proof.
  induction 1 as [|y l Hs IH Hall]; cbn [Js.insert].
  - constructor; constructor.
  - destruct (before x y) eqn:E.
    + constructor; [constructor; assumption|].
      constructor; [exact E|].
      rewrite Forall_forall in *. intros z Hz. exact (before_trans _ _ _ E (Hall z Hz)).
    + constructor; [exact IH|].
      rewrite Forall_forall in *. intros z Hz.
      apply (Permutation_in _ (insert_perm x l)) in Hz. destruct Hz as [<-|Hz].
      * exact (before_total _ _ E).
      * exact (Hall z Hz).
Qed.

Lemma sort_sorted (l : list A) : StronglySorted (fun a b => before a b = true) (Js.sort before l).
Proof.
  induction l as [|x l IH]; cbn [Js.sort fold_right]; [constructor|].
  apply insert_sorted. exact IH.
Qed.

(** When the keys of the rows are pairwise distinct, the order of the sorted
    list is strict. *)
Variable key : A -> Z.
Variable strictly : A -> A -> Prop.
Hypothesis before_strictly :
  forall a b, before a b = true -> key a <> key b -> strictly a b.

Lemma sort_strict (l : list A) :
  NoDup (map key l) -> StronglySorted strictly (Js.sort before l).
Proof.
  intros Hnd.
  assert (Hnd' : NoDup (map key (Js.sort before l))).
  { apply (Permutation_NoDup (l := map key l)); [|exact Hnd].
    apply Permutation_map, Permutation_sym, sort_perm. }
  pose proof (sort_sorted l) as Hs.
  induction Hs as [|a t Hs IH Hall]; [constructor|].
  inversion Hnd' as [|? ? Hnotin Hnd'']; subst.
  constructor; [exact (IH Hnd'')|].
  rewrite Forall_forall in *. intros b Hb.
  apply before_strictly; [exact (Hall b Hb)|].
  intros E. apply Hnotin. rewrite E. apply in_map. exact Hb.
Qed.

End Sort.

Lemma sort_oldest_first_strict (rows : list DailyLog.t) :
  NoDup (map DailyLog.date rows) ->
  StronglySorted (fun a b => (DailyLog.date a < DailyLog.date b)%Z)
    (Js.sort dailyOldestFirst rows).
Proof.
  apply sort_strict; unfold dailyOldestFirst.
  - intros a b H. apply Z.leb_gt in H. apply Z.leb_le. lia.
  - intros a b c H1 H2. apply Z.leb_le in H1, H2. apply Z.leb_le. lia.
  - intros a b H Hne. apply Z.leb_le in H. lia.
Qed.

(** ** The daily streak *)

Lemma run_step_below (run : Q) (k : Z) :
  run == inject_Z k -> (k < 2)%Z -> Js.geb (run + 1) 3 = false.
Proof.
  intros E Hk. apply geb_false_iff. rewrite E.
  unfold Qlt, Qplus, inject_Z. cbn. lia.
Qed.

Lemma run_step_reached (run : Q) : run == 2 -> Js.geb (run + 1) 3 = true.
Proof.
  intros E. apply geb_true_iff. rewrite E. apply Qle_bool_iff. reflexivity.
Qed.

(** What the loop returns from each of the states it can be in: no run, a
    run of one ending the day [d], a run of two ending the day [d]. *)
Lemma painSpikeLoop_states (l : list DailyLog.t) :
  forall (run : Q) (last : option IsoDate),
    (run == 0 -> painSpikeLoop 7 3 run last l = hasStreak3 l)
    /\ (forall d, run == 1 -> last = Some d ->
          painSpikeLoop 7 3 run last l = hasStreak3 l || continuesRunTwice d l)
    /\ (forall d, run == 2 -> last = Some d ->
          painSpikeLoop 7 3 run last l
          = hasStreak3 l || continuesRunTwice d l || continuesRun d l).
Proof.
  induction l as [|a t IH]; intros run last.
  - repeat split; reflexivity.
  - assert (H1 : Js.geb 1 3 = false) by reflexivity.
    destruct (IH 0 (Some (DailyLog.date a))) as (IH0 & _ & _).
    specialize (IH0 (Qeq_refl 0)).
    cbn [painSpikeLoop hasStreak3 continuesRunTwice continuesRun].
    fold (highPain a). split; [|split].
    + intros E. destruct (highPain a); cbn [andb orb]; [|exact IH0].
      assert (Hrun : forall c : bool,
                 painSpikeLoop 7 3 (if c then run + 1 else 1) (Some (DailyLog.date a)) t
                 = hasStreak3 t || continuesRunTwice (DailyLog.date a) t).
      { intros c. destruct (IH (if c then run + 1 else 1) (Some (DailyLog.date a)))
          as (_ & IH1 & _).
        apply IH1; [|reflexivity]. destruct c; [rewrite E|]; reflexivity. }
      assert (Hgeb : forall c : bool, Js.geb (if c then run + 1 else 1) 3 = false).
      { intros [|]; [apply (run_step_below run 0 E); lia|exact H1]. }
      rewrite Hgeb, Hrun. apply orb_comm.
    + intros d E ->. rewrite isNextDay_spec.
      destruct (highPain a); cbn [andb orb]; [|rewrite IH0, orb_false_r; reflexivity].
      destruct (d + 1 =? DailyLog.date a)%Z; cbn [andb orb].
      * rewrite (run_step_below run 1 E) by lia.
        destruct (IH (run + 1) (Some (DailyLog.date a))) as (_ & _ & IH2).
        rewrite (IH2 (DailyLog.date a)); [|rewrite E; reflexivity|reflexivity].
        destruct (hasStreak3 t), (continuesRunTwice (DailyLog.date a) t),
          (continuesRun (DailyLog.date a) t); reflexivity.
      * rewrite H1. destruct (IH 1 (Some (DailyLog.date a))) as (_ & IH1 & _).
        rewrite (IH1 (DailyLog.date a)); [|reflexivity|reflexivity].
        rewrite orb_false_r. apply orb_comm.
    + intros d E ->. rewrite isNextDay_spec.
      destruct (highPain a); cbn [andb orb]; [|rewrite IH0, !orb_false_r; reflexivity].
      destruct (d + 1 =? DailyLog.date a)%Z; cbn [andb orb].
      * rewrite (run_step_reached run E), orb_true_r. reflexivity.
      * rewrite H1. destruct (IH 1 (Some (DailyLog.date a))) as (_ & IH1 & _).
        rewrite (IH1 (DailyLog.date a)); [|reflexivity|reflexivity].
        rewrite !orb_false_r. apply orb_comm.
Qed.

Lemma hasConsecutivePainSpike_sorted (rows : list DailyLog.t) :
  hasConsecutivePainSpike rows = hasStreak3 (Js.sort dailyOldestFirst rows).
Proof.
  unfold hasConsecutivePainSpike, hasConsecutivePainSpikeWith.
  destruct (Js.sort dailyOldestFirst rows) as [|a t] eqn:E; [reflexivity|].
  destruct (painSpikeLoop_states (a :: t) 0 None) as (H0 & _ & _).
  apply H0. reflexivity.
Qed.

Lemma hasStreak3_sound (l : list DailyLog.t) :
  hasStreak3 l = true -> threeConsecutiveHighPainDays l.
Proof.
  induction l as [|a t IH]; [discriminate|].
  cbn [hasStreak3]. intros H. apply orb_true_iff in H. destruct H as [H|H].
  - destruct t as [|b [|c t]]; cbn [continuesRunTwice continuesRun] in H;
      try (rewrite ?andb_false_r in H; discriminate).
    rewrite !andb_true_iff, !Z.eqb_eq in H. unfold highPain in H.
    rewrite !geb_true_iff in H. destruct H as (Pa & (Pb & Dab) & Pc & Dbc).
    exists (DailyLog.date a), a, b, c. cbn [In]. repeat split; auto; lia.
  - destruct (IH H) as (day & x & y & z & Hx & Hy & Hz & Hrest).
    exists day, x, y, z. cbn [In]. tauto.
Qed.

Lemma next_day_is_head (d : IsoDate) (t : list DailyLog.t) (b : DailyLog.t) :
  StronglySorted (fun x y => (DailyLog.date x < DailyLog.date y)%Z) t ->
  Forall (fun y => (d < DailyLog.date y)%Z) t ->
  In b t -> DailyLog.date b = (d + 1)%Z ->
  exists t', t = b :: t'.
Proof.
  intros Hs Hall Hin Hd. destruct t as [|y t']; [contradiction|].
  destruct Hin as [->|Hin]; [exists t'; reflexivity|].
  exfalso. inversion Hs as [|? ? _ Hy]; subst. inversion Hall as [|? ? Hdy _]; subst.
  rewrite Forall_forall in Hy. specialize (Hy b Hin). lia.
Qed.

Lemma hasStreak3_complete (l : list DailyLog.t) :
  StronglySorted (fun x y => (DailyLog.date x < DailyLog.date y)%Z) l ->
  threeConsecutiveHighPainDays l -> hasStreak3 l = true.
Proof.
  induction 1 as [|x t Hs IH Hall];
    intros (day & a & b & c & Ha & Hb & Hc & Da & Db & Dc & Pa & Pb & Pc);
    [contradiction|].
  cbn [hasStreak3]. apply orb_true_iff.
  pose proof Hall as Hall'. rewrite Forall_forall in Hall'.
  destruct Ha as [->|Ha].
  - left.
    destruct Hb as [->|Hb]; [lia|]. destruct Hc as [->|Hc]; [lia|].
    destruct (next_day_is_head (DailyLog.date a) t b Hs Hall Hb) as (t' & ->); [lia|].
    inversion Hs as [|? ? Hs' Hall'']; subst.
    destruct Hc as [->|Hc]; [lia|].
    destruct (next_day_is_head (DailyLog.date b) t' c Hs' Hall'' Hc) as (t'' & ->); [lia|].
    cbn [continuesRunTwice continuesRun]. unfold highPain.
    rewrite !(proj2 (geb_true_iff _ _)) by assumption.
    rewrite !(proj2 (Z.eqb_eq _ _)) by lia. reflexivity.
  - right. apply IH.
    destruct Hb as [->|Hb]; [specialize (Hall' a Ha); lia|].
    destruct Hc as [->|Hc]; [specialize (Hall' a Ha); lia|].
    exists day, a, b, c. repeat split; assumption.
Qed.

(** On a host that stays at a fixed offset from UTC, with pairwise distinct
    dates, the detector fires exactly on three consecutive calendar dates
    with a lumbar pain of 7 or more. *)
Lemma hasConsecutivePainSpike_iff (rows : list DailyLog.t) :
  NoDup (map DailyLog.date rows) ->
  (hasConsecutivePainSpike rows = true <-> threeConsecutiveHighPainDays rows).
Proof.
  intros Hnd. rewrite hasConsecutivePainSpike_sorted. split.
  - intros H. destruct (hasStreak3_sound _ H) as (day & a & b & c & Ha & Hb & Hc & Hrest).
    exists day, a, b, c. rewrite sort_In in Ha, Hb, Hc. tauto.
  - intros (day & a & b & c & Ha & Hb & Hc & Hrest).
    apply hasStreak3_complete; [apply sort_oldest_first_strict; exact Hnd|].
    exists day, a, b, c. rewrite !sort_In. tauto.
Qed.

(** ** The detector and the host's time zone *)

Lemma addDays_fixedOffset (offset : Z) (date : Date) (days : Z) :
  Zoned.addDays (Zoned.fixedOffset offset) date days = addDays date days.
Proof. unfold Zoned.addDays, Zoned.fixedOffset, addDays. cbn. lia. Qed.

Lemma getRange_fixedOffset (offset : Z) (days : Z) (from : Date) :
  Zoned.getRange (Zoned.fixedOffset offset) days from = getRange days from.
Proof. unfold Zoned.getRange, getRange. rewrite addDays_fixedOffset. reflexivity. Qed.

Lemma isNextDay_fixedOffset (offset : Z) (a b : IsoDate) :
  Zoned.isNextDay (Zoned.fixedOffset offset) a b = isNextDay a b.
Proof. unfold Zoned.isNextDay, isNextDay. rewrite addDays_fixedOffset. reflexivity. Qed.

Lemma painSpikeLoop_fixedOffset (offset : Z) (threshold minStreak run : Q)
    (lastDate : option IsoDate) (ordered : list DailyLog.t) :
  Zoned.painSpikeLoop (Zoned.fixedOffset offset) threshold minStreak run lastDate ordered
  = painSpikeLoop threshold minStreak run lastDate ordered.
Proof.
  revert run lastDate. induction ordered as [|row rest IH]; intros run lastDate;
    [reflexivity|].
  cbn [Zoned.painSpikeLoop painSpikeLoop].
  destruct lastDate as [d|]; rewrite ?isNextDay_fixedOffset, !IH; reflexivity.
Qed.

(** The detector of the code on a host at a fixed offset from UTC is the
    detector modelled with days of 24 hours. *)
Lemma hasConsecutivePainSpike_fixedOffset (offset : Z) (rows : list DailyLog.t) :
  Zoned.hasConsecutivePainSpike (Zoned.fixedOffset offset) rows = hasConsecutivePainSpike rows.
Proof.
  unfold Zoned.hasConsecutivePainSpike, Zoned.hasConsecutivePainSpikeWith,
    hasConsecutivePainSpike, hasConsecutivePainSpikeWith. cbv zeta.
  rewrite painSpikeLoop_fixedOffset. reflexivity.
Qed.

(** C6. The claim fails on the code where the host changes to summer
    time.  On Europe/Madrid, [isNextDay] adds a local calendar day to
    midnight UTC of
    2024-03-31, which is 01:00 local time, and reaches 01:00 summer time of
    2024-04-01, which is still 2024-03-31 in UTC: 2024-04-01 is not taken
    for the day after 2024-03-31.  Logs with a pain of 8 on 2024-03-30,
    2024-03-31 and 2024-04-01 have pairwise distinct dates and are three
    consecutive calendar dates with a pain of 7 or more, and the detector
    does not fire on them. *)
Theorem pain_streak_misses_spring_change :
  NoDup (map DailyLog.date Scenario.springChange)
  /\ threeConsecutiveHighPainDays Scenario.springChange
  /\ Zoned.isNextDay Zoned.madrid2024 (ymd 2024 3 30) (ymd 2024 3 31) = true
  /\ Zoned.isNextDay Zoned.madrid2024 (ymd 2024 3 31) (ymd 2024 4 1) = false
  /\ Zoned.hasConsecutivePainSpike Zoned.madrid2024 Scenario.springChange = false.
Proof.
  split; [repeat constructor; vm_compute; intuition discriminate|].
  split.
  - exists (ymd 2024 3 30),
      (Scenario.logOf (ymd 2024 3 30) 8 [] []),
      (Scenario.logOf (ymd 2024 3 31) 8 [] []),
      (Scenario.logOf (ymd 2024 4 1) 8 [] []).
    unfold Scenario.springChange. cbn [In].
    repeat split; auto; apply Qle_bool_iff; reflexivity.
  - repeat split; vm_compute; reflexivity.
Qed.


(** ** Performance index *)

Lemma Qmax_keeps_left (a b : Q) : b <= a -> Qmax a b = a.
Proof.
  intros H. unfold Qmax, GenericMinMax.gmax.
  destruct (a ?= b) eqn:E; try reflexivity.
  apply Qlt_alt in E. exfalso. exact (Qlt_not_le _ _ E H).
Qed.

Lemma fold_Qmax_ge (l : list Q) (init : Q) : init <= fold_left Qmax l init.
Proof.
  revert init. induction l as [|v l IH]; intros init; cbn [fold_left]; [apply Qle_refl|].
  apply Qle_trans with (Qmax init v); [apply Q.le_max_l|apply IH].
Qed.

Lemma fold_Qmax_nonpositive (l : list Q) :
  Forall (fun v => v <= 0) l -> fold_left Qmax l 0 = 0.
Proof.
  induction 1 as [|v l Hv _ IH]; cbn [fold_left]; [reflexivity|].
  rewrite (Qmax_keeps_left 0 v Hv). exact IH.
Qed.

Lemma logBest_nonneg (exercise : CoreExerciseId) (log : DailyLog.t) : 0 <= logBest exercise log.
Proof.
  unfold logBest.
  set (sets := filter _ _). clearbody sets.
  assert (H : forall init, init <= fold_left
             (fun acc set => Qmax acc (WorkoutSet.sets set * WorkoutSet.reps set
                                       * WorkoutSet.weightKg set)) sets init).
  { induction sets as [|s sets IH]; intros init; cbn [fold_left]; [apply Qle_refl|].
    eapply Qle_trans; [apply Q.le_max_l|apply IH]. }
  apply H.
Qed.

Lemma dayBest_nonneg (exercise : CoreExerciseId) (rows : list DailyLog.t) (day : IsoDate) :
  0 <= dayBest exercise rows day.
Proof. apply fold_Qmax_ge. Qed.

Lemma dayBest_snoc (exercise : CoreExerciseId) (rows : list DailyLog.t) (x : DailyLog.t)
    (day : IsoDate) :
  dayBest exercise (rows ++ [x]) day
  = if (DailyLog.date x =? day)%Z
    then Qmax (dayBest exercise rows day) (logBest exercise x)
    else dayBest exercise rows day.
Proof.
  unfold dayBest. rewrite filter_app, map_app, fold_left_app. cbn [filter].
  destruct (DailyLog.date x =? day)%Z; reflexivity.
Qed.

Lemma distinctDates_snoc (dates : list IsoDate) (d : IsoDate) :
  distinctDates (dates ++ [d])
  = if existsb (Z.eqb d) (distinctDates dates)
    then distinctDates dates
    else distinctDates dates ++ [d].
Proof. unfold distinctDates. rewrite fold_left_app. reflexivity. Qed.

Lemma existsb_eqb_In (d : IsoDate) (l : list IsoDate) :
  existsb (Z.eqb d) l = true <-> In d l.
Proof.
  rewrite existsb_exists. split.
  - intros (x & Hin & E). apply Z.eqb_eq in E. subst. exact Hin.
  - intros Hin. exists d. split; [exact Hin|apply Z.eqb_refl].
Qed.

Lemma distinctDates_In (dates : list IsoDate) (d : IsoDate) :
  In d (distinctDates dates) <-> In d dates.
Proof.
  induction dates as [|x dates IH] using rev_ind; [reflexivity|].
  rewrite distinctDates_snoc, in_app_iff. cbn [In].
  destruct (existsb (Z.eqb x) (distinctDates dates)) eqn:E.
  - apply existsb_eqb_In in E. rewrite IH. split; [tauto|].
    intros [H|[<-|[]]]; [exact H|]. apply IH. exact E.
  - rewrite in_app_iff, IH. cbn [In]. tauto.
Qed.

Lemma distinctDates_NoDup (dates : list IsoDate) : NoDup (distinctDates dates).
Proof.
  induction dates as [|x dates IH] using rev_ind; [constructor|].
  rewrite distinctDates_snoc.
  destruct (existsb (Z.eqb x) (distinctDates dates)) eqn:E; [exact IH|].
  apply NoDup_app; [exact IH|repeat constructor; intros []|].
  intros a Ha [<-|[]].
  apply existsb_eqb_In in Ha. congruence.
Qed.

(** Setting a key of a map that lists each of [days] once. *)
Lemma DateMap_set_listed (g : IsoDate -> Q) (days : list IsoDate) (k : IsoDate) (v : Q) :
  NoDup days -> In k days ->
  DateMap.set k v (map (fun d => (d, g d)) days)
  = map (fun d => (d, if (k =? d)%Z then v else g d)) days.
Proof.
  induction 1 as [|d days Hnotin Hnd IH]; [contradiction|].
  intros Hin. cbn [map DateMap.set].
  destruct (k =? d)%Z eqn:E.
  - apply Z.eqb_eq in E. subst d. f_equal.
    apply map_ext_in. intros d Hd.
    destruct (k =? d)%Z eqn:E'; [|reflexivity].
    apply Z.eqb_eq in E'. subst. contradiction.
  - f_equal. apply IH. destruct Hin as [->|Hin]; [|exact Hin].
    rewrite Z.eqb_refl in E. discriminate.
Qed.

Lemma DateMap_set_unlisted (g : IsoDate -> Q) (days : list IsoDate) (k : IsoDate) (v : Q) :
  ~ In k days ->
  DateMap.set k v (map (fun d => (d, g d)) days) = map (fun d => (d, g d)) days ++ [(k, v)].
Proof.
  induction days as [|d days IH]; intros Hnotin; [reflexivity|].
  cbn [map DateMap.set app].
  destruct (k =? d)%Z eqn:E.
  - apply Z.eqb_eq in E. subst. elim Hnotin. left. reflexivity.
  - f_equal. apply IH. intros H. apply Hnotin. right. exact H.
Qed.

Lemma DateMap_get_listed (g : IsoDate -> Q) (days : list IsoDate) (k : IsoDate) :
  DateMap.get k (map (fun d => (d, g d)) days) = if existsb (Z.eqb k) days then Some (g k) else None.
Proof.
  induction days as [|d days IH]; [reflexivity|].
  cbn [map DateMap.get existsb].
  destruct (k =? d)%Z eqn:E; cbn [orb]; [|exact IH].
  apply Z.eqb_eq in E. subst. reflexivity.
Qed.

Lemma daysWithLoad_In (exercise : CoreExerciseId) (rows : list DailyLog.t) (day : IsoDate) :
  In day (daysWithLoad exercise rows)
  <-> exists log, In log rows /\ DailyLog.date log = day /\ Js.ltb 0 (logBest exercise log) = true.
Proof.
  unfold daysWithLoad. rewrite distinctDates_In, in_map_iff. split.
  - intros (log & E & Hin). apply filter_In in Hin. exists log. tauto.
  - intros (log & Hin & E & Hpos). exists log. rewrite filter_In. tauto.
Qed.

Lemma dayBest_without_load (exercise : CoreExerciseId) (rows : list DailyLog.t) (day : IsoDate) :
  ~ In day (daysWithLoad exercise rows) -> dayBest exercise rows day = 0.
Proof.
  intros Hnotin. unfold dayBest. apply fold_Qmax_nonpositive.
  rewrite Forall_forall. intros v Hv. apply in_map_iff in Hv.
  destruct Hv as (log & <- & Hin). apply filter_In in Hin. destruct Hin as (Hin & E).
  apply Z.eqb_eq in E.
  destruct (Js.ltb 0 (logBest exercise log)) eqn:Hpos.
  - elim Hnotin. apply daysWithLoad_In. exists log. auto.
  - unfold Js.ltb in Hpos. apply negb_false_iff in Hpos. apply Qle_bool_iff. exact Hpos.
Qed.

Lemma daysWithLoad_snoc (exercise : CoreExerciseId) (rows : list DailyLog.t) (x : DailyLog.t) :
  daysWithLoad exercise (rows ++ [x])
  = if Js.ltb 0 (logBest exercise x)
    then if existsb (Z.eqb (DailyLog.date x)) (daysWithLoad exercise rows)
         then daysWithLoad exercise rows
         else daysWithLoad exercise rows ++ [DailyLog.date x]
    else daysWithLoad exercise rows.
Proof.
  unfold daysWithLoad. rewrite filter_app, map_app. cbn [filter].
  destruct (Js.ltb 0 (logBest exercise x)); cbn [map].
  - apply distinctDates_snoc.
  - rewrite app_nil_r. reflexivity.
Qed.

(** The map that [getExerciseBest] builds: one entry for each day with a
    positive load, holding the best load of that day. *)
Lemma groupByDate_spec (exercise : CoreExerciseId) (rows : list DailyLog.t) :
  groupByDate exercise rows
  = map (fun d => (d, dayBest exercise rows d)) (daysWithLoad exercise rows).
Proof.
  induction rows as [|x rows IH] using rev_ind; [reflexivity|].
  unfold groupByDate in *. rewrite fold_left_app. cbn [fold_left]. rewrite IH. clear IH.
  rewrite daysWithLoad_snoc.
  destruct (Js.ltb 0 (logBest exercise x)) eqn:Hpos.
  - rewrite DateMap_get_listed.
    destruct (existsb (Z.eqb (DailyLog.date x)) (daysWithLoad exercise rows)) eqn:E.
    + apply existsb_eqb_In in E.
      rewrite DateMap_set_listed by (try apply distinctDates_NoDup; exact E).
      apply map_ext. intros d. rewrite dayBest_snoc.
      destruct (DailyLog.date x =? d)%Z eqn:E'; [|reflexivity].
      apply Z.eqb_eq in E'. subst d. reflexivity.
    + assert (Hnotin : ~ In (DailyLog.date x) (daysWithLoad exercise rows)).
      { intros H. apply existsb_eqb_In in H. congruence. }
      rewrite DateMap_set_unlisted by exact Hnotin.
      rewrite map_app. cbn [map]. f_equal.
      * apply map_ext_in. intros d Hd. rewrite dayBest_snoc.
        destruct (DailyLog.date x =? d)%Z eqn:E'; [|reflexivity].
        apply Z.eqb_eq in E'. subst. contradiction.
      * rewrite dayBest_snoc, Z.eqb_refl, (dayBest_without_load _ _ _ Hnotin). reflexivity.
  - apply map_ext. intros d. rewrite dayBest_snoc.
    destruct (DailyLog.date x =? d)%Z; [|reflexivity].
    f_equal. symmetry. apply Qmax_keeps_left.
    apply Qle_trans with 0; [|apply dayBest_nonneg].
    unfold Js.ltb in Hpos. apply negb_false_iff in Hpos. apply Qle_bool_iff. exact Hpos.
Qed.

Lemma toFixed_comp (digits : nat) (x y : Q) : x == y -> Js.toFixed digits x = Js.toFixed digits y.
Proof.
  intros E. unfold Js.toFixed.
  assert (Hle : Qle_bool 0 x = Qle_bool 0 y) by (rewrite E; reflexivity).
  rewrite Hle. destruct (Qle_bool 0 y); f_equal; [|f_equal];
    apply Qfloor_comp; rewrite E; reflexivity.
Qed.

Lemma exerciseDiff_contribution (currentWindow previousWindow : list DailyLog.t)
    (key : CoreExerciseId) :
  exerciseDiff currentWindow previousWindow key
  = contribution (getExerciseBest currentWindow key) (getExerciseBest previousWindow key).
Proof.
  unfold exerciseDiff, contribution, Js.truthy. rewrite !negb_involutive, orb_comm. reflexivity.
Qed.

(** ** The best load of a day, as a maximum *)

Lemma setIsOf_getSetExerciseId (exercise : CoreExerciseId) (set : WorkoutSet.t) :
  String.eqb (getSetExerciseId set) (coreExerciseString exercise) = setIsOf exercise set.
Proof.
  unfold getSetExerciseId, setIsOf.
  destruct (String.eqb (WorkoutSet.exerciseId set) EmptyString); cbn [negb]; [|reflexivity].
  destruct (WorkoutSet.exercise set); [reflexivity|]. destruct exercise; reflexivity.
Qed.

Lemma maximum_nonneg (values : list Q) : 0 <= maximum values.
Proof.
  induction values as [|v values IH]; cbn [maximum fold_right]; [apply Qle_refl|].
  apply Qle_trans with (maximum values); [exact IH|apply Q.le_max_r].
Qed.

Lemma maximum_ge (values : list Q) (v : Q) : In v values -> v <= maximum values.
Proof.
  induction values as [|w values IH]; [contradiction|].
  intros [->|Hin]; cbn [maximum fold_right].
  - apply Q.le_max_l.
  - apply Qle_trans with (maximum values); [exact (IH Hin)|apply Q.le_max_r].
Qed.

Lemma maximum_app (l1 l2 : list Q) : maximum (l1 ++ l2) == Qmax (maximum l1) (maximum l2).
Proof.
  induction l1 as [|v l1 IH]; cbn [app].
  - change (maximum []) with 0. symmetry. apply Q.max_r. apply maximum_nonneg.
  - change (maximum (v :: l1 ++ l2)) with (Qmax v (maximum (l1 ++ l2))).
    change (maximum (v :: l1)) with (Qmax v (maximum l1)).
    rewrite IH. apply Q.max_assoc.
Qed.

Lemma maximum_ext {A : Type} (f g : A -> Q) (l : list A) :
  (forall x, In x l -> f x == g x) -> maximum (map f l) == maximum (map g l).
Proof.
  induction l as [|x l IH]; intros H; [reflexivity|]. cbn [map].
  change (maximum (f x :: map f l)) with (Qmax (f x) (maximum (map f l))).
  change (maximum (g x :: map g l)) with (Qmax (g x) (maximum (map g l))).
  rewrite (H x (or_introl eq_refl)), IH; [reflexivity|].
  intros y Hy. apply H. right. exact Hy.
Qed.

(** A running maximum from the left is the maximum of the values. *)
Lemma fold_left_maximum {A : Type} (f : A -> Q) (l : list A) (a : Q) :
  0 <= a -> fold_left (fun acc x => Qmax acc (f x)) l a == Qmax a (maximum (map f l)).
Proof.
  revert a. induction l as [|x l IH]; intros a Ha; cbn [fold_left map].
  - change (maximum []) with 0. symmetry. apply Q.max_l. exact Ha.
  - rewrite IH by (apply Qle_trans with a; [exact Ha|apply Q.le_max_l]).
    change (maximum (f x :: map f l)) with (Qmax (f x) (maximum (map f l))).
    symmetry. apply Q.max_assoc.
Qed.

Lemma logBest_maximum (exercise : CoreExerciseId) (log : DailyLog.t) :
  logBest exercise log
  == maximum (map setLoad
                (filter (setIsOf exercise) (flat_map WorkoutSession.sets (DailyLog.workout log)))).
Proof.
  unfold logBest. cbv zeta.
  rewrite (filter_ext _ (setIsOf exercise)) by (intros set; apply setIsOf_getSetExerciseId).
  rewrite (fold_left_maximum setLoad) by apply Qle_refl.
  apply Q.max_r. apply maximum_nonneg.
Qed.

Lemma dayBest_maximum (exercise : CoreExerciseId) (rows : list DailyLog.t) (day : IsoDate) :
  dayBest exercise rows day
  == maximum (map (logBest exercise) (filter (fun log => (DailyLog.date log =? day)%Z) rows)).
Proof.
  unfold dayBest.
  pose proof (fold_left_maximum (fun v : Q => v)
                (map (logBest exercise) (filter (fun log => (DailyLog.date log =? day)%Z) rows))
                0 (Qle_refl 0)) as H.
  rewrite map_id in H. rewrite <- (Q.max_r 0 (maximum _)) by apply maximum_nonneg.
  rewrite <- H. reflexivity.
Qed.

(** The best load of a day that [getExerciseBest] keeps is the maximum of
    the loads of the sets of the exercise recorded that day. *)
Lemma dayBest_specDayBest (exercise : CoreExerciseId) (rows : list DailyLog.t) (day : IsoDate) :
  dayBest exercise rows day == specDayBest exercise rows day.
Proof.
  rewrite dayBest_maximum. unfold specDayBest, setsOfDay.
  induction (filter (fun log => (DailyLog.date log =? day)%Z) rows) as [|log logs IH];
    [reflexivity|].
  cbn [map flat_map]. rewrite filter_app, map_app, maximum_app, <- IH, <- logBest_maximum.
  reflexivity.
Qed.

Lemma specDaysWithLoad_In (exercise : CoreExerciseId) (rows : list DailyLog.t) (day : IsoDate) :
  In day (specDaysWithLoad exercise rows) <-> 0 < specDayBest exercise rows day.
Proof.
  unfold specDaysWithLoad. rewrite filter_In, nodup_In, negb_true_iff.
  rewrite <- not_true_iff_false, Qle_bool_iff. split.
  - intros (_ & H). apply Qnot_le_lt. exact H.
  - intros H. split; [|apply Qlt_not_le; exact H].
    destruct (in_dec Z.eq_dec day (map DailyLog.date rows)) as [Hin|Hnotin]; [exact Hin|].
    exfalso. revert H. unfold specDayBest, setsOfDay.
    assert (E : filter (fun log => (DailyLog.date log =? day)%Z) rows = []).
    { clear - Hnotin. induction rows as [|log rows IH]; [reflexivity|]. cbn [filter].
      destruct (DailyLog.date log =? day)%Z eqn:E.
      - apply Z.eqb_eq in E. elim Hnotin. left. exact E.
      - apply IH. intros H. apply Hnotin. right. exact H. }
    rewrite E. cbn. intros H. discriminate H.
Qed.

Lemma daysWithLoad_positive (exercise : CoreExerciseId) (rows : list DailyLog.t) (day : IsoDate) :
  In day (daysWithLoad exercise rows) <-> 0 < specDayBest exercise rows day.
Proof.
  rewrite <- dayBest_specDayBest. split.
  - intros Hin. apply daysWithLoad_In in Hin. destruct Hin as (log & Hin & Hd & Hpos).
    apply ltb_true_iff in Hpos. rewrite dayBest_maximum.
    apply Qlt_le_trans with (logBest exercise log); [exact Hpos|].
    apply maximum_ge. apply in_map. apply filter_In. split; [exact Hin|].
    apply Z.eqb_eq. exact Hd.
  - intros Hpos.
    destruct (in_dec Z.eq_dec day (daysWithLoad exercise rows)) as [Hin|Hnotin]; [exact Hin|].
    rewrite (dayBest_without_load _ _ _ Hnotin) in Hpos. discriminate Hpos.
Qed.

(** The days that [getExerciseBest] groups are the days with a positive
    best load. *)
Lemma daysWithLoad_permutation (exercise : CoreExerciseId) (rows : list DailyLog.t) :
  Permutation (daysWithLoad exercise rows) (specDaysWithLoad exercise rows).
Proof.
  apply NoDup_Permutation.
  - apply distinctDates_NoDup.
  - apply NoDup_filter, NoDup_nodup.
  - intros day. rewrite daysWithLoad_positive, specDaysWithLoad_In. reflexivity.
Qed.

Lemma total_app (l1 l2 : list Q) : total (l1 ++ l2) == total l1 + total l2.
Proof.
  induction l1 as [|v l1 IH]; cbn [app total]; [ring|]. rewrite IH. ring.
Qed.

Lemma total_permutation (l1 l2 : list Q) : Permutation l1 l2 -> total l1 == total l2.
Proof.
  induction 1 as [|v l1 l2 _ IH|v w l|l1 l2 l3 _ IH1 _ IH2]; cbn [total].
  - reflexivity.
  - rewrite IH. reflexivity.
  - ring.
  - rewrite IH1. exact IH2.
Qed.

Lemma total_ext {A : Type} (f g : A -> Q) (l : list A) :
  (forall x, f x == g x) -> total (map f l) == total (map g l).
Proof.
  intros H. induction l as [|x l IH]; cbn [map total]; [reflexivity|].
  rewrite H, IH. reflexivity.
Qed.

Lemma arithmeticMean_days (f g : IsoDate -> Q) (days days' : list IsoDate) :
  (forall day, f day == g day) -> Permutation days days' ->
  arithmeticMean (map f days) == arithmeticMean (map g days').
Proof.
  intros Hext Hperm. unfold arithmeticMean.
  rewrite !length_map, (Permutation_length Hperm), (total_ext f g days Hext),
    (total_permutation (map g days) (map g days')) by (apply Permutation_map; exact Hperm).
  reflexivity.
Qed.

(** C3, as the code has it. For each of the four core exercises, the value
    of a 7-day window that the performance index compares is the mean,
    rounded to two decimals, over the days of the window on which the
    exercise has a positive load, of the best load of the day (the maximum of
    [sets * reps * weightKg] over that day's sets of the exercise), and 0
    when there is no such day; an exercise contributes
    [(current - previous) / previous] when both windows have a nonzero value
    and 0 otherwise, and the index is the mean of the four contributions
    rounded to three decimals. *)
Theorem performance_index_rounded_means :
  (forall (rows : list DailyLog.t) (exercise : CoreExerciseId),
      match specDaysWithLoad exercise rows with
      | [] => getExerciseBest rows exercise = 0
      | days =>
          roundedTo 2 (arithmeticMean (map (specDayBest exercise rows) days))
            (getExerciseBest rows exercise)
      end)
  /\ (forall (state : AppState.t) (fromDate : Date),
         let part key :=
           contribution (getExerciseBest (current7 state fromDate) key)
             (getExerciseBest (previous7 state fromDate) key) in
         roundedTo 3 ((part jalon + part remo + part laterales + part press_inclinado) / 4)
           (performanceIndex state fromDate)).
Proof.
  split.
  - intros rows exercise.
    pose proof (daysWithLoad_permutation exercise rows) as Hperm.
    assert (Hcode : getExerciseBest rows exercise
                    = average (map (dayBest exercise rows) (daysWithLoad exercise rows))).
    { unfold getExerciseBest, DateMap.values. rewrite groupByDate_spec, map_map. reflexivity. }
    rewrite Hcode.
    destruct (specDaysWithLoad exercise rows) as [|day days] eqn:Edays.
    + apply Permutation_sym, Permutation_nil in Hperm. rewrite Hperm. reflexivity.
    + apply (roundedTo_comp 2
               (arithmeticMean (map (dayBest exercise rows) (daysWithLoad exercise rows)))).
      * apply arithmeticMean_days; [intros d; apply dayBest_specDayBest|exact Hperm].
      * apply average_rounded. intros E. apply map_eq_nil in E. rewrite E in Hperm.
        apply Permutation_nil in Hperm. discriminate Hperm.
  - intros state fromDate part. unfold performanceIndex, CORE_EXERCISE_IDS.
    cbn [map]. rewrite !exerciseDiff_contribution.
    fold (current7 state fromDate) (previous7 state fromDate).
    fold (part jalon) (part remo) (part laterales) (part press_inclinado).
    apply (roundedTo_comp 3
             (Js.sum [part jalon; part remo; part laterales; part press_inclinado]
              / Js.len [part jalon; part remo; part laterales; part press_inclinado])).
    + unfold Js.sum, Js.len. cbn [fold_left List.length].
      change (inject_Z (Z.of_nat 4)) with 4. field.
    + apply toFixed_rounded.
Qed.


(** C3, as the specification words it, fails: with a best load of 300 on one
    day of the window and of 600 on another, the maximum over the days is
    600, and the value that the index compares is their mean, 450. *)
Lemma window_best_is_a_mean :
  specWindowBest jalon Scenario.twoTrainingDays == 600
  /\ getExerciseBest Scenario.twoTrainingDays jalon == 450
  /\ ~ getExerciseBest Scenario.twoTrainingDays jalon
       == specWindowBest jalon Scenario.twoTrainingDays.
Proof.
  split; [vm_compute; reflexivity|].
  split; [vm_compute; reflexivity|].
  vm_compute. discriminate.
Qed.

(** ** Normalization of weekly measurements *)

Section StorageProperties.

Variable uid : nat -> string.

Lemma seenHas_In (w : IsoDate) (seen : list IsoDate) : seenHas w seen = true <-> In w seen.
Proof. apply existsb_eqb_In. Qed.

Lemma filterUnseen_first (rows : list WeeklyMeasurement.t) :
  forall (seen : list IsoDate) (r : WeeklyMeasurement.t),
    In r (filterUnseen seen rows) ->
    exists l1 l2,
      rows = l1 ++ r :: l2
      /\ ~ In (WeeklyMeasurement.weekStart r) seen
      /\ ~ In (WeeklyMeasurement.weekStart r) (map WeeklyMeasurement.weekStart l1).
Proof.
  induction rows as [|x t IH]; intros seen r Hin; [contradiction|].
  cbn [filterUnseen] in Hin.
  destruct (seenHas (WeeklyMeasurement.weekStart x) seen) eqn:E.
  - apply seenHas_In in E.
    destruct (IH seen r Hin) as (l1 & l2 & -> & Hseen & Hl1).
    exists (x :: l1), l2. split; [reflexivity|]. split; [exact Hseen|].
    cbn [map In]. intros [H|H]; [|exact (Hl1 H)]. apply Hseen. rewrite <- H. exact E.
  - assert (Hx : ~ In (WeeklyMeasurement.weekStart x) seen).
    { intros H. apply seenHas_In in H. congruence. }
    destruct Hin as [<-|Hin].
    + exists [], t. split; [reflexivity|]. split; [exact Hx|]. intros [].
    + destruct (IH _ r Hin) as (l1 & l2 & -> & Hseen & Hl1).
      exists (x :: l1), l2. split; [reflexivity|]. cbn [In] in Hseen. split; [tauto|].
      cbn [map In]. intros [H|H]; [|exact (Hl1 H)]. apply Hseen. left. exact H.
Qed.

Lemma filterUnseen_NoDup (rows : list WeeklyMeasurement.t) :
  forall seen : list IsoDate,
    NoDup (map WeeklyMeasurement.weekStart (filterUnseen seen rows)).
Proof.
  induction rows as [|x t IH]; intros seen; [constructor|].
  cbn [filterUnseen].
  destruct (seenHas (WeeklyMeasurement.weekStart x) seen); [apply IH|].
  cbn [map]. constructor; [|apply IH].
  intros H. apply in_map_iff in H. destruct H as (r & E & Hin).
  destruct (filterUnseen_first t _ r Hin) as (_ & _ & _ & Hseen & _).
  apply Hseen. left. symmetry. exact E.
Qed.

Lemma filterUnseen_complete (rows : list WeeklyMeasurement.t) :
  forall (seen : list IsoDate) (x : WeeklyMeasurement.t),
    In x rows -> ~ In (WeeklyMeasurement.weekStart x) seen ->
    exists r, In r (filterUnseen seen rows)
              /\ WeeklyMeasurement.weekStart r = WeeklyMeasurement.weekStart x.
Proof.
  induction rows as [|y t IH]; intros seen x Hin Hseen; [contradiction|].
  cbn [filterUnseen].
  destruct (seenHas (WeeklyMeasurement.weekStart y) seen) eqn:E.
  - apply seenHas_In in E. destruct Hin as [->|Hin]; [contradiction|].
    exact (IH seen x Hin Hseen).
  - destruct Hin as [->|Hin]; [exists x; split; [left|]; reflexivity|].
    destruct (Z.eq_dec (WeeklyMeasurement.weekStart y) (WeeklyMeasurement.weekStart x)) as [Eq|Ne].
    + exists y. split; [left; reflexivity|exact Eq].
    + destruct (IH (WeeklyMeasurement.weekStart y :: seen) x Hin) as (r & Hr & Er).
      * cbn [In]. tauto.
      * exists r. split; [right; exact Hr|exact Er].
Qed.

Lemma normalizeWeeklyRow_weekStart (i : nat) (raw : RawWeekly.t) (r : WeeklyMeasurement.t) :
  normalizeWeeklyRow uid i raw = Some r ->
  RawWeekly.weekStart raw = Some (WeeklyMeasurement.weekStart r).
Proof.
  unfold normalizeWeeklyRow. destruct (RawWeekly.weekStart raw); [|discriminate].
  intros H. injection H as <-. reflexivity.
Qed.

Lemma normalizeWeeklyRows_split (rawWeekly : list RawWeekly.t) :
  forall (i : nat) (l1 : list WeeklyMeasurement.t) (r : WeeklyMeasurement.t)
         (l2 : list WeeklyMeasurement.t),
    normalizeWeeklyRows uid i rawWeekly = l1 ++ r :: l2 ->
    exists raw1 raw raw2,
      rawWeekly = raw1 ++ raw :: raw2
      /\ normalizeWeeklyRow uid (i + List.length raw1) raw = Some r
      /\ normalizeWeeklyRows uid i raw1 = l1.
Proof.
  induction rawWeekly as [|x t IH]; intros i l1 r l2 H.
  - destruct l1; discriminate.
  - cbn [normalizeWeeklyRows] in H.
    destruct (normalizeWeeklyRow uid i x) as [y|] eqn:E.
    + destruct l1 as [|y' l1]; cbn [app] in H.
      * injection H as -> _. exists [], x, t.
        cbn [List.length app normalizeWeeklyRows]. rewrite Nat.add_0_r. auto.
      * injection H as -> H. destruct (IH _ _ _ _ H) as (raw1 & raw & raw2 & -> & Hn & Hl).
        exists (x :: raw1), raw, raw2. cbn [List.length app normalizeWeeklyRows].
        rewrite E, Hl, Nat.add_succ_r. auto.
    + destruct (IH _ _ _ _ H) as (raw1 & raw & raw2 & -> & Hn & Hl).
      exists (x :: raw1), raw, raw2. cbn [List.length app normalizeWeeklyRows].
      rewrite E, Hl, Nat.add_succ_r. auto.
Qed.

Lemma normalizeWeeklyRows_keeps (rawWeekly : list RawWeekly.t) :
  forall (i : nat) (raw : RawWeekly.t) (w : IsoDate),
    In raw rawWeekly -> RawWeekly.weekStart raw = Some w ->
    exists r, In r (normalizeWeeklyRows uid i rawWeekly) /\ WeeklyMeasurement.weekStart r = w.
Proof.
  induction rawWeekly as [|x t IH]; intros i raw w Hin Hw; [contradiction|].
  cbn [normalizeWeeklyRows]. destruct Hin as [->|Hin].
  - unfold normalizeWeeklyRow at 1. rewrite Hw. eexists. split; [left; reflexivity|reflexivity].
  - destruct (IH (S i) raw w Hin Hw) as (r & Hr & Er).
    exists r. split; [|exact Er].
    destruct (normalizeWeeklyRow uid i x); [right|]; exact Hr.
Qed.

Lemma sort_newest_first_strict (rows : list WeeklyMeasurement.t) :
  NoDup (map WeeklyMeasurement.weekStart rows) ->
  StronglySorted
    (fun a b => (WeeklyMeasurement.weekStart b < WeeklyMeasurement.weekStart a)%Z)
    (Js.sort weeklyNewestFirst rows).
Proof.
  apply sort_strict; unfold weeklyNewestFirst.
  - intros a b H. apply Z.leb_gt in H. apply Z.leb_le. lia.
  - intros a b c H1 H2. apply Z.leb_le in H1, H2. apply Z.leb_le. lia.
  - intros a b H Hne. apply Z.leb_le in H. lia.
Qed.

(** C8, as the code has it. The normalized list has at most one record for
    each [weekStart] and is sorted descending by [weekStart]; when the input
    holds several records of one week, the one that comes first in the input
    is retained; and every week of the input is represented. *)
Theorem normalizeWeeklyMeasurements_first_wins (rawWeekly : list RawWeekly.t) :
  NoDup (map WeeklyMeasurement.weekStart (normalizeWeeklyMeasurements uid rawWeekly))
  /\ StronglySorted
       (fun a b => (WeeklyMeasurement.weekStart b < WeeklyMeasurement.weekStart a)%Z)
       (normalizeWeeklyMeasurements uid rawWeekly)
  /\ (forall r : WeeklyMeasurement.t,
         In r (normalizeWeeklyMeasurements uid rawWeekly) ->
         exists raw1 raw raw2,
           rawWeekly = raw1 ++ raw :: raw2
           /\ normalizeWeeklyRow uid (List.length raw1) raw = Some r
           /\ forall earlier, In earlier raw1 ->
                RawWeekly.weekStart earlier <> Some (WeeklyMeasurement.weekStart r))
  /\ (forall (raw : RawWeekly.t) (w : IsoDate),
         In raw rawWeekly -> RawWeekly.weekStart raw = Some w ->
         exists r, In r (normalizeWeeklyMeasurements uid rawWeekly)
                   /\ WeeklyMeasurement.weekStart r = w).
Proof.
  unfold normalizeWeeklyMeasurements.
  pose proof (filterUnseen_NoDup (normalizeWeeklyRows uid 0 rawWeekly) []) as Hnd.
  split; [|split; [|split]].
  - apply (Permutation_NoDup (l := map WeeklyMeasurement.weekStart
                                     (filterUnseen [] (normalizeWeeklyRows uid 0 rawWeekly))));
      [|exact Hnd].
    apply Permutation_map, Permutation_sym, sort_perm.
  - apply sort_newest_first_strict. exact Hnd.
  - intros r Hin. apply sort_In in Hin.
    destruct (filterUnseen_first _ _ _ Hin) as (l1 & l2 & Hsplit & _ & Hfirst).
    destruct (normalizeWeeklyRows_split _ _ _ _ _ Hsplit) as (raw1 & raw & raw2 & -> & Hn & Hl1).
    exists raw1, raw, raw2. split; [reflexivity|]. split; [exact Hn|].
    intros earlier He Hw. apply Hfirst. rewrite <- Hl1.
    destruct (normalizeWeeklyRows_keeps raw1 0 earlier _ He Hw) as (r' & Hr' & Er').
    rewrite <- Er'. apply in_map. exact Hr'.
  - intros raw w Hin Hw.
    destruct (normalizeWeeklyRows_keeps rawWeekly 0 raw w Hin Hw) as (x & Hx & Ex).
    destruct (filterUnseen_complete _ [] x Hx) as (r & Hr & Er); [intros []|].
    exists r. split; [apply sort_In; exact Hr|congruence].
Qed.

End StorageProperties.

(** Of two stored rows of one week, the retained record is the
    normalization of a row that no row of that week precedes. *)
Lemma normalizeWeeklyMeasurements_first_wins_witness :
  exists r,
    In r (normalizeWeeklyMeasurements Scenario.noUid Scenario.sameWeekTwice)
    /\ WeeklyMeasurement.weekStart r = ymd 2024 3 18.
Proof.
  refine (proj2 (proj2 (proj2
            (normalizeWeeklyMeasurements_first_wins Scenario.noUid Scenario.sameWeekTwice)))
            (Scenario.rawOf "second" (ymd 2024 3 18) 90) (ymd 2024 3 18) _ _).
  - right. left. reflexivity.
  - reflexivity.
Defined.

(** C8, as the specification words it, fails: of two stored rows of one
    week, a waist of 80 written first and a waist of 90 written after it, the
    normalized list retains the first, not the later one. *)
Lemma later_weekly_row_is_dropped :
  map WeeklyMeasurement.waistCm
    (normalizeWeeklyMeasurements Scenario.noUid Scenario.sameWeekTwice) = [Some 80]
  /\ ~ exists r, In r (normalizeWeeklyMeasurements Scenario.noUid Scenario.sameWeekTwice)
                 /\ WeeklyMeasurement.id r = "second"%string.
Proof.
  split; [reflexivity|].
  intros (r & Hin & Hid). vm_compute in Hin. destruct Hin as [<-|[]]. discriminate Hid.
Qed.

(** ** CSV serializer *)

Section CsvProperties.

Local Open Scope nat_scope.

Variable numberString : Q -> string.
Variable dateString : IsoDate -> string.
Variable hostOffset : Z.

Lemma csvMeals_length (log : DailyLog.t) :
  List.length (csvMeals log) = Nat.max (mealCount log) 1.
Proof.
  unfold csvMeals, mealCount. destruct (DailyLog.meals log) as [|m ms]; [reflexivity|].
  rewrite length_map. cbn [List.length]. lia.
Qed.

Lemma rowsInDay_spec (log : DailyLog.t) : rowsInDay log = specRowCount log.
Proof.
  unfold rowsInDay, specRowCount, csvSets, workoutSetCount. rewrite csvMeals_length. lia.
Qed.

Lemma csvRowsOfLog_length (weeklyRows : list WeeklyMeasurement.t) (log : DailyLog.t) :
  List.length (csvRowsOfLog numberString dateString hostOffset weeklyRows log)
  = specRowCount log.
Proof.
  unfold csvRowsOfLog. rewrite length_map, length_seq. apply rowsInDay_spec.
Qed.

Lemma csvRowsOfLog_nth (weeklyRows : list WeeklyMeasurement.t) (log : DailyLog.t) (i : nat) :
  i < specRowCount log ->
  nth i (csvRowsOfLog numberString dateString hostOffset weeklyRows log) []
  = csvRow numberString dateString
      (getWeekForDate hostOffset weeklyRows (DailyLog.date log)) log i.
Proof.
  intros Hi. unfold csvRowsOfLog.
  rewrite <- rowsInDay_spec in Hi.
  rewrite (nth_indep _ []
             (csvRow numberString dateString
                (getWeekForDate hostOffset weeklyRows (DailyLog.date log)) log 0))
    by (rewrite length_map, length_seq; exact Hi).
  rewrite map_nth, seq_nth by exact Hi. reflexivity.
Qed.

Lemma csvRow_workoutColumns (weekly : option WeeklyMeasurement.t) (log : DailyLog.t) (i : nat) :
  workoutColumns (csvRow numberString dateString weekly log i)
  = map escapeValue
      (setCells numberString
         (nth_error (flat_map WorkoutSession.sets (DailyLog.workout log)) i)).
Proof.
  unfold workoutColumns, csvRow, csvSets. rewrite map_app, map_app.
  destruct (nth_error (csvMeals log) i) as [m|]; reflexivity.
Qed.

Lemma csvRow_mealColumns (weekly : option WeeklyMeasurement.t) (log : DailyLog.t) (i : nat) :
  mealColumns (csvRow numberString dateString weekly log i)
  = map escapeValue (mealCells numberString (nth_error (csvMeals log) i)).
Proof.
  unfold mealColumns, csvRow. rewrite map_app, map_app.
  destruct (nth_error (csvMeals log) i) as [m|],
    (nth_error (csvSets log) i) as [s|]; reflexivity.
Qed.

Lemma flat_map_length_sum {A B : Type} (f : A -> list B) (l : list A) :
  List.length (flat_map f l) = list_sum (map (fun a => List.length (f a)) l).
Proof.
  induction l as [|a l IH]; [reflexivity|].
  cbn [flat_map map list_sum]. rewrite length_app, IH. reflexivity.
Qed.

(** C10, as the code has it. The serializer emits the header and, for every
    daily log inside the export range, exactly
    [max(mealCount, workoutSetCount, 1)] data rows.  Row [i] of a log carries
    workout set [i] in its workout columns, which are blank once the sets are
    exhausted, and, when the log has a meal item, meal item [i] in its meal
    columns, which are blank once the meal items are exhausted.  A log with 2
    meal items and 1 workout set gives exactly 2 rows, the workout columns of
    the second being blank. *)
Theorem toCsv_rows :
  (forall (rows : list DailyLog.t) (start' end' : IsoDate)
          (weeklyRows : list WeeklyMeasurement.t),
      List.length (toCsvLines numberString dateString hostOffset rows start' end' weeklyRows)
      = 1 + list_sum (map specRowCount
                        (filter (fun row => isInRange (DailyLog.date row) start' end') rows)))
  /\ (forall (weeklyRows : list WeeklyMeasurement.t) (log : DailyLog.t),
         let emitted := csvRowsOfLog numberString dateString hostOffset weeklyRows log in
         List.length emitted = specRowCount log
         /\ (forall i, i < specRowCount log ->
               workoutColumns (nth i emitted [])
               = match nth_error (flat_map WorkoutSession.sets (DailyLog.workout log)) i with
                 | Some set => map escapeValue (setCells numberString (Some set))
                 | None => repeat EmptyString 5
                 end)
         /\ (forall i, i < specRowCount log -> DailyLog.meals log <> [] ->
               mealColumns (nth i emitted [])
               = match nth_error (DailyLog.meals log) i with
                 | Some item => map escapeValue (mealCells numberString (Some (Logged item)))
                 | None => repeat EmptyString 6
                 end)
         /\ (mealCount log = 2 -> workoutSetCount log = 1 ->
             List.length emitted = 2
             /\ workoutColumns (nth 1 emitted []) = repeat EmptyString 5)).
Proof.
  split.
  - intros rows start' end' weeklyRows. unfold toCsvLines. cbn [List.length].
    rewrite flat_map_length_sum. cbn [Nat.add]. do 2 f_equal. apply map_ext. intros log.
    rewrite length_map. apply csvRowsOfLog_length.
  - intros weeklyRows log emitted. subst emitted.
    assert (Hwork : forall i, i < specRowCount log ->
              workoutColumns
                (nth i (csvRowsOfLog numberString dateString hostOffset weeklyRows log) [])
              = match nth_error (flat_map WorkoutSession.sets (DailyLog.workout log)) i with
                | Some set => map escapeValue (setCells numberString (Some set))
                | None => repeat EmptyString 5
                end).
    { intros i Hi. rewrite (csvRowsOfLog_nth weeklyRows log i Hi), csvRow_workoutColumns.
      destruct (nth_error _ i); reflexivity. }
    split; [apply csvRowsOfLog_length|]. split; [exact Hwork|]. split.
    + intros i Hi Hmeals.
      rewrite (csvRowsOfLog_nth weeklyRows log i Hi), csvRow_mealColumns.
      unfold csvMeals. destruct (DailyLog.meals log) as [|m ms] eqn:E; [congruence|].
      rewrite nth_error_map. destruct (nth_error (m :: ms) i); reflexivity.
    + intros Hm Hs. rewrite csvRowsOfLog_length.
      assert (Hcount : specRowCount log = 2) by (unfold specRowCount; lia).
      split; [exact Hcount|].
      rewrite Hwork by lia.
      unfold workoutSetCount in Hs.
      destruct (flat_map WorkoutSession.sets (DailyLog.workout log)) as [|s [|s' l]];
        try discriminate Hs. reflexivity.
Qed.

End CsvProperties.

(** A day with two meal items and one workout set gives two rows, and the
    workout columns of the second are blank. *)
Lemma toCsv_rows_witness :
  List.length (csvRowsOfLog Scenario.showNumber Scenario.showDate 0 [] Scenario.twoMealsOneSet)
  = 2%nat
  /\ workoutColumns
       (nth 1 (csvRowsOfLog Scenario.showNumber Scenario.showDate 0 [] Scenario.twoMealsOneSet) [])
     = repeat EmptyString 5.
Proof.
  refine (proj2 (proj2 (proj2
            (proj2 (toCsv_rows Scenario.showNumber Scenario.showDate 0%Z) []
               Scenario.twoMealsOneSet))) _ _); reflexivity.
Defined.

(** C10, as the specification words it, fails: a log with one workout set
    and no meal item has fewer meal items than sets, and the meal columns of
    its row are not blank, for the row carries the stand-in meal. *)
Lemma standin_meal_is_not_blank :
  (mealCount Scenario.oneSetNoMeal < workoutSetCount Scenario.oneSetNoMeal)%nat
  /\ mealColumns
       (nth 0 (csvRowsOfLog Scenario.showNumber Scenario.showDate 0 [] Scenario.oneSetNoMeal) [])
     <> repeat EmptyString 6.
Proof.
  split; [vm_compute; lia|]. vm_compute. discriminate.
Qed.

(** * Further properties of the code *)

(** ** Totals *)

(** X1. The totals of a log are the sums of the four macros over its meal
    items, whatever their order and sign; a log without meal items has
    all-zero totals, and the totals of a log are those of any split of its
    meal items added up. *)
Theorem getDailyTotals_is_sum :
  (forall log : DailyLog.t,
      DailyTotal.p (getDailyTotals log) == macroTotal MealItem.p (DailyLog.meals log)
      /\ DailyTotal.f (getDailyTotals log) == macroTotal MealItem.f (DailyLog.meals log)
      /\ DailyTotal.c (getDailyTotals log) == macroTotal MealItem.c (DailyLog.meals log)
      /\ DailyTotal.kcal (getDailyTotals log) == macroTotal MealItem.kcal (DailyLog.meals log))
  /\ (forall (macro : MealItem.t -> Q) (l1 l2 : list MealItem.t),
         macroTotal macro (l1 ++ l2) == macroTotal macro l1 + macroTotal macro l2
         /\ macroTotal macro (l2 ++ l1) == macroTotal macro (l1 ++ l2)).
Proof.
  split; [exact getDailyTotals_macroTotal|].
  intros macro l1 l2. split; [apply macroTotal_app|].
  rewrite !macroTotal_app. ring.
Qed.

(** ** Windows *)

Lemma filterRange_In (logs : list DailyLog.t) (days : Z) (from : Date) (log : DailyLog.t) :
  In log (filterRange logs (getRange days from))
  <-> In log logs /\ inWindow days from (DailyLog.date log).
Proof.
  unfold filterRange. rewrite filter_In, isInRange_getRange. tauto.
Qed.

(** X2. On a host that stays at a fixed offset from UTC, the window of
    [days] days ending on the reference date and the window that the engine
    calls the previous one (the same length, ending [days] days earlier)
    never share a log, and together they hold exactly the logs of the
    [2 * days] days ending on the reference date: the 7-day and 14-day
    comparisons neither overlap nor leave a gap. *)
Theorem previous_window_is_adjacent (offset : Z) (logs : list DailyLog.t) (days : Z)
    (from : Date) (log : DailyLog.t) :
  ~ (In log (filterRange logs (Zoned.getRange (Zoned.fixedOffset offset) days from))
     /\ In log (filterRange logs
                  (Zoned.getRange (Zoned.fixedOffset offset) days
                     (Zoned.addDays (Zoned.fixedOffset offset) from (- days)))))
  /\ (In log (filterRange logs (Zoned.getRange (Zoned.fixedOffset offset) days from))
      \/ In log (filterRange logs
                   (Zoned.getRange (Zoned.fixedOffset offset) days
                      (Zoned.addDays (Zoned.fixedOffset offset) from (- days))))
      <-> In log logs /\ inWindow (2 * days) from (DailyLog.date log)).
Proof.
  rewrite addDays_fixedOffset, !getRange_fixedOffset.
  rewrite !filterRange_In. unfold inWindow. rewrite isoOfDate_addDays. split.
  - intros ((_ & H1) & (_ & H2)). lia.
  - split.
    + intros [(Hin & H)|(Hin & H)]; (split; [exact Hin|lia]).
    + intros (Hin & H).
      destruct (Z_le_gt_dec (isoOfDate from - (days - 1)) (DailyLog.date log)).
      * left. split; [exact Hin|lia].
      * right. split; [exact Hin|lia].
Qed.


(** ** Bounds of the adherence *)

Lemma nutritionPercent_integer (log : DailyLog.t) :
  exists k : Z,
    Adherence.nutritionPercent (computeDayAdherence log) = inject_Z k /\ (0 <= k <= 100)%Z.
Proof.
  unfold computeDayAdherence, Js.Math_round. cbn [Adherence.nutritionPercent].
  apply (clamp_integer _ 0 100). lia.
Qed.

(** X3. The adherence of a day is a whole number between 0 and 100, whatever
    the log holds (negative macros, several items in a slot, totals far above
    the targets). *)
Theorem nutritionPercent_bounds (log : DailyLog.t) :
  exists k : Z,
    Adherence.nutritionPercent (computeDayAdherence log) = inject_Z k /\ (0 <= k <= 100)%Z.
Proof. apply nutritionPercent_integer. Qed.

Lemma sum_fold_bounds (values : list Q) :
  (forall v, In v values -> 0 <= v <= 100) ->
  forall acc : Q,
    acc <= fold_left (fun a v => a + v) values acc
    /\ fold_left (fun a v => a + v) values acc <= acc + 100 * Js.len values.
Proof.
  induction values as [|x values IH]; intros Hall acc.
  - cbn [fold_left]. unfold Js.len. cbn. split; [apply Qle_refl|].
    rewrite Qmult_0_r, Qplus_0_r. apply Qle_refl.
  - cbn [fold_left].
    destruct (Hall x (or_introl eq_refl)) as (Hx0 & Hx1).
    destruct (IH (fun v Hv => Hall v (or_intror Hv)) (acc + x)) as (Hlo & Hhi).
    assert (Hlen : Js.len (x :: values) == 1 + Js.len values).
    { unfold Js.len. cbn [List.length]. rewrite Nat2Z.inj_succ, <- Z.add_1_l, inject_Z_plus.
      reflexivity. }
    split.
    + apply Qle_trans with (acc + x); [|exact Hlo].
      rewrite <- (Qplus_0_r acc) at 1. apply Qplus_le_r. exact Hx0.
    + apply Qle_trans with (acc + x + 100 * Js.len values); [exact Hhi|].
      rewrite Hlen.
      setoid_replace (acc + 100 * (1 + Js.len values))
        with (acc + 100 + 100 * Js.len values) by ring.
      apply Qplus_le_l. apply Qplus_le_r. exact Hx1.
Qed.

Lemma meanNutritionPercent_bounds (rows : list DailyLog.t) :
  rows <> [] -> 0 <= meanNutritionPercent rows <= 100.
Proof.
  intros Hne. unfold meanNutritionPercent, Js.sum.
  set (values := map (fun log => Adherence.nutritionPercent (computeDayAdherence log)) rows).
  assert (Hall : forall v, In v values -> 0 <= v <= 100).
  { intros v Hv. apply in_map_iff in Hv. destruct Hv as (log & <- & _).
    destruct (nutritionPercent_integer log) as (k & -> & Hk).
    change 0 with (inject_Z 0). change 100 with (inject_Z 100).
    rewrite <- !Zle_Qle. exact Hk. }
  destruct (sum_fold_bounds values Hall 0) as (Hlo & Hhi).
  assert (Hlen : Js.len values = Js.len rows).
  { unfold Js.len, values. rewrite length_map. reflexivity. }
  rewrite Hlen, Qplus_0_l in Hhi.
  assert (Hpos : 0 < Js.len rows).
  { unfold Js.len. destruct rows as [|r rows]; [congruence|].
    change 0 with (inject_Z 0). rewrite <- Zlt_Qlt. cbn [List.length]. lia. }
  split.
  - apply Qle_shift_div_l; [exact Hpos|]. rewrite Qmult_0_l. exact Hlo.
  - apply Qle_shift_div_r; [exact Hpos|]. exact Hhi.
Qed.

Lemma Math_round_percent (x : Q) :
  0 <= x <= 100 -> exists k : Z, Js.Math_round x = inject_Z k /\ (0 <= k <= 100)%Z.
Proof.
  intros (Hlo & Hhi). unfold Js.Math_round. exists (Qfloor (x + (1 # 2))).
  split; [reflexivity|]. split.
  - change 0%Z with (Qfloor 0). apply Qfloor_resp_le.
    apply Qle_trans with x; [exact Hlo|].
    rewrite <- (Qplus_0_r x) at 1. apply Qplus_le_r. discriminate.
  - change 100%Z with (Qfloor (100 + (1 # 2))). apply Qfloor_resp_le.
    apply Qplus_le_l. exact Hhi.
Qed.

(** X4. The 7-day and the 14-day adherence of the report are whole numbers
    between 0 and 100, for every state and reference date. *)
Theorem window_adherence_bounds (state : AppState.t) (fromDate : Date) :
  (exists k : Z, adherence7 state fromDate = inject_Z k /\ (0 <= k <= 100)%Z)
  /\ (exists k : Z, adherence14 state fromDate = inject_Z k /\ (0 <= k <= 100)%Z).
Proof.
  split.
  - rewrite adherence7_eq.
    destruct (filterRange (AppState.logs state) (getRange 7 fromDate)) as [|r rows] eqn:E.
    + exists 0%Z. split; [reflexivity|lia].
    + apply Math_round_percent, meanNutritionPercent_bounds. discriminate.
  - rewrite adherence14_eq.
    destruct (this14 state fromDate) as [|r rows] eqn:E.
    + exists 0%Z. split; [reflexivity|lia].
    + apply Math_round_percent, meanNutritionPercent_bounds. discriminate.
Qed.

(** ** Days on target *)

Lemma macroTotal_by_slot (macro : MealItem.t -> Q) (meals : list MealItem.t) :
  macroTotal macro meals
  == macroTotal macro (filter (fun item => MealName_eqb (MealItem.meal item) desayuno) meals)
     + macroTotal macro (filter (fun item => MealName_eqb (MealItem.meal item) comida) meals)
     + macroTotal macro (filter (fun item => MealName_eqb (MealItem.meal item) cena) meals).
Proof.
  induction meals as [|item meals IH].
  - cbn [filter]. change (macroTotal macro []) with 0. ring.
  - cbn [filter].
    change (macroTotal macro (item :: meals)) with (macro item + macroTotal macro meals).
    rewrite IH.
    destruct (MealItem.meal item); cbn [MealName_eqb];
      match goal with
      | |- context [macroTotal macro (item :: ?l)] =>
          change (macroTotal macro (item :: l)) with (macro item + macroTotal macro l)
      end; ring.
Qed.

(** The targets of the three meals add up to the targets of the day. *)
Lemma mealTargetFor_sum (dayType : TrainingDayType) :
  MealTarget.p (mealTargetFor dayType desayuno) + MealTarget.p (mealTargetFor dayType comida)
  + MealTarget.p (mealTargetFor dayType cena) == DayTarget.p (DAY_TARGETS dayType)
  /\ MealTarget.f (mealTargetFor dayType desayuno) + MealTarget.f (mealTargetFor dayType comida)
     + MealTarget.f (mealTargetFor dayType cena) == DayTarget.f (DAY_TARGETS dayType)
  /\ MealTarget.c (mealTargetFor dayType desayuno) + MealTarget.c (mealTargetFor dayType comida)
     + MealTarget.c (mealTargetFor dayType cena) == DayTarget.c (DAY_TARGETS dayType)
  /\ MealTarget.kcal (mealTargetFor dayType desayuno)
     + MealTarget.kcal (mealTargetFor dayType comida)
     + MealTarget.kcal (mealTargetFor dayType cena) == DayTarget.kcal (DAY_TARGETS dayType).
Proof. destruct dayType; repeat split. Qed.

Lemma closeness_on_target (actual target : Q) :
  0 < target -> actual == target -> closeness actual target == 1.
Proof.
  intros Hpos E. unfold closeness.
  destruct (Qle_bool target 0) eqn:Hle.
  - apply Qle_bool_iff in Hle. exfalso. exact (Qlt_not_le _ _ Hpos Hle).
  - unfold clamp.
    assert (H1 : 1 - Qabs (actual - target) / target == 1).
    { rewrite E. setoid_replace (target - target) with 0 by ring.
      change (Qabs 0) with 0. unfold Qdiv. rewrite Qmult_0_l. ring. }
    rewrite H1. rewrite (Q.min_l 1 1) by apply Qle_refl.
    apply Q.max_r. discriminate.
Qed.

Lemma slot_filled_of_protein (log : DailyLog.t) (slot : MealName) :
  ~ macroTotal MealItem.p (slotItems log slot) == 0 -> slotFilled log slot = true.
Proof.
  unfold slotItems, slotFilled. intros H.
  induction (DailyLog.meals log) as [|item meals IH]; cbn [filter existsb] in *.
  - elim H. reflexivity.
  - destruct (MealName_eqb (MealItem.meal item) slot); [reflexivity|]. exact (IH H).
Qed.

Lemma DAY_TARGETS_positive (dayType : TrainingDayType) :
  0 < DayTarget.p (DAY_TARGETS dayType) /\ 0 < DayTarget.f (DAY_TARGETS dayType)
  /\ 0 < DayTarget.c (DAY_TARGETS dayType) /\ 0 < DayTarget.kcal (DAY_TARGETS dayType).
Proof. destruct dayType; repeat split. Qed.

(** X5. The per-meal targets of [mealTargetFor] add up to the day targets of
    [DAY_TARGETS] for both day types; hence a log whose items meet, slot by
    slot, the target of each of the three meals has an adherence of 100 and
    no flag. *)
Theorem meals_on_target_give_100 (log : DailyLog.t) :
  (forall slot : MealName, slotOnTarget log slot) ->
  computeDayAdherence log
  = {| Adherence.nutritionPercent := 100; Adherence.kpiFlags := [] |}.
Proof.
  intros Hon.
  pose proof (Hon desayuno) as (Hdp & Hdf & Hdc & Hdk).
  pose proof (Hon comida) as (Hcp & Hcf & Hcc & Hck).
  pose proof (Hon cena) as (Hnp & Hnf & Hnc & Hnk).
  destruct (mealTargetFor_sum (DailyLog.dayType log)) as (Sp & Sf & Sc & Sk).
  destruct (DAY_TARGETS_positive (DailyLog.dayType log)) as (Pp & Pf & Pc & Pk).
  destruct (getDailyTotals_macroTotal log) as (Tp & Tf & Tc & Tk).
  unfold slotItems in *.
  rewrite (macroTotal_by_slot MealItem.p) in Tp. rewrite Hdp, Hcp, Hnp, Sp in Tp.
  rewrite (macroTotal_by_slot MealItem.f) in Tf. rewrite Hdf, Hcf, Hnf, Sf in Tf.
  rewrite (macroTotal_by_slot MealItem.c) in Tc. rewrite Hdc, Hcc, Hnc, Sc in Tc.
  rewrite (macroTotal_by_slot MealItem.kcal) in Tk. rewrite Hdk, Hck, Hnk, Sk in Tk.
  assert (Hfilled : forall slot, slotFilled log slot = true).
  { intros slot. apply slot_filled_of_protein. unfold slotItems.
    destruct (Hon slot) as (Hp & _). unfold slotItems in Hp. rewrite Hp.
    destruct (DailyLog.dayType log), slot; discriminate. }
  unfold computeDayAdherence, Js.some.
  fold (slotFilled log desayuno) (slotFilled log comida) (slotFilled log cena).
  rewrite !Hfilled. cbn [negb filter]. f_equal.
  unfold Js.Math_round.
  rewrite (Qfloor_comp _ (100 + (1 # 2))); [reflexivity|].
  rewrite (closeness_on_target _ _ Pp Tp), (closeness_on_target _ _ Pf Tf),
    (closeness_on_target _ _ Pc Tc), (closeness_on_target _ _ Pk Tk).
  reflexivity.
Qed.

Lemma meals_on_target_give_100_witness :
  computeDayAdherence (Scenario.logOf (ymd 2024 3 20) 0 Scenario.perMealTargetMeals [])
  = {| Adherence.nutritionPercent := 100; Adherence.kpiFlags := [] |}.
Proof.
  apply meals_on_target_give_100. intros [ | | ]; repeat split.
Defined.

(** ** Rounding of averages *)

(** X6. The average of an empty list is 0; the average of any other list is
    the arithmetic mean of its values (their sum divided by their number)
    rounded to two decimals: a whole number of hundredths at most 0.005 away
    from the mean. *)
Theorem average_is_rounded_mean (values : list Q) :
  average [] = 0
  /\ (values <> [] ->
      (exists k : Z, average values == inject_Z k * (1 # 100))
      /\ Qabs (average values
               - total values / inject_Z (Z.of_nat (List.length values))) <= 1 # 200).
Proof.
  split; [reflexivity|]. intros Hne. exact (average_rounded values Hne).
Qed.

(** 72.4, 73 and 73 have the mean 72.8, and the average 72.8. *)
Lemma average_is_rounded_mean_witness :
  Qabs (average [72.4; 73; 73] - (72.4 + 73 + 73) / 3) <= 1 # 200.
Proof.
  assert (E : (72.4 + 73 + 73) / 3
              == total [72.4; 73; 73] / inject_Z (Z.of_nat (List.length [72.4; 73; 73])))
    by reflexivity.
  rewrite E.
  refine (proj2 (proj2 (average_is_rounded_mean [72.4; 73; 73]) _)). discriminate.
Defined.


(** ** The latest value *)

Lemma find_first {A : Type} (p : A -> bool) (l : list A) (x : A) :
  find p l = Some x ->
  exists l1 l2, l = l1 ++ x :: l2 /\ p x = true /\ forall y, In y l1 -> p y = false.
Proof.
  induction l as [|a l IH]; [discriminate|].
  cbn [find]. destruct (p a) eqn:E.
  - intros H. injection H as <-. exists [], l. repeat split; [exact E|intros y []].
  - intros H. destruct (IH H) as (l1 & l2 & -> & Hp & Hl1).
    exists (a :: l1), l2. repeat split; [exact Hp|].
    intros y [<-|Hy]; [exact E|exact (Hl1 y Hy)].
Qed.

(** In a sorted list, the first element that passes a test comes before
    every other one that passes. *)
Lemma find_sorted {A : Type} (R : A -> A -> Prop) (p : A -> bool) (l : list A) (x : A) :
  StronglySorted R l -> find p l = Some x ->
  In x l /\ p x = true /\ forall y, In y l -> p y = true -> y = x \/ R x y.
Proof.
  intros Hs Hfind. destruct (find_first p l x Hfind) as (l1 & l2 & -> & Hp & Hl1).
  split; [apply in_elt|]. split; [exact Hp|].
  intros y Hy Hpy. apply in_app_or in Hy. destruct Hy as [Hy|[<-|Hy]].
  - rewrite (Hl1 y Hy) in Hpy. discriminate.
  - left. reflexivity.
  - right. clear Hl1 Hfind. induction l1 as [|a l1 IH]; cbn [app] in Hs.
    + inversion Hs as [|? ? _ Hall]; subst. rewrite Forall_forall in Hall. exact (Hall y Hy).
    + inversion Hs; subst. auto.
Qed.

Lemma lastWeeklyNumber_spec (rows : list WeeklyMeasurement.t) (field : WeeklyMeasurement.field) :
  match lastWeeklyNumber rows field with
  | Some v =>
      exists row, In row rows /\ WeeklyMeasurement.get field row = Some v
                  /\ forall other, In other rows -> WeeklyMeasurement.get field other <> None ->
                       (WeeklyMeasurement.weekStart other <= WeeklyMeasurement.weekStart row)%Z
  | None => forall row, In row rows -> WeeklyMeasurement.get field row = None
  end.
Proof.
  unfold lastWeeklyNumber, Js.find.
  destruct (find _ (Js.sort weeklyNewestFirst rows)) as [row|] eqn:E.
  - assert (Hs : StronglySorted (fun a b => weeklyNewestFirst a b = true)
                   (Js.sort weeklyNewestFirst rows)).
    { apply sort_sorted; unfold weeklyNewestFirst.
      - intros a b H. apply Z.leb_gt in H. apply Z.leb_le. lia.
      - intros a b c H1 H2. apply Z.leb_le in H1, H2. apply Z.leb_le. lia. }
    destruct (find_sorted _ _ _ _ Hs E) as (Hin & Hp & Hfirst).
    destruct (WeeklyMeasurement.get field row) as [v|] eqn:Ev; [|discriminate].
    exists row. rewrite sort_In in Hin. repeat split; [exact Hin|exact Ev|].
    intros other Ho Hget.
    destruct (Hfirst other) as [->|H].
    + apply sort_In. exact Ho.
    + destruct (WeeklyMeasurement.get field other); [reflexivity|congruence].
    + lia.
    + unfold weeklyNewestFirst in H. apply Z.leb_le in H. exact H.
  - intros row Hin. pose proof (find_none _ _ E row) as H.
    rewrite sort_In in H. specialize (H Hin).
    destruct (WeeklyMeasurement.get field row); [discriminate|reflexivity].
Qed.

Lemma lastNumberFor_spec (rows : list DailyLog.t) (field : DailyLog.key) :
  match lastNumberFor rows field with
  | Some v =>
      exists row, In row rows /\ DailyLog.number field row = Some v
                  /\ forall other, In other rows -> DailyLog.number field other <> None ->
                       (DailyLog.date other <= DailyLog.date row)%Z
  | None => forall row, In row rows -> DailyLog.number field row = None
  end.
Proof.
  unfold lastNumberFor, Js.find.
  destruct (find _ (Js.sort dailyNewestFirst rows)) as [row|] eqn:E.
  - assert (Hs : StronglySorted (fun a b => dailyNewestFirst a b = true)
                   (Js.sort dailyNewestFirst rows)).
    { apply sort_sorted; unfold dailyNewestFirst.
      - intros a b H. apply Z.leb_gt in H. apply Z.leb_le. lia.
      - intros a b c H1 H2. apply Z.leb_le in H1, H2. apply Z.leb_le. lia. }
    destruct (find_sorted _ _ _ _ Hs E) as (Hin & Hp & Hfirst).
    destruct (DailyLog.number field row) as [v|] eqn:Ev; [|discriminate].
    exists row. rewrite sort_In in Hin. repeat split; [exact Hin|exact Ev|].
    intros other Ho Hget.
    destruct (Hfirst other) as [->|H].
    + apply sort_In. exact Ho.
    + destruct (DailyLog.number field other); [reflexivity|congruence].
    + lia.
    + unfold dailyNewestFirst in H. apply Z.leb_le in H. exact H.
  - intros row Hin. pose proof (find_none _ _ E row) as H.
    rewrite sort_In in H. specialize (H Hin).
    destruct (DailyLog.number field row); [discriminate|reflexivity].
Qed.

(** X7. [latestFromWeeklyOrDaily] returns the value of a weekly row that has
    the field and whose [weekStart] no other weekly row with the field
    exceeds; only when no weekly row has the field does it return the value
    of a daily row that has the field and whose date no other such daily row
    exceeds; and it returns nothing exactly when no row of either kind has
    the field. *)
Theorem latestFromWeeklyOrDaily_latest
    (weeklyRows : list WeeklyMeasurement.t) (dailyRows : list DailyLog.t)
    (weeklyField : WeeklyMeasurement.field) (dailyField : DailyLog.key) :
  match latestFromWeeklyOrDaily weeklyRows dailyRows weeklyField dailyField with
  | Some v =>
      (exists row,
          In row weeklyRows /\ WeeklyMeasurement.get weeklyField row = Some v
          /\ forall other, In other weeklyRows ->
               WeeklyMeasurement.get weeklyField other <> None ->
               (WeeklyMeasurement.weekStart other <= WeeklyMeasurement.weekStart row)%Z)
      \/ ((forall row, In row weeklyRows -> WeeklyMeasurement.get weeklyField row = None)
          /\ exists row,
               In row dailyRows /\ DailyLog.number dailyField row = Some v
               /\ forall other, In other dailyRows ->
                    DailyLog.number dailyField other <> None ->
                    (DailyLog.date other <= DailyLog.date row)%Z)
  | None =>
      (forall row, In row weeklyRows -> WeeklyMeasurement.get weeklyField row = None)
      /\ (forall row, In row dailyRows -> DailyLog.number dailyField row = None)
  end.
Proof.
  unfold latestFromWeeklyOrDaily.
  pose proof (lastWeeklyNumber_spec weeklyRows weeklyField) as Hw.
  pose proof (lastNumberFor_spec dailyRows dailyField) as Hd.
  destruct (lastWeeklyNumber weeklyRows weeklyField) as [v|]; [left; exact Hw|].
  destruct (lastNumberFor dailyRows dailyField) as [v|].
  - right. split; assumption.
  - split; assumption.
Qed.

(** ** The daily streak on any list of logs *)

(** X8. Whatever the logs are (dates may repeat), the daily-streak branch of
    the detector never fires unless three consecutive calendar dates each
    have a log with a lumbar pain of 7 or more. *)
Theorem pain_streak_sound (rows : list DailyLog.t) :
  hasConsecutivePainSpike rows = true -> threeConsecutiveHighPainDays rows.
Proof.
  rewrite hasConsecutivePainSpike_sorted. intros H.
  destruct (hasStreak3_sound _ H) as (day & a & b & c & Ha & Hb & Hc & Hrest).
  exists day, a, b, c. rewrite sort_In in Ha, Hb, Hc. tauto.
Qed.

Lemma pain_streak_sound_witness : threeConsecutiveHighPainDays Scenario.threePainDays.
Proof. apply pain_streak_sound. vm_compute. reflexivity. Defined.

(** ** The performance index without comparable data *)

Lemma getExerciseBest_without_load (rows : list DailyLog.t) (exercise : CoreExerciseId) :
  daysWithLoad exercise rows = [] -> getExerciseBest rows exercise = 0.
Proof.
  intros H. unfold getExerciseBest. rewrite groupByDate_spec, H. reflexivity.
Qed.

Lemma exerciseDiff_without_load (currentWindow previousWindow : list DailyLog.t)
    (key : CoreExerciseId) :
  daysWithLoad key currentWindow = [] \/ daysWithLoad key previousWindow = [] ->
  exerciseDiff currentWindow previousWindow key = 0.
Proof.
  intros [H|H]; unfold exerciseDiff; rewrite (getExerciseBest_without_load _ _ H).
  - change (Js.truthy 0) with false. cbn [negb]. rewrite orb_true_r. reflexivity.
  - reflexivity.
Qed.

(** X9. When every core exercise lacks a positive load in the current or in
    the previous 7-day window (a first week of use, a week without
    training), the performance index is 0, so it cannot by itself lead to
    the decision [up125kcal]. *)
Theorem performanceIndex_without_comparison (state : AppState.t) (fromDate : Date) :
  (forall key : CoreExerciseId,
      daysWithLoad key (current7 state fromDate) = []
      \/ daysWithLoad key (previous7 state fromDate) = []) ->
  performanceIndex state fromDate == 0
  /\ Js.ltb (performanceIndex state fromDate) (-0.05) = false.
Proof.
  intros H. unfold performanceIndex, CORE_EXERCISE_IDS. cbn [map].
  fold (current7 state fromDate) (previous7 state fromDate).
  rewrite !exerciseDiff_without_load by apply H.
  split; reflexivity.
Qed.

Lemma performanceIndex_without_comparison_witness :
  performanceIndex
    {| AppState.logs := Scenario.twoTrainingDays; AppState.weeklyMeasurements := [] |}
    Scenario.today == 0.
Proof.
  refine (proj1 (performanceIndex_without_comparison _ _ _)).
  intros key. right. vm_compute. reflexivity.
Defined.

(** ** CSV cells *)

Lemma quoteChar_eqb (ch : ascii) : Ascii.eqb ch quoteChar = true <-> ch = quoteChar.
Proof. apply Ascii.eqb_eq. Qed.

Lemma doubleQuotes_closed_inj (a : string) :
  forall b : string,
    (doubleQuotes a ++ String quoteChar EmptyString)%string
    = (doubleQuotes b ++ String quoteChar EmptyString)%string ->
    a = b.
Proof.
  induction a as [|c a IH]; intros [|d b]; cbn [doubleQuotes String.append].
  - reflexivity.
  - destruct (Ascii.eqb d quoteChar) eqn:Ed; cbn [String.append]; intros H;
      inversion H; subst; rewrite Ascii.eqb_refl in Ed; discriminate.
  - destruct (Ascii.eqb c quoteChar) eqn:Ec; cbn [String.append]; intros H;
      inversion H; subst; rewrite Ascii.eqb_refl in Ec; discriminate.
  - destruct (Ascii.eqb c quoteChar) eqn:Ec, (Ascii.eqb d quoteChar) eqn:Ed;
      cbn [String.append]; intros H; inversion H; subst.
    + apply quoteChar_eqb in Ec, Ed. subst. f_equal. apply IH. assumption.
    + rewrite Ascii.eqb_refl in Ed. discriminate.
    + rewrite Ascii.eqb_refl in Ec. discriminate.
    + f_equal. apply IH. assumption.
Qed.

Lemma escapeValue_cases (value : string) :
  (needsQuoting value = false /\ escapeValue value = value)
  \/ (needsQuoting value = true
      /\ escapeValue value
         = String quoteChar (doubleQuotes value ++ String quoteChar EmptyString)).
Proof.
  unfold escapeValue. fold (needsQuoting value).
  destruct (needsQuoting value); [right|left]; split; reflexivity.
Qed.

Lemma quoted_needsQuoting (rest : string) : needsQuoting (String quoteChar rest) = true.
Proof. reflexivity. Qed.

(** X10. [escapeValue] leaves a value without double quote, comma and line
    feed unchanged, wraps any other value in double quotes, and loses
    nothing: two values with the same escaped text are the same value. *)
Theorem escapeValue_injective :
  (forall value : string, needsQuoting value = false -> escapeValue value = value)
  /\ (forall value : string,
         needsQuoting value = true ->
         exists inner, escapeValue value = String quoteChar inner)
  /\ (forall a b : string, escapeValue a = escapeValue b -> a = b).
Proof.
  split; [|split].
  - intros value H. destruct (escapeValue_cases value) as [(_ & E)|(E & _)]; congruence.
  - intros value H. destruct (escapeValue_cases value) as [(E & _)|(_ & E)]; [congruence|].
    eexists. exact E.
  - intros a b H.
    destruct (escapeValue_cases a) as [(Na & Ea)|(Na & Ea)],
      (escapeValue_cases b) as [(Nb & Eb)|(Nb & Eb)]; rewrite Ea, Eb in H.
    + exact H.
    + rewrite H, quoted_needsQuoting in Na. discriminate.
    + rewrite <- H, quoted_needsQuoting in Nb. discriminate.
    + injection H as H. exact (doubleQuotes_closed_inj a b H).
Qed.

Lemma escapeValue_injective_witness : escapeValue "jalon" = "jalon"%string.
Proof. apply (proj1 escapeValue_injective). reflexivity. Defined.

Section CsvShape.

Local Open Scope nat_scope.

Variable numberString : Q -> string.
Variable dateString : IsoDate -> string.
Variable hostOffset : Z.

Lemma csvRow_length (weekly : option WeeklyMeasurement.t) (log : DailyLog.t) (i : nat) :
  List.length (csvRow numberString dateString weekly log i) = 27.
Proof.
  unfold csvRow. rewrite length_map, !length_app.
  destruct (nth_error (csvMeals log) i), (nth_error (csvSets log) i); reflexivity.
Qed.

(** X11. Every data row that [toCsv] builds has as many cells as the header
    has columns (27), whatever the log holds, and every cell is either free
    of double quotes, commas and line feeds or wrapped in double quotes. *)
Theorem csv_rows_are_rectangular (weeklyRows : list WeeklyMeasurement.t) (log : DailyLog.t) :
  forall row : list string,
    In row (csvRowsOfLog numberString dateString hostOffset weeklyRows log) ->
    List.length row = List.length csvHeader
    /\ forall cell, In cell row ->
         needsQuoting cell = false \/ exists inner, cell = String quoteChar inner.
Proof.
  intros row Hin. unfold csvRowsOfLog in Hin. apply in_map_iff in Hin.
  destruct Hin as (i & <- & _). split; [apply csvRow_length|].
  intros cell Hcell. unfold csvRow in Hcell. apply in_map_iff in Hcell.
  destruct Hcell as (value & <- & _).
  destruct (escapeValue_cases value) as [(N & E)|(N & E)]; rewrite E.
  - left. exact N.
  - right. eexists. reflexivity.
Qed.

End CsvShape.

Lemma csv_rows_are_rectangular_witness :
  List.length
    (nth 1 (csvRowsOfLog Scenario.showNumber Scenario.showDate 0 [] Scenario.twoMealsOneSet) [])
  = 27%nat.
Proof.
  refine (proj1 (csv_rows_are_rectangular Scenario.showNumber Scenario.showDate 0 []
                   Scenario.twoMealsOneSet _ _)).
  right. left. reflexivity.
Defined.

(** ** Weeks and the host clock *)

Section Weeks.

Local Open Scope Z_scope.

Lemma localMidnight_day (hostOffset : Z) (date : IsoDate) (days : Z) :
  isoOfDate (addDays (localMidnight hostOffset date) days)
  = (date + days + (- hostOffset) / msPerDay)%Z.
Proof.
  unfold isoOfDate, addDays, localMidnight, msPerDay.
  Z.to_euclidean_division_equations. lia.
Qed.

Lemma getDay_localMidnight (hostOffset : Z) (date : IsoDate) :
  getDay hostOffset (localMidnight hostOffset date) = ((date + 4) mod 7)%Z.
Proof.
  unfold getDay, localMidnight, msPerDay. f_equal. f_equal.
  Z.to_euclidean_division_equations. lia.
Qed.

Lemma toWeekStart_general (hostOffset : Z) (date : IsoDate) :
  toWeekStart hostOffset date = (mondayOf date + (- hostOffset) / msPerDay)%Z.
Proof.
  unfold toWeekStart. rewrite getDay_localMidnight, localMidnight_day. unfold mondayOf.
  assert (E : (((date + 4) mod 7 + 6) mod 7 = (date + 3) mod 7)%Z)
    by (Z.to_euclidean_division_equations; lia).
  rewrite E. lia.
Qed.

Lemma hostShift_west (hostOffset : Z) :
  (- msPerDay < hostOffset <= 0)%Z -> ((- hostOffset) / msPerDay = 0)%Z.
Proof. unfold msPerDay. intros H. Z.to_euclidean_division_equations. lia. Qed.

Lemma hostShift_east (hostOffset : Z) :
  (0 < hostOffset < msPerDay)%Z -> ((- hostOffset) / msPerDay = -1)%Z.
Proof. unfold msPerDay. intros H. Z.to_euclidean_division_equations. lia. Qed.

Lemma mondayOf_spec (date : IsoDate) :
  (mondayOf date <= date <= mondayOf date + 6)%Z /\ ((mondayOf date + 3) mod 7 = 0)%Z.
Proof. unfold mondayOf. Z.to_euclidean_division_equations. lia. Qed.

Lemma mondayOf_shift (date : IsoDate) (k : Z) :
  (mondayOf date <= date + k <= mondayOf date + 6)%Z -> mondayOf (date + k) = mondayOf date.
Proof. unfold mondayOf. Z.to_euclidean_division_equations. lia. Qed.

Lemma getWeekForDate_spec (hostOffset : Z) (weeklyRows : list WeeklyMeasurement.t)
    (date : IsoDate) :
  match getWeekForDate hostOffset weeklyRows date with
  | Some row =>
      In row weeklyRows
      /\ weekCovers (6 + (- hostOffset) / msPerDay) row date
      /\ forall other, In other weeklyRows ->
           weekCovers (6 + (- hostOffset) / msPerDay) other date ->
           (WeeklyMeasurement.weekStart other <= WeeklyMeasurement.weekStart row)%Z
  | None =>
      forall row, In row weeklyRows -> ~ weekCovers (6 + (- hostOffset) / msPerDay) row date
  end.
Proof.
  unfold getWeekForDate, Js.find, weekCovers.
  set (covers := fun row : WeeklyMeasurement.t => _).
  assert (Hcovers : forall row,
             covers row = true
             <-> (WeeklyMeasurement.weekStart row <= date
                  <= WeeklyMeasurement.weekStart row + (6 + (- hostOffset) / msPerDay))%Z).
  { intros row. unfold covers. rewrite localMidnight_day, andb_true_iff, !Z.leb_le. lia. }
  destruct (find covers (Js.sort weeklyNewestFirst weeklyRows)) as [row|] eqn:E.
  - assert (Hs : StronglySorted (fun a b => weeklyNewestFirst a b = true)
                   (Js.sort weeklyNewestFirst weeklyRows)).
    { apply sort_sorted; unfold weeklyNewestFirst.
      - intros a b H. apply Z.leb_gt in H. apply Z.leb_le. lia.
      - intros a b c H1 H2. apply Z.leb_le in H1, H2. apply Z.leb_le. lia. }
    destruct (find_sorted _ _ _ _ Hs E) as (Hin & Hp & Hfirst).
    rewrite sort_In in Hin. split; [exact Hin|]. split; [apply Hcovers; exact Hp|].
    intros other Ho Hc. destruct (Hfirst other) as [->|H].
    + apply sort_In. exact Ho.
    + apply Hcovers. exact Hc.
    + lia.
    + unfold weeklyNewestFirst in H. apply Z.leb_le in H. exact H.
  - intros row Hin Hc. pose proof (find_none _ _ E row) as H.
    rewrite sort_In in H. specialize (H Hin).
    apply Hcovers in Hc. congruence.
Qed.

(** X12. On a host at or west of UTC (less than a day), [getWeekForDate]
    returns a weekly row whose seven days from [weekStart] hold the date and
    whose [weekStart] no other such row exceeds, and it returns nothing
    exactly when no weekly row covers the date. *)
Theorem getWeekForDate_newest_covering (hostOffset : Z)
    (weeklyRows : list WeeklyMeasurement.t) (date : IsoDate) :
  (- msPerDay < hostOffset <= 0)%Z ->
  match getWeekForDate hostOffset weeklyRows date with
  | Some row =>
      In row weeklyRows /\ weekCovers 6 row date
      /\ forall other, In other weeklyRows -> weekCovers 6 other date ->
           (WeeklyMeasurement.weekStart other <= WeeklyMeasurement.weekStart row)%Z
  | None => forall row, In row weeklyRows -> ~ weekCovers 6 row date
  end.
Proof.
  intros H. pose proof (getWeekForDate_spec hostOffset weeklyRows date) as Hspec.
  rewrite (hostShift_west hostOffset H), Z.add_0_r in Hspec. exact Hspec.
Qed.

(** Sunday 2024-03-24 belongs to the week that starts on 2024-03-18. *)
Lemma getWeekForDate_newest_covering_witness :
  weekCovers 6 (Scenario.weekAt (ymd 2024 3 18)) (ymd 2024 3 24).
Proof.
  assert (Hwest : - msPerDay < 0 <= 0) by (unfold msPerDay; lia).
  pose proof (getWeekForDate_newest_covering 0
                [Scenario.weekAt (ymd 2024 3 11); Scenario.weekAt (ymd 2024 3 18)]
                (ymd 2024 3 24) Hwest) as H.
  change (getWeekForDate 0 [Scenario.weekAt (ymd 2024 3 11); Scenario.weekAt (ymd 2024 3 18)]
            (ymd 2024 3 24))
    with (Some (Scenario.weekAt (ymd 2024 3 18))) in H.
  exact (proj1 (proj2 H)).
Defined.

(** X13. On a host at or west of UTC, [toWeekStart] gives the Monday on or
    before the date and is idempotent, [getWeekBounds] gives that Monday and
    the Sunday six days later, so the bounds hold the reference date, and
    [exportWeeklyJson] selects exactly the logs dated in that week. *)
Theorem week_bounds_west (hostOffset : Z) (date : IsoDate) :
  (- msPerDay < hostOffset <= 0)%Z ->
  toWeekStart hostOffset date = mondayOf date
  /\ ((toWeekStart hostOffset date + 3) mod 7 = 0)%Z
  /\ toWeekStart hostOffset (toWeekStart hostOffset date) = toWeekStart hostOffset date
  /\ getWeekBounds hostOffset date
     = {| WeekBounds.weekStart := mondayOf date; WeekBounds.weekEnd := (mondayOf date + 6)%Z |}
  /\ (mondayOf date <= date <= mondayOf date + 6)%Z
  /\ forall (state : AppState.t) (log : DailyLog.t),
       In log (exportWeeklyLogs hostOffset state date)
       <-> In log (AppState.logs state)
           /\ (mondayOf date <= DailyLog.date log <= mondayOf date + 6)%Z.
Proof.
  intros H. pose proof (hostShift_west hostOffset H) as Hshift.
  pose proof (mondayOf_spec date) as (Hin & Hmon).
  assert (Hstart : forall d, toWeekStart hostOffset d = mondayOf d).
  { intros d. rewrite toWeekStart_general, Hshift. lia. }
  assert (Hbounds : getWeekBounds hostOffset date
                    = {| WeekBounds.weekStart := mondayOf date;
                         WeekBounds.weekEnd := (mondayOf date + 6)%Z |}).
  { unfold getWeekBounds, toWeekEnd. rewrite localMidnight_day, Hshift, Hstart. f_equal. lia. }
  split; [apply Hstart|]. split; [rewrite Hstart; exact Hmon|]. split.
  - rewrite !Hstart. replace (mondayOf date) with (date + (mondayOf date - date))%Z at 1 by lia.
    apply mondayOf_shift. lia.
  - split; [exact Hbounds|]. split; [exact Hin|].
    intros state log. unfold exportWeeklyLogs. rewrite Hbounds. cbn [WeekBounds.weekStart WeekBounds.weekEnd].
    rewrite filter_In. unfold inDateRange. rewrite andb_true_iff, !Z.leb_le. tauto.
Qed.

Lemma week_bounds_west_witness : toWeekStart 0 (ymd 2024 3 20) = ymd 2024 3 18.
Proof.
  refine (eq_trans (proj1 (week_bounds_west 0 (ymd 2024 3 20) _)) _).
  - unfold msPerDay. lia.
  - reflexivity.
Defined.

(** X14. On a host east of UTC (by less than a day), [toWeekStart] gives the
    day before the Monday on or before the date, a Sunday, and is not
    idempotent; [getWeekBounds] gives that Sunday and the Friday five days
    later, so the bounds miss a reference date that is a Saturday or a
    Sunday; and a weekly row in [getWeekForDate] covers only the six days
    from its [weekStart]. *)
Theorem week_bounds_east (hostOffset : Z) (date : IsoDate) :
  (0 < hostOffset < msPerDay)%Z ->
  toWeekStart hostOffset date = (mondayOf date - 1)%Z
  /\ toWeekStart hostOffset (toWeekStart hostOffset date) = (mondayOf date - 8)%Z
  /\ getWeekBounds hostOffset date
     = {| WeekBounds.weekStart := (mondayOf date - 1)%Z;
          WeekBounds.weekEnd := (mondayOf date + 4)%Z |}
  /\ (inDateRange date (WeekBounds.weekStart (getWeekBounds hostOffset date))
        (WeekBounds.weekEnd (getWeekBounds hostOffset date)) = true
      <-> (date <= mondayOf date + 4)%Z)
  /\ forall row : WeeklyMeasurement.t,
       getWeekForDate hostOffset [row] date = Some row <-> weekCovers 5 row date.
Proof.
  intros H. pose proof (hostShift_east hostOffset H) as Hshift.
  pose proof (mondayOf_spec date) as (Hin & Hmon).
  assert (Hstart : forall d, toWeekStart hostOffset d = (mondayOf d - 1)%Z).
  { intros d. rewrite toWeekStart_general, Hshift. lia. }
  assert (Hbounds : getWeekBounds hostOffset date
                    = {| WeekBounds.weekStart := (mondayOf date - 1)%Z;
                         WeekBounds.weekEnd := (mondayOf date + 4)%Z |}).
  { unfold getWeekBounds, toWeekEnd. rewrite localMidnight_day, Hshift, Hstart. f_equal. lia. }
  split; [apply Hstart|]. split.
  - rewrite !Hstart.
    assert (E : mondayOf (mondayOf date - 1) = (mondayOf date - 7)%Z).
    { revert Hmon. unfold mondayOf. Z.to_euclidean_division_equations. lia. }
    rewrite E. lia.
  - split; [exact Hbounds|]. split.
    + rewrite Hbounds. cbn [WeekBounds.weekStart WeekBounds.weekEnd].
      unfold inDateRange. rewrite andb_true_iff, !Z.leb_le. lia.
    + intros row. pose proof (getWeekForDate_spec hostOffset [row] date) as Hspec.
      rewrite Hshift in Hspec. change (6 + -1)%Z with 5%Z in Hspec.
      destruct (getWeekForDate hostOffset [row] date) as [found|].
      * destruct Hspec as ([<-|[]] & Hc & _). split; [intros _; exact Hc|reflexivity].
      * split; [discriminate|]. intros Hc. elim (Hspec row (or_introl eq_refl) Hc).
Qed.

(** One hour east of UTC, the week of Saturday 2024-03-23 starts on Sunday
    2024-03-17 and ends on Friday 2024-03-22. *)
Lemma week_bounds_east_witness :
  getWeekBounds Scenario.oneHourEast (ymd 2024 3 23)
  = {| WeekBounds.weekStart := ymd 2024 3 17; WeekBounds.weekEnd := ymd 2024 3 22 |}.
Proof.
  refine (eq_trans
            (proj1 (proj2 (proj2 (week_bounds_east Scenario.oneHourEast (ymd 2024 3 23) _))))
            _).
  - unfold Scenario.oneHourEast, msPerDay. lia.
  - reflexivity.
Defined.

End Weeks.

(** ** Saving a normalized state again *)

Section Renormalize.

Variable uid : nat -> string.

Lemma normalizeWeeklyRow_typed (i : nat) (row : WeeklyMeasurement.t) :
  normalizeWeeklyRow uid i (rawOfWeekly row) = Some row.
Proof.
  destruct row as [id ws w1 w2 w3 w4 w5 w6 w7 w8 w9].
  unfold normalizeWeeklyRow, rawOfWeekly. cbn.
  destruct w1, w2, w3, w4, w5, w6, w7, w8, w9; reflexivity.
Qed.

Lemma normalizeWeeklyRows_typed (rows : list WeeklyMeasurement.t) :
  forall i : nat, normalizeWeeklyRows uid i (map rawOfWeekly rows) = rows.
Proof.
  induction rows as [|row rows IH]; intros i; [reflexivity|].
  cbn [map normalizeWeeklyRows]. rewrite normalizeWeeklyRow_typed, IH. reflexivity.
Qed.

Lemma filterUnseen_distinct (rows : list WeeklyMeasurement.t) :
  forall seen : list IsoDate,
    NoDup (map WeeklyMeasurement.weekStart rows) ->
    (forall row, In row rows -> ~ In (WeeklyMeasurement.weekStart row) seen) ->
    filterUnseen seen rows = rows.
Proof.
  induction rows as [|row rows IH]; intros seen Hnd Hseen; [reflexivity|].
  cbn [filterUnseen]. inversion Hnd as [|? ? Hnotin Hnd']; subst.
  destruct (seenHas (WeeklyMeasurement.weekStart row) seen) eqn:E.
  - apply existsb_eqb_In in E. elim (Hseen row (or_introl eq_refl) E).
  - f_equal. apply IH; [exact Hnd'|].
    intros r Hr [E'|Hin].
    + apply Hnotin. rewrite E'. apply in_map. exact Hr.
    + exact (Hseen r (or_intror Hr) Hin).
Qed.

Lemma sort_of_sorted {A : Type} (before : A -> A -> bool) (l : list A) :
  StronglySorted (fun a b => before a b = true) l -> Js.sort before l = l.
Proof.
  induction 1 as [|x l Hs IH Hall]; [reflexivity|].
  cbn [Js.sort fold_right]. fold (Js.sort before l). rewrite IH.
  destruct l as [|y l]; [reflexivity|]. cbn [Js.insert].
  inversion Hall as [|? ? Hxy _]; subst. rewrite Hxy. reflexivity.
Qed.

Lemma weeklyNewestFirst_sorted (rows : list WeeklyMeasurement.t) :
  StronglySorted (fun a b => weeklyNewestFirst a b = true) (Js.sort weeklyNewestFirst rows).
Proof.
  apply sort_sorted; unfold weeklyNewestFirst.
  - intros a b H. apply Z.leb_gt in H. apply Z.leb_le. lia.
  - intros a b c H1 H2. apply Z.leb_le in H1, H2. apply Z.leb_le. lia.
Qed.

Lemma normalize_typed_distinct (rows : list WeeklyMeasurement.t) :
  NoDup (map WeeklyMeasurement.weekStart rows) ->
  normalizeWeeklyMeasurements uid (map rawOfWeekly rows) = Js.sort weeklyNewestFirst rows.
Proof.
  intros Hnd. unfold normalizeWeeklyMeasurements.
  rewrite normalizeWeeklyRows_typed, filterUnseen_distinct; [reflexivity|exact Hnd|].
  intros row _ [].
Qed.

(** X15. Normalizing typed weekly measurements whose weeks are pairwise
    distinct only sorts them, newest first, and changes no field; hence
    normalization is idempotent: a state that was normalized on load comes
    out of the normalization of the next save unchanged. *)
Theorem normalizeWeeklyMeasurements_idempotent :
  (forall rows : list WeeklyMeasurement.t,
      NoDup (map WeeklyMeasurement.weekStart rows) ->
      normalizeWeeklyMeasurements uid (map rawOfWeekly rows) = Js.sort weeklyNewestFirst rows)
  /\ (forall (uid' : nat -> string) (rawWeekly : list RawWeekly.t),
         normalizeWeeklyMeasurements uid
           (map rawOfWeekly (normalizeWeeklyMeasurements uid' rawWeekly))
         = normalizeWeeklyMeasurements uid' rawWeekly).
Proof.
  split; [exact normalize_typed_distinct|].
  intros uid' rawWeekly.
  rewrite normalize_typed_distinct.
  - apply sort_of_sorted. unfold normalizeWeeklyMeasurements. apply weeklyNewestFirst_sorted.
  - unfold normalizeWeeklyMeasurements.
    apply (Permutation_NoDup
             (l := map WeeklyMeasurement.weekStart
                     (filterUnseen [] (normalizeWeeklyRows uid' 0 rawWeekly))));
      [|apply filterUnseen_NoDup].
    apply Permutation_map, Permutation_sym, sort_perm.
Qed.

End Renormalize.

Lemma normalizeWeeklyMeasurements_idempotent_witness :
  normalizeWeeklyMeasurements Scenario.noUid
    (map rawOfWeekly [Scenario.weekAt (ymd 2024 3 11); Scenario.weekAt (ymd 2024 3 18)])
  = [Scenario.weekAt (ymd 2024 3 18); Scenario.weekAt (ymd 2024 3 11)].
Proof.
  refine (eq_trans (proj1 (normalizeWeeklyMeasurements_idempotent Scenario.noUid) _ _) _).
  - repeat constructor; vm_compute; intuition discriminate.
  - reflexivity.
Defined.

(** ** The exercise catalog *)

Lemma knownHas_In (id : string) (knownIds : list string) :
  knownHas id knownIds = true <-> In id knownIds.
Proof.
  unfold knownHas. rewrite existsb_exists. split.
  - intros (x & Hin & E). apply String.eqb_eq in E. subst. exact Hin.
  - intros Hin. exists id. split; [exact Hin|apply String.eqb_refl].
Qed.

Lemma truthyString_some (s : option string) :
  truthyString s = true -> s = Some (stringOr s) /\ stringOr s <> EmptyString.
Proof.
  destruct s as [v|]; [|discriminate]. cbn. intros H. split; [reflexivity|].
  intros E. rewrite E in H. discriminate.
Qed.

Lemma mergeCatalogItem_invariant (acc : list ExerciseCatalogItem.t * list string)
    (item : option RawCatalogItem.t) :
  catalogInvariant acc -> catalogInvariant (mergeCatalogItem acc item).
Proof.
  destruct acc as [merged knownIds]. intros Hinv. pose proof Hinv as (Hk & Hnd & Hvalid & extras & Hpre).
  cbn [fst snd] in *. unfold mergeCatalogItem.
  destruct item as [it|]; [|exact Hinv].
  destruct (truthyString (RawCatalogItem.id it)) eqn:Eid; [|exact Hinv].
  destruct (truthyString (RawCatalogItem.name it)) eqn:Ename; [|exact Hinv].
  cbn [negb orb].
  destruct (knownHas (stringOr (RawCatalogItem.id it)) knownIds) eqn:Eknown; [exact Hinv|].
  cbn [negb]. unfold catalogInvariant. cbn [fst snd].
  destruct (truthyString_some _ Eid) as (_ & Hid).
  destruct (truthyString_some _ Ename) as (_ & Hname).
  split; [rewrite map_app, Hk; reflexivity|]. split; [|split].
  - apply NoDup_app; [exact Hnd|repeat constructor; intros []|].
    intros a Ha [<-|[]]. apply knownHas_In in Ha. congruence.
  - intros x Hx. apply in_app_or in Hx. destruct Hx as [Hx|[<-|[]]]; [exact (Hvalid x Hx)|].
    cbn. split; assumption.
  - eexists. rewrite Hpre, <- app_assoc. reflexivity.
Qed.

Lemma fold_mergeCatalogItem_invariant (rawCatalog : list (option RawCatalogItem.t)) :
  forall acc, catalogInvariant acc -> catalogInvariant (fold_left mergeCatalogItem rawCatalog acc).
Proof.
  induction rawCatalog as [|item rawCatalog IH]; intros acc H; [exact H|].
  cbn [fold_left]. apply IH, mergeCatalogItem_invariant, H.
Qed.

Lemma catalogInvariant_initial :
  catalogInvariant
    (DEFAULT_EXERCISE_CATALOG, map ExerciseCatalogItem.id DEFAULT_EXERCISE_CATALOG).
Proof.
  unfold catalogInvariant. cbn [fst snd].
  split; [reflexivity|]. split; [|split].
  - cbn. repeat (constructor; [cbn; intuition discriminate|]). constructor.
  - intros item Hin. cbn in Hin.
    repeat (destruct Hin as [<-|Hin]; [split; discriminate|]). contradiction.
  - exists []. rewrite app_nil_r. reflexivity.
Qed.

(** An identifier, once known, stays known. *)
Lemma mergeCatalogItem_known (acc : list ExerciseCatalogItem.t * list string)
    (item : option RawCatalogItem.t) (id : string) :
  In id (snd acc) -> In id (snd (mergeCatalogItem acc item)).
Proof.
  destruct acc as [merged knownIds]. cbn [snd]. intros H. unfold mergeCatalogItem.
  destruct item as [it|]; [|exact H].
  destruct (_ || _); [exact H|].
  destruct (negb _); [|exact H]. cbn [snd]. apply in_or_app. left. exact H.
Qed.

Lemma fold_mergeCatalogItem_known (rawCatalog : list (option RawCatalogItem.t)) (id : string) :
  forall acc, In id (snd acc) -> In id (snd (fold_left mergeCatalogItem rawCatalog acc)).
Proof.
  induction rawCatalog as [|item rawCatalog IH]; intros acc H; [exact H|].
  cbn [fold_left]. apply IH, mergeCatalogItem_known, H.
Qed.

Lemma fold_mergeCatalogItem_keeps (rawCatalog : list (option RawCatalogItem.t))
    (it : RawCatalogItem.t) :
  In (Some it) rawCatalog -> usableCatalogItem it = true ->
  forall acc,
    In (stringOr (RawCatalogItem.id it)) (snd (fold_left mergeCatalogItem rawCatalog acc)).
Proof.
  intros Hin Husable. unfold usableCatalogItem in Husable.
  apply andb_true_iff in Husable. destruct Husable as (Eid & Ename).
  induction rawCatalog as [|item rawCatalog IH]; intros acc; [contradiction|].
  cbn [fold_left]. destruct Hin as [->|Hin]; [|exact (IH Hin _)].
  apply fold_mergeCatalogItem_known.
  destruct acc as [merged knownIds]. unfold mergeCatalogItem. rewrite Eid, Ename.
  cbn [negb orb].
  destruct (knownHas (stringOr (RawCatalogItem.id it)) knownIds) eqn:E; cbn [negb snd].
  - apply knownHas_In. exact E.
  - apply in_or_app. right. left. reflexivity.
Qed.

(** X16. The normalized exercise catalog begins with the sixteen default
    exercises, unchanged and in their order; its identifiers are pairwise
    distinct, and none of its identifiers or names is empty; every stored
    item that has an identifier and a name is represented by its identifier. *)
Theorem normalizeExerciseCatalog_invariants (rawCatalog : list (option RawCatalogItem.t)) :
  (exists extras, normalizeExerciseCatalog rawCatalog = DEFAULT_EXERCISE_CATALOG ++ extras)
  /\ NoDup (map ExerciseCatalogItem.id (normalizeExerciseCatalog rawCatalog))
  /\ (forall item, In item (normalizeExerciseCatalog rawCatalog) ->
        ExerciseCatalogItem.id item <> EmptyString
        /\ ExerciseCatalogItem.name item <> EmptyString)
  /\ (forall it, In (Some it) rawCatalog -> usableCatalogItem it = true ->
        In (stringOr (RawCatalogItem.id it))
          (map ExerciseCatalogItem.id (normalizeExerciseCatalog rawCatalog))).
Proof.
  unfold normalizeExerciseCatalog.
  pose proof (fold_mergeCatalogItem_invariant rawCatalog _ catalogInvariant_initial)
    as (Hk & Hnd & Hvalid & Hpre).
  split; [exact Hpre|]. split; [rewrite <- Hk; exact Hnd|]. split; [exact Hvalid|].
  intros it Hin Husable. rewrite <- Hk.
  apply fold_mergeCatalogItem_keeps; assumption.
Qed.

Lemma normalizeExerciseCatalog_invariants_witness :
  In "custom_1"%string
    (map ExerciseCatalogItem.id
       (normalizeExerciseCatalog
          [ None;
            Some {| RawCatalogItem.id := Some "custom_1"%string;
                    RawCatalogItem.name := Some "Dominadas"%string;
                    RawCatalogItem.isCore := None; RawCatalogItem.coreId := None |} ])).
Proof.
  refine (proj2 (proj2 (proj2 (normalizeExerciseCatalog_invariants _)))
            {| RawCatalogItem.id := Some "custom_1"%string;
               RawCatalogItem.name := Some "Dominadas"%string;
               RawCatalogItem.isCore := None; RawCatalogItem.coreId := None |} _ _).
  - right. left. reflexivity.
  - reflexivity.
Defined.

Lemma fold_mergeCatalogItem_skip (items : list ExerciseCatalogItem.t) :
  forall (merged : list ExerciseCatalogItem.t) (knownIds : list string),
    (forall item, In item items ->
       ExerciseCatalogItem.id item <> EmptyString /\ ExerciseCatalogItem.name item <> EmptyString
       /\ In (ExerciseCatalogItem.id item) knownIds) ->
    fold_left mergeCatalogItem (map rawOfCatalogItem items) (merged, knownIds)
    = (merged, knownIds).
Proof.
  induction items as [|x items IH]; intros merged knownIds H; [reflexivity|].
  cbn [map fold_left].
  destruct (H x (or_introl eq_refl)) as (Hid & Hname & Hknown).
  assert (E : mergeCatalogItem (merged, knownIds) (rawOfCatalogItem x) = (merged, knownIds)).
  { unfold mergeCatalogItem, rawOfCatalogItem. cbn.
    apply String.eqb_neq in Hid, Hname. rewrite Hid, Hname. cbn.
    rewrite (proj2 (knownHas_In _ _) Hknown). reflexivity. }
  rewrite E. apply IH. intros item Hin. exact (H item (or_intror Hin)).
Qed.

Lemma fold_mergeCatalogItem_add (items : list ExerciseCatalogItem.t) :
  forall (merged : list ExerciseCatalogItem.t) (knownIds : list string),
    NoDup (knownIds ++ map ExerciseCatalogItem.id items) ->
    (forall item, In item items ->
       ExerciseCatalogItem.id item <> EmptyString
       /\ ExerciseCatalogItem.name item <> EmptyString) ->
    fold_left mergeCatalogItem (map rawOfCatalogItem items) (merged, knownIds)
    = (merged ++ items, knownIds ++ map ExerciseCatalogItem.id items).
Proof.
  induction items as [|x items IH]; intros merged knownIds Hnd H.
  - cbn. rewrite !app_nil_r. reflexivity.
  - cbn [map fold_left].
    destruct (H x (or_introl eq_refl)) as (Hid & Hname).
    assert (Hnew : knownHas (ExerciseCatalogItem.id x) knownIds = false).
    { destruct (knownHas _ knownIds) eqn:E; [|reflexivity].
      apply knownHas_In in E. cbn [map] in Hnd. apply NoDup_remove_2 in Hnd.
      elim Hnd. apply in_or_app. left. exact E. }
    assert (E : mergeCatalogItem (merged, knownIds) (rawOfCatalogItem x)
                = (merged ++ [x], knownIds ++ [ExerciseCatalogItem.id x])).
    { unfold mergeCatalogItem, rawOfCatalogItem. cbn.
      apply String.eqb_neq in Hid, Hname. rewrite Hid, Hname. cbn.
      rewrite Hnew. cbn. destruct x; reflexivity. }
    rewrite E, IH.
    + rewrite <- !app_assoc. reflexivity.
    + rewrite <- app_assoc. exact Hnd.
    + intros item Hin. exact (H item (or_intror Hin)).
Qed.

(** X17. Normalizing a normalized exercise catalog gives it back: the
    catalog of a loaded state comes out of the normalization of the next
    save unchanged. *)
Theorem normalizeExerciseCatalog_idempotent (rawCatalog : list (option RawCatalogItem.t)) :
  normalizeExerciseCatalog (map rawOfCatalogItem (normalizeExerciseCatalog rawCatalog))
  = normalizeExerciseCatalog rawCatalog.
Proof.
  assert (Hshape : exists extras,
             normalizeExerciseCatalog rawCatalog = DEFAULT_EXERCISE_CATALOG ++ extras
             /\ NoDup (map ExerciseCatalogItem.id (DEFAULT_EXERCISE_CATALOG ++ extras))
             /\ forall item, In item (DEFAULT_EXERCISE_CATALOG ++ extras) ->
                  ExerciseCatalogItem.id item <> EmptyString
                  /\ ExerciseCatalogItem.name item <> EmptyString).
  { unfold normalizeExerciseCatalog.
    pose proof (fold_mergeCatalogItem_invariant rawCatalog _ catalogInvariant_initial)
      as (Hk & Hnd & Hvalid & extras & Hpre).
    exists extras. rewrite Hk, Hpre in Hnd. rewrite Hpre in Hvalid. auto. }
  destruct Hshape as (extras & -> & Hnd & Hvalid).
  unfold normalizeExerciseCatalog. rewrite map_app, fold_left_app.
  rewrite fold_mergeCatalogItem_skip.
  - rewrite fold_mergeCatalogItem_add; [reflexivity| |].
    + rewrite <- map_app. exact Hnd.
    + intros item Hin. apply Hvalid. apply in_or_app. right. exact Hin.
  - intros item Hin. destruct (Hvalid item) as (Hid & Hname).
    + apply in_or_app. left. exact Hin.
    + repeat split; [exact Hid|exact Hname|]. apply in_map. exact Hin.
Qed.

(** ** Presets *)

(** X18. [sanitizePresetId] never returns an identifier that is absent from
    the presets: it keeps an identifier that a preset has, replaces any other
    one by the identifier of the first preset, and returns nothing only when
    there is no preset. *)
Theorem sanitizePresetId_known (presetId : option string) (presets : list FoodPreset.t) :
  (forall id, sanitizePresetId presetId presets = Some id ->
     exists preset, In preset presets /\ FoodPreset.id preset = id)
  /\ (forall id preset, presetId = Some id -> In preset presets -> FoodPreset.id preset = id ->
        sanitizePresetId presetId presets = Some id)
  /\ (sanitizePresetId presetId presets = None -> presets = []).
Proof.
  unfold sanitizePresetId, Js.some.
  destruct (existsb _ presets) eqn:E.
  - apply existsb_exists in E. destruct E as (preset & Hin & Hid).
    destruct presetId as [pid|]; [|discriminate]. apply String.eqb_eq in Hid.
    split; [|split].
    + intros id H. injection H as <-. exists preset. auto.
    + intros id p H _ _. exact H.
    + discriminate.
  - split; [|split].
    + intros id H. destruct presets as [|first rest]; [discriminate|].
      injection H as <-. exists first. split; [left|]; reflexivity.
    + intros id preset -> Hin Hid.
      assert (H : existsb (fun p => String.eqb (FoodPreset.id p) id) presets = true).
      { apply existsb_exists. exists preset. split; [exact Hin|].
        rewrite Hid. apply String.eqb_refl. }
      congruence.
    + destruct presets; [reflexivity|discriminate].
Qed.

Lemma sanitizePresetId_known_witness :
  sanitizePresetId (Some "rice"%string)
    [FoodPreset.mk "oats" "Oats" 13 7 60 370; FoodPreset.mk "rice" "Rice" 7 1 78 350]
  = Some "rice"%string.
Proof.
  refine (proj1 (proj2 (sanitizePresetId_known (Some "rice"%string) _))
            "rice"%string (FoodPreset.mk "rice" "Rice" 7 1 78 350) _ _ _).
  - reflexivity.
  - right. left. reflexivity.
  - reflexivity.
Defined.

(** ** Saving a weekly measurement *)

Lemma saveWeeklyRows_rows (entry : WeeklyMeasurement.t) (prev : list WeeklyMeasurement.t)
    (row : WeeklyMeasurement.t) :
  In row (saveWeeklyRows entry prev) ->
  (WeeklyMeasurement.weekStart row = WeeklyMeasurement.weekStart entry -> row = entry)
  /\ (WeeklyMeasurement.weekStart row <> WeeklyMeasurement.weekStart entry -> In row prev).
Proof.
  unfold saveWeeklyRows, Js.some.
  destruct (existsb _ prev) eqn:E.
  - intros Hin. apply in_map_iff in Hin. destruct Hin as (r & Hr & Hin).
    destruct (WeeklyMeasurement.weekStart r =? WeeklyMeasurement.weekStart entry)%Z eqn:Er.
    + subst row. split; [reflexivity|congruence].
    + subst row. apply Z.eqb_neq in Er. split; [congruence|intros _; exact Hin].
  - intros Hin. apply in_app_or in Hin. destruct Hin as [Hin|[<-|[]]].
    + split; [|intros _; exact Hin]. intros Hw. exfalso.
      assert (H : existsb (fun r => (WeeklyMeasurement.weekStart r
                                     =? WeeklyMeasurement.weekStart entry)%Z) prev = true).
      { apply existsb_exists. exists row. split; [exact Hin|]. apply Z.eqb_eq. exact Hw. }
      congruence.
    + split; [reflexivity|congruence].
Qed.

Lemma saveWeeklyRows_saved (entry : WeeklyMeasurement.t) (prev : list WeeklyMeasurement.t) :
  In entry (saveWeeklyRows entry prev).
Proof.
  unfold saveWeeklyRows, Js.some.
  destruct (existsb _ prev) eqn:E.
  - apply existsb_exists in E. destruct E as (r & Hin & Hr).
    apply in_map_iff. exists r. rewrite Hr. auto.
  - apply in_or_app. right. left. reflexivity.
Qed.

Lemma saveWeeklyRows_weeks (entry : WeeklyMeasurement.t) (prev : list WeeklyMeasurement.t) :
  map WeeklyMeasurement.weekStart (saveWeeklyRows entry prev)
  = if existsb (fun r => (WeeklyMeasurement.weekStart r
                          =? WeeklyMeasurement.weekStart entry)%Z) prev
    then map WeeklyMeasurement.weekStart prev
    else map WeeklyMeasurement.weekStart prev ++ [WeeklyMeasurement.weekStart entry].
Proof.
  unfold saveWeeklyRows, Js.some. destruct (existsb _ prev) eqn:E.
  - rewrite map_map. apply map_ext. intros r.
    destruct (WeeklyMeasurement.weekStart r =? WeeklyMeasurement.weekStart entry)%Z eqn:Er;
      [|reflexivity].
    apply Z.eqb_eq in Er. congruence.
  - rewrite map_app. reflexivity.
Qed.

(** X19. Saving a weekly measurement replaces the record of its week in
    place or appends it, so that the saved entry is the only record of its
    week, the records of other weeks are those from before, and weeks that
    were pairwise distinct stay so; and the saved entry is still there after
    the normalization of the next save: at the level of a save, the last
    write of a week wins. *)
Theorem saveWeekly_last_write_wins (uid : nat -> string) (entry : WeeklyMeasurement.t)
    (prev : list WeeklyMeasurement.t) :
  In entry (saveWeeklyRows entry prev)
  /\ (forall row, In row (saveWeeklyRows entry prev) ->
        WeeklyMeasurement.weekStart row = WeeklyMeasurement.weekStart entry -> row = entry)
  /\ (forall row, WeeklyMeasurement.weekStart row <> WeeklyMeasurement.weekStart entry ->
        (In row (saveWeeklyRows entry prev) <-> In row prev))
  /\ (NoDup (map WeeklyMeasurement.weekStart prev) ->
      NoDup (map WeeklyMeasurement.weekStart (saveWeeklyRows entry prev)))
  /\ In entry
       (normalizeWeeklyMeasurements uid (map rawOfWeekly (saveWeeklyRows entry prev))).
Proof.
  split; [apply saveWeeklyRows_saved|]. split; [|split; [|split]].
  - intros row Hin. exact (proj1 (saveWeeklyRows_rows entry prev row Hin)).
  - intros row Hne. split.
    + intros Hin. exact (proj2 (saveWeeklyRows_rows entry prev row Hin) Hne).
    + intros Hin. unfold saveWeeklyRows, Js.some. destruct (existsb _ prev).
      * apply in_map_iff. exists row. apply Z.eqb_neq in Hne. rewrite Hne. auto.
      * apply in_or_app. left. exact Hin.
  - intros Hnd. rewrite saveWeeklyRows_weeks. destruct (existsb _ prev) eqn:E; [exact Hnd|].
    apply NoDup_app; [exact Hnd|repeat constructor; intros []|].
    intros w Hw [<-|[]]. apply in_map_iff in Hw. destruct Hw as (r & Hr & Hin).
    assert (H : existsb (fun r => (WeeklyMeasurement.weekStart r
                                   =? WeeklyMeasurement.weekStart entry)%Z) prev = true).
    { apply existsb_exists. exists r. split; [exact Hin|]. apply Z.eqb_eq. exact Hr. }
    congruence.
  - unfold normalizeWeeklyMeasurements. rewrite normalizeWeeklyRows_typed. apply sort_In.
    destruct (filterUnseen_complete (saveWeeklyRows entry prev) [] entry
                (saveWeeklyRows_saved entry prev)) as (r & Hr & Er); [intros []|].
    destruct (filterUnseen_first _ _ _ Hr) as (l1 & l2 & Hsplit & _).
    assert (Hin : In r (saveWeeklyRows entry prev)) by (rewrite Hsplit; apply in_elt).
    pose proof (proj1 (saveWeeklyRows_rows entry prev r Hin) Er) as Heq.
    subst r. exact Hr.
Qed.

Lemma saveWeekly_last_write_wins_witness :
  NoDup (map WeeklyMeasurement.weekStart
           (saveWeeklyRows (Scenario.weekOf (ymd 2024 3 18) (Some 72) None None)
              [Scenario.weekAt (ymd 2024 3 11); Scenario.weekAt (ymd 2024 3 18)])).
Proof.
  refine (proj1 (proj2 (proj2 (proj2
            (saveWeekly_last_write_wins Scenario.noUid _ _)))) _).
  repeat constructor; vm_compute; intuition discriminate.
Defined.

(** ** Saving a daily log *)

Lemma computeDayAdherence_cleaned (draftLog : DailyLog.t) (activeDate : IsoDate) :
  computeDayAdherence (cleanedDraft draftLog activeDate) = computeDayAdherence draftLog.
Proof. reflexivity. Qed.

(** X20. Saving the draft of a day replaces the log of the active date in
    place or appends it: afterwards every log of that date is the saved one,
    whose stored adherence is the one that [computeDayAdherence] gives for
    it, the logs of other dates are those from before, and dates that were
    pairwise distinct stay so. *)
Theorem saveDraft_keeps_one_log_per_date (draftLog : DailyLog.t) (activeDate : IsoDate)
    (prevLogs : list DailyLog.t) :
  let saved := cleanedDraft draftLog activeDate in
  In saved (saveDraftLogs draftLog activeDate prevLogs)
  /\ DailyLog.date saved = activeDate
  /\ DailyLog.adherence saved = computeDayAdherence saved
  /\ (forall row, In row (saveDraftLogs draftLog activeDate prevLogs) ->
        DailyLog.date row = activeDate -> row = saved)
  /\ (forall row, DailyLog.date row <> activeDate ->
        (In row (saveDraftLogs draftLog activeDate prevLogs) <-> In row prevLogs))
  /\ (NoDup (map DailyLog.date prevLogs) ->
      NoDup (map DailyLog.date (saveDraftLogs draftLog activeDate prevLogs))).
Proof.
  intros saved. unfold saveDraftLogs, Js.some. fold saved.
  assert (Hex : existsb (fun row => (DailyLog.date row =? activeDate)%Z) prevLogs = true
                <-> exists row, In row prevLogs /\ DailyLog.date row = activeDate).
  { rewrite existsb_exists. split; intros (r & Hin & Hr); exists r;
      (split; [exact Hin|]); apply Z.eqb_eq; exact Hr. }
  split; [|split; [reflexivity|split; [reflexivity|split; [|split]]]].
  - destruct (existsb _ prevLogs) eqn:E.
    + destruct (proj1 Hex eq_refl) as (r & Hin & Hr). apply in_map_iff. exists r.
      apply Z.eqb_eq in Hr. rewrite Hr. auto.
    + apply in_or_app. right. left. reflexivity.
  - intros row Hin Hdate. destruct (existsb _ prevLogs) eqn:E.
    + apply in_map_iff in Hin. destruct Hin as (r & Hr & _).
      destruct (DailyLog.date r =? activeDate)%Z eqn:Er; [congruence|].
      apply Z.eqb_neq in Er. congruence.
    + apply in_app_or in Hin. destruct Hin as [Hin|[<-|[]]]; [|reflexivity].
      assert (H : false = true) by (apply Hex; eauto).
      discriminate H.
  - intros row Hne. destruct (existsb _ prevLogs) eqn:E.
    + rewrite in_map_iff. split.
      * intros (r & Hr & Hin).
        destruct (DailyLog.date r =? activeDate)%Z eqn:Er; [|congruence].
        subst row. elim Hne. reflexivity.
      * intros Hin. exists row. apply Z.eqb_neq in Hne. rewrite Hne. auto.
    + rewrite in_app_iff. cbn [In]. split; [|tauto].
      intros [Hin|[<-|[]]]; [exact Hin|]. elim Hne. reflexivity.
  - intros Hnd. destruct (existsb _ prevLogs) eqn:E.
    + replace (map DailyLog.date
                 (map (fun row => if (DailyLog.date row =? activeDate)%Z then saved else row)
                    prevLogs))
        with (map DailyLog.date prevLogs); [exact Hnd|].
      rewrite map_map. apply map_ext. intros r.
      destruct (DailyLog.date r =? activeDate)%Z eqn:Er; [|reflexivity].
      apply Z.eqb_eq in Er. exact Er.
    + rewrite map_app. apply NoDup_app; [exact Hnd|repeat constructor; intros []|].
      intros d Hd [<-|[]]. apply in_map_iff in Hd. destruct Hd as (r & Hr & Hin).
      assert (H : false = true) by (apply Hex; eauto).
      discriminate H.
Qed.

Lemma saveDraft_keeps_one_log_per_date_witness :
  NoDup (map DailyLog.date
           (saveDraftLogs (Scenario.logOf (ymd 2024 3 1) 0 Scenario.onTargetMeals [])
              (ymd 2024 3 2) Scenario.threePainDays)).
Proof.
  refine (proj2 (proj2 (proj2 (proj2 (proj2
            (saveDraft_keeps_one_log_per_date _ _ _))))) _).
  repeat constructor; vm_compute; intuition discriminate.
Defined.

(** ** Editing the workout of a day *)

Lemma getSetExerciseId_getWorkoutSetId (set : WorkoutSet.t) :
  getSetExerciseId set = getWorkoutSetId set.
Proof. reflexivity. Qed.

Lemma findIndex_some {A : Type} (f : A -> bool) (l : list A) (i : nat) :
  findIndex f l = Some i ->
  exists l1 x l2, l = l1 ++ x :: l2 /\ List.length l1 = i /\ f x = true
                  /\ forall y, In y l1 -> f y = false.
Proof.
  revert i. induction l as [|a l IH]; intros i; [discriminate|].
  cbn [findIndex]. destruct (f a) eqn:E.
  - intros H. injection H as <-. exists [], a, l. repeat split; [exact E|intros y []].
  - destruct (findIndex f l) as [j|]; [|discriminate].
    cbn [option_map]. intros H. injection H as <-.
    destruct (IH j eq_refl) as (l1 & x & l2 & -> & Hlen & Hx & Hl1).
    exists (a :: l1), x, l2. cbn [List.length app]. repeat split; [lia|exact Hx|].
    intros y [<-|Hy]; [exact E|exact (Hl1 y Hy)].
Qed.

Lemma findIndex_none {A : Type} (f : A -> bool) (l : list A) :
  findIndex f l = None -> forall y, In y l -> f y = false.
Proof.
  induction l as [|a l IH]; [intros _ y []|].
  cbn [findIndex]. destruct (f a) eqn:E; [discriminate|].
  destruct (findIndex f l); [discriminate|].
  intros _ y [<-|Hy]; [exact E|exact (IH eq_refl y Hy)].
Qed.

Lemma mapAt_split {A : Type} (g : A -> A) (l1 : list A) (x : A) (l2 : list A) :
  mapAt (List.length l1) g (l1 ++ x :: l2) = l1 ++ g x :: l2.
Proof.
  induction l1 as [|a l1 IH]; [reflexivity|].
  cbn [List.length app mapAt]. rewrite IH. reflexivity.
Qed.

(** What [upsertWorkoutSet] makes of the sets of the first session. *)
Lemma upsertWorkoutSet_sets (freshId : string) (setData : WorkoutSet.t) (prev : DailyLog.t) :
  let sanitized :=
    {| WorkoutSet.exerciseId := WorkoutSet.exerciseId setData;
       WorkoutSet.sets := WorkoutSet.sets setData;
       WorkoutSet.reps := WorkoutSet.reps setData;
       WorkoutSet.weightKg := WorkoutSet.weightKg setData;
       WorkoutSet.rir := WorkoutSet.rir setData;
       WorkoutSet.exercise := None |} in
  (exists l1 x l2,
      firstSessionSets prev = l1 ++ x :: l2
      /\ getWorkoutSetId x = WorkoutSet.exerciseId setData
      /\ firstSessionSets (upsertWorkoutSet freshId setData prev)
         = l1 ++ mergeSet x sanitized :: l2)
  \/ ((forall y, In y (firstSessionSets prev) ->
         getWorkoutSetId y <> WorkoutSet.exerciseId setData)
      /\ firstSessionSets (upsertWorkoutSet freshId setData prev)
         = firstSessionSets prev ++ [sanitized]).
Proof.
  intros sanitized. unfold upsertWorkoutSet, firstSessionSets.
  cbn [withWorkout DailyLog.workout withSets WorkoutSession.sets].
  set (base := match DailyLog.workout prev with
               | first :: _ => first
               | [] => createEmptySession freshId (DailyLog.id prev)
               end).
  assert (Hbase : WorkoutSession.sets base
                  = match DailyLog.workout prev with
                    | first :: _ => WorkoutSession.sets first
                    | [] => []
                    end).
  { unfold base. destruct (DailyLog.workout prev); reflexivity. }
  rewrite <- Hbase.
  destruct (findIndex _ (WorkoutSession.sets base)) as [i|] eqn:E.
  - left. destruct (findIndex_some _ _ _ E) as (l1 & x & l2 & Hsplit & Hlen & Hx & _).
    exists l1, x, l2. apply String.eqb_eq in Hx.
    split; [exact Hsplit|]. split; [exact Hx|].
    rewrite Hsplit, <- Hlen.
    apply (mapAt_split (fun entry => mergeSet entry sanitized)).
  - right. split; [|reflexivity].
    intros y Hy Hid. pose proof (findIndex_none _ _ E y Hy) as H.
    apply String.eqb_neq in H. contradiction.
Qed.

Lemma getWorkoutSetId_named (set : WorkoutSet.t) :
  WorkoutSet.exerciseId set <> EmptyString -> getWorkoutSetId set = WorkoutSet.exerciseId set.
Proof.
  intros H. unfold getWorkoutSetId. apply String.eqb_neq in H. rewrite H. reflexivity.
Qed.

(** X21. Upserting a workout set for an exercise (with a non-empty
    identifier) leaves a set with that identifier and the given sets, reps,
    weight and RIR in the first session, changes no set of another exercise,
    touches no other session, and keeps the identifiers of the sets pairwise
    distinct when they were: at most one set per exercise. *)
Theorem upsertWorkoutSet_one_set_per_exercise (freshId : string) (setData : WorkoutSet.t)
    (prev : DailyLog.t) :
  WorkoutSet.exerciseId setData <> EmptyString ->
  (exists set,
      In set (firstSessionSets (upsertWorkoutSet freshId setData prev))
      /\ getWorkoutSetId set = WorkoutSet.exerciseId setData
      /\ WorkoutSet.sets set = WorkoutSet.sets setData
      /\ WorkoutSet.reps set = WorkoutSet.reps setData
      /\ WorkoutSet.weightKg set = WorkoutSet.weightKg setData
      /\ WorkoutSet.rir set = WorkoutSet.rir setData)
  /\ (forall other, getWorkoutSetId other <> WorkoutSet.exerciseId setData ->
        (In other (firstSessionSets (upsertWorkoutSet freshId setData prev))
         <-> In other (firstSessionSets prev)))
  /\ tl (DailyLog.workout (upsertWorkoutSet freshId setData prev)) = tl (DailyLog.workout prev)
  /\ (NoDup (map getWorkoutSetId (firstSessionSets prev)) ->
      NoDup (map getWorkoutSetId (firstSessionSets (upsertWorkoutSet freshId setData prev)))).
Proof.
  intros Hid.
  set (sanitized :=
         {| WorkoutSet.exerciseId := WorkoutSet.exerciseId setData;
            WorkoutSet.sets := WorkoutSet.sets setData;
            WorkoutSet.reps := WorkoutSet.reps setData;
            WorkoutSet.weightKg := WorkoutSet.weightKg setData;
            WorkoutSet.rir := WorkoutSet.rir setData;
            WorkoutSet.exercise := None |}).
  assert (Hmerged : forall x, getWorkoutSetId (mergeSet x sanitized)
                              = WorkoutSet.exerciseId setData).
  { intros x. apply (getWorkoutSetId_named (mergeSet x sanitized)). exact Hid. }
  assert (Hsan : getWorkoutSetId sanitized = WorkoutSet.exerciseId setData).
  { apply (getWorkoutSetId_named sanitized). exact Hid. }
  assert (Htl : tl (DailyLog.workout (upsertWorkoutSet freshId setData prev))
                = tl (DailyLog.workout prev)) by reflexivity.
  destruct (upsertWorkoutSet_sets freshId setData prev)
    as [(l1 & x & l2 & Hprev & Hx & Hnext)|(Hnone & Hnext)];
    fold sanitized in Hnext; rewrite Hnext.
  - split; [|split; [|split]].
    + exists (mergeSet x sanitized). split; [apply in_elt|]. split; [apply Hmerged|].
      repeat split.
    + intros other Hother. rewrite Hprev, !in_app_iff. cbn [In].
      split; (intros [H|[H|H]]; [left; exact H| |right; right; exact H]).
      * subst other. elim Hother. apply Hmerged.
      * subst other. elim Hother. exact Hx.
    + exact Htl.
    + rewrite Hprev, !map_app. cbn [map]. rewrite Hmerged, Hx. auto.
  - split; [|split; [|split]].
    + exists sanitized. split; [apply in_or_app; right; left; reflexivity|].
      split; [exact Hsan|]. repeat split.
    + intros other Hother. rewrite in_app_iff. cbn [In]. split; [|tauto].
      intros [H|[H|[]]]; [exact H|]. subst other. elim Hother. exact Hsan.
    + exact Htl.
    + intros Hnd. rewrite map_app. cbn [map]. rewrite Hsan.
      apply NoDup_app; [exact Hnd|repeat constructor; intros []|].
      intros id Hin [<-|[]]. apply in_map_iff in Hin. destruct Hin as (y & Hy & Hin).
      exact (Hnone y Hin Hy).
Qed.

Lemma upsertWorkoutSet_one_set_per_exercise_witness :
  NoDup (map getWorkoutSetId
           (firstSessionSets
              (upsertWorkoutSet "fresh" (Scenario.setOf "jalon" 4 8 45)
                 Scenario.twoMealsOneSet))).
Proof.
  refine (proj2 (proj2 (proj2
            (upsertWorkoutSet_one_set_per_exercise _ _ _ _))) _).
  - discriminate.
  - repeat constructor; vm_compute; intuition discriminate.
Defined.

(** ** Importing weekly measurements *)

Lemma WeekMap_set_keys (k : IsoDate) (v : WeeklyMeasurement.t) (m : WeekMap.t) :
  map fst (WeekMap.set k v m) = if WeekMap.has k m then map fst m else map fst m ++ [k].
Proof.
  induction m as [|[k' v'] m IH]; [reflexivity|].
  cbn [WeekMap.set WeekMap.has map fst].
  destruct (k =? k')%Z eqn:E; cbn [orb map fst].
  - apply Z.eqb_eq in E. subst. reflexivity.
  - rewrite IH. destruct (WeekMap.has k m); reflexivity.
Qed.

Lemma WeekMap_has_In (k : IsoDate) (m : WeekMap.t) :
  WeekMap.has k m = true <-> In k (map fst m).
Proof.
  induction m as [|[k' v'] m IH]; [split; [discriminate|intros []]|].
  cbn [WeekMap.has map fst In]. rewrite orb_true_iff, IH, Z.eqb_eq. intuition congruence.
Qed.

Lemma WeekMap_set_new (k : IsoDate) (v : WeeklyMeasurement.t) (m : WeekMap.t) :
  WeekMap.has k m = false -> WeekMap.set k v m = m ++ [(k, v)].
Proof.
  induction m as [|[k' v'] m IH]; [reflexivity|].
  cbn [WeekMap.has WeekMap.set app]. intros H. apply orb_false_iff in H.
  destruct H as (E & H). rewrite E, (IH H). reflexivity.
Qed.

Lemma WeekMap_set_NoDup (k : IsoDate) (v : WeeklyMeasurement.t) (m : WeekMap.t) :
  NoDup (map fst m) -> NoDup (map fst (WeekMap.set k v m)).
Proof.
  intros Hnd. rewrite WeekMap_set_keys. destruct (WeekMap.has k m) eqn:E; [exact Hnd|].
  apply NoDup_app; [exact Hnd|repeat constructor; intros []|].
  intros a Ha [<-|[]]. apply WeekMap_has_In in Ha. congruence.
Qed.

Lemma WeekMap_ofEntries_NoDup (entries : list (IsoDate * WeeklyMeasurement.t)) :
  forall m, NoDup (map fst m) ->
            NoDup (map fst (fold_left (fun m e => WeekMap.set (fst e) (snd e) m) entries m)).
Proof.
  induction entries as [|e entries IH]; intros m H; [exact H|].
  cbn [fold_left]. apply IH, WeekMap_set_NoDup, H.
Qed.

Lemma WeekMap_ofEntries_distinct (rows : list WeeklyMeasurement.t) :
  forall m : WeekMap.t,
    NoDup (map fst m ++ map WeeklyMeasurement.weekStart rows) ->
    fold_left (fun m e => WeekMap.set (fst e) (snd e) m)
      (map (fun row => (WeeklyMeasurement.weekStart row, row)) rows) m
    = m ++ map (fun row => (WeeklyMeasurement.weekStart row, row)) rows.
Proof.
  induction rows as [|row rows IH]; intros m Hnd.
  - cbn. rewrite app_nil_r. reflexivity.
  - cbn [map fold_left fst snd].
    assert (Hnew : WeekMap.has (WeeklyMeasurement.weekStart row) m = false).
    { destruct (WeekMap.has _ m) eqn:E; [|reflexivity].
      apply WeekMap_has_In in E. cbn [map] in Hnd. apply NoDup_remove_2 in Hnd.
      elim Hnd. apply in_or_app. left. exact E. }
    rewrite (WeekMap_set_new _ _ _ Hnew), IH.
    + rewrite <- app_assoc. reflexivity.
    + rewrite map_app. cbn [map fst]. rewrite <- app_assoc. exact Hnd.
Qed.

(** The incoming rows that the import adds to a map. *)
Lemma importWeekly_fold (incomingWeekly : list (option WeeklyMeasurement.t)) :
  forall m : WeekMap.t,
    exists added : list WeeklyMeasurement.t,
      fold_left
        (fun m row =>
           match row with
           | None => m
           | Some r =>
               if negb (WeekMap.has (WeeklyMeasurement.weekStart r) m)
               then WeekMap.set (WeeklyMeasurement.weekStart r) r m
               else m
           end)
        incomingWeekly m
      = m ++ map (fun row => (WeeklyMeasurement.weekStart row, row)) added
      /\ (forall row, In row added ->
            In (Some row) incomingWeekly
            /\ ~ In (WeeklyMeasurement.weekStart row) (map fst m)).
Proof.
  induction incomingWeekly as [|row incoming IH]; intros m.
  - exists []. cbn. rewrite app_nil_r. split; [reflexivity|intros row []].
  - cbn [fold_left]. destruct row as [r|].
    + destruct (WeekMap.has (WeeklyMeasurement.weekStart r) m) eqn:E; cbn [negb].
      * destruct (IH m) as (added & Heq & Hadded). exists added. split; [exact Heq|].
        intros row Hin. destruct (Hadded row Hin). split; [right|]; assumption.
      * rewrite (WeekMap_set_new _ _ _ E).
        destruct (IH (m ++ [(WeeklyMeasurement.weekStart r, r)])) as (added & Heq & Hadded).
        exists (r :: added). split; [rewrite Heq, <- app_assoc; reflexivity|].
        intros row [<-|Hin].
        -- split; [left; reflexivity|]. intros H. apply WeekMap_has_In in H. congruence.
        -- destruct (Hadded row Hin) as (H1 & H2). split; [right; exact H1|].
           intros H. apply H2. rewrite map_app. apply in_or_app. left. exact H.
    + destruct (IH m) as (added & Heq & Hadded). exists added. split; [exact Heq|].
      intros row Hin. destruct (Hadded row Hin). split; [right|]; assumption.
Qed.

Lemma importWeekly_fold_NoDup (incomingWeekly : list (option WeeklyMeasurement.t)) :
  forall m : WeekMap.t,
    NoDup (map fst m) ->
    NoDup (map fst
             (fold_left
                (fun m row =>
                   match row with
                   | None => m
                   | Some r =>
                       if negb (WeekMap.has (WeeklyMeasurement.weekStart r) m)
                       then WeekMap.set (WeeklyMeasurement.weekStart r) r m
                       else m
                   end)
                incomingWeekly m)).
Proof.
  induction incomingWeekly as [|row incoming IH]; intros m H; [exact H|].
  cbn [fold_left]. apply IH. destruct row as [r|]; [|exact H].
  destruct (negb _); [apply WeekMap_set_NoDup|]; exact H.
Qed.

Lemma WeekMap_values_weeks (m : WeekMap.t) :
  (forall e, In e m -> WeeklyMeasurement.weekStart (snd e) = fst e) ->
  map WeeklyMeasurement.weekStart (WeekMap.values m) = map fst m.
Proof.
  intros H. unfold WeekMap.values. rewrite map_map. apply map_ext_in. exact H.
Qed.

(** X22. Importing weekly measurements into a state whose weeks are pairwise
    distinct keeps every existing record, unchanged and in its place, and
    only appends incoming records of weeks that the state did not have: an
    imported record never replaces an existing one, and the weeks of the
    result are pairwise distinct. *)
Theorem importWeekly_keeps_existing (prev : list WeeklyMeasurement.t)
    (incomingWeekly : list (option WeeklyMeasurement.t)) :
  NoDup (map WeeklyMeasurement.weekStart prev) ->
  exists added : list WeeklyMeasurement.t,
    importWeekly prev incomingWeekly = prev ++ added
    /\ (forall row, In row added ->
          In (Some row) incomingWeekly
          /\ ~ In (WeeklyMeasurement.weekStart row) (map WeeklyMeasurement.weekStart prev))
    /\ NoDup (map WeeklyMeasurement.weekStart (importWeekly prev incomingWeekly)).
Proof.
  intros Hnd. unfold importWeekly, WeekMap.ofEntries.
  rewrite (WeekMap_ofEntries_distinct prev []) by exact Hnd. cbn [app].
  set (m := map (fun row => (WeeklyMeasurement.weekStart row, row)) prev).
  assert (Hkeys : map fst m = map WeeklyMeasurement.weekStart prev).
  { unfold m. rewrite map_map. reflexivity. }
  destruct (importWeekly_fold incomingWeekly m) as (added & Heq & Hadded).
  pose proof (importWeekly_fold_NoDup incomingWeekly m) as Hnd'.
  rewrite Hkeys in Hnd'. specialize (Hnd' Hnd).
  rewrite Heq in *. exists added.
  assert (Hvalues : WeekMap.values
                      (m ++ map (fun row => (WeeklyMeasurement.weekStart row, row)) added)
                    = prev ++ added).
  { unfold WeekMap.values, m. rewrite map_app, !map_map. cbn [snd].
    rewrite !map_id. reflexivity. }
  split; [exact Hvalues|]. split.
  - intros row Hin. rewrite <- Hkeys. exact (Hadded row Hin).
  - rewrite Hvalues. rewrite map_app, !map_map in Hnd'. cbn [fst] in Hnd'.
    rewrite map_app. unfold m in Hnd'. rewrite map_map in Hnd'. exact Hnd'.
Qed.

Lemma importWeekly_keeps_existing_witness :
  exists added,
    importWeekly [Scenario.weekOf (ymd 2024 3 18) (Some 72) None None]
      [Some (Scenario.weekOf (ymd 2024 3 18) (Some 80) None None);
       Some (Scenario.weekAt (ymd 2024 3 11))]
    = [Scenario.weekOf (ymd 2024 3 18) (Some 72) None None] ++ added.
Proof.
  destruct (importWeekly_keeps_existing
              [Scenario.weekOf (ymd 2024 3 18) (Some 72) None None]
              [Some (Scenario.weekOf (ymd 2024 3 18) (Some 80) None None);
               Some (Scenario.weekAt (ymd 2024 3 11))]) as (added & Heq & _).
  - repeat constructor. intros [].
  - exists added. exact Heq.
Defined.

(** ** Pain levels *)

(** X23. [clampPain] of a number is a whole number between 0 and 10, and gives
    back every whole number between 0 and 10. *)
Theorem clampPain_range :
  (forall value : Q, exists k : Z, clampPain value = inject_Z k /\ (0 <= k <= 10)%Z)
  /\ (forall k : Z, (0 <= k <= 10)%Z -> clampPain (inject_Z k) == inject_Z k).
Proof.
  split.
  - intros value. unfold clampPain, Js.Math_round.
    set (r := Qfloor (value + (1 # 2))).
    assert (Hmax : exists j : Z, Qmax 0 (inject_Z r) = inject_Z j /\ (0 <= j)%Z).
    { destruct (Qmax_cases 0 (inject_Z r)) as [E|E].
      - exists 0%Z. split; [exact E|lia].
      - exists r. split; [exact E|].
        pose proof (Q.le_max_l 0 (inject_Z r)) as H. rewrite E in H.
        change 0 with (inject_Z 0) in H. rewrite <- Zle_Qle in H. exact H. }
    destruct Hmax as (j & -> & Hj).
    destruct (Qmin_cases 10 (inject_Z j)) as [E|E]; rewrite E.
    + exists 10%Z. split; [reflexivity|lia].
    + exists j. split; [reflexivity|].
      pose proof (Q.le_min_l 10 (inject_Z j)) as H. rewrite E in H.
      change 10 with (inject_Z 10) in H. rewrite <- Zle_Qle in H. lia.
  - intros k Hk. unfold clampPain, Js.Math_round.
    assert (Hfloor : Qfloor (inject_Z k + (1 # 2)) = k).
    { unfold Qfloor, inject_Z, Qplus. cbn. Z.to_euclidean_division_equations. lia. }
    rewrite Hfloor.
    rewrite (Q.max_r 0 (inject_Z k))
      by (change 0 with (inject_Z 0); rewrite <- Zle_Qle; lia).
    apply Q.min_r. change 10 with (inject_Z 10). rewrite <- Zle_Qle. lia.
Qed.

Lemma clampPain_range_witness : clampPain (inject_Z 7) == inject_Z 7.
Proof. apply (proj2 clampPain_range). lia. Defined.

(** ** From the form to the performance index *)

Lemma filter_unique_id (sets : list WorkoutSet.t) (set : WorkoutSet.t) :
  NoDup (map getWorkoutSetId sets) -> In set sets ->
  filter (fun entry => String.eqb (getWorkoutSetId entry) (getWorkoutSetId set)) sets = [set].
Proof.
  induction sets as [|x sets IH]; intros Hnd Hin; [contradiction|].
  cbn [map] in Hnd. inversion Hnd as [|? ? Hnotin Hnd']; subst.
  cbn [filter]. destruct Hin as [->|Hin].
  - rewrite String.eqb_refl. f_equal.
    clear IH Hnd' Hnd. revert Hnotin.
    induction sets as [|y sets IH]; intros Hnotin; [reflexivity|].
    cbn [filter]. destruct (String.eqb (getWorkoutSetId y) (getWorkoutSetId set)) eqn:E.
    + apply String.eqb_eq in E. elim Hnotin. left. exact E.
    + apply IH. intros H. apply Hnotin. right. exact H.
  - destruct (String.eqb (getWorkoutSetId x) (getWorkoutSetId set)) eqn:E.
    + apply String.eqb_eq in E. elim Hnotin. rewrite E. apply in_map. exact Hin.
    + exact (IH Hnd' Hin).
Qed.

Lemma workout_of_upsert (freshId : string) (setData : WorkoutSet.t) (prev : DailyLog.t) :
  tl (DailyLog.workout prev) = [] ->
  flat_map WorkoutSession.sets (DailyLog.workout (upsertWorkoutSet freshId setData prev))
  = firstSessionSets (upsertWorkoutSet freshId setData prev).
Proof.
  intros Htl. unfold firstSessionSets, upsertWorkoutSet.
  cbn [withWorkout DailyLog.workout flat_map]. rewrite Htl. cbn [flat_map].
  apply app_nil_r.
Qed.

(** X24. In a log with at most one workout session and pairwise distinct set
    identifiers, after a set of a core exercise with a positive load has been
    upserted, the best load of that day for that exercise, which the
    performance index reads, is exactly [sets * reps * weightKg] of the
    upserted set, whatever was recorded for the exercise before. *)
Theorem upsert_sets_the_day_best (freshId : string) (exercise : CoreExerciseId)
    (sets reps weightKg : Q) (rir : option Q) (prev : DailyLog.t) :
  tl (DailyLog.workout prev) = [] ->
  NoDup (map getWorkoutSetId (firstSessionSets prev)) ->
  0 < sets * reps * weightKg ->
  logBest exercise
    (upsertWorkoutSet freshId
       {| WorkoutSet.exerciseId := coreExerciseString exercise;
          WorkoutSet.sets := sets; WorkoutSet.reps := reps; WorkoutSet.weightKg := weightKg;
          WorkoutSet.rir := rir; WorkoutSet.exercise := None |} prev)
  = sets * reps * weightKg.
Proof.
  intros Htl Hnd Hpos.
  set (setData := {| WorkoutSet.exerciseId := coreExerciseString exercise;
                     WorkoutSet.sets := sets; WorkoutSet.reps := reps;
                     WorkoutSet.weightKg := weightKg; WorkoutSet.rir := rir;
                     WorkoutSet.exercise := None |}).
  assert (Hid : WorkoutSet.exerciseId setData <> EmptyString)
    by (destruct exercise; discriminate).
  assert (Hsets : exists set,
             In set (firstSessionSets (upsertWorkoutSet freshId setData prev))
             /\ getWorkoutSetId set = coreExerciseString exercise
             /\ WorkoutSet.sets set = sets /\ WorkoutSet.reps set = reps
             /\ WorkoutSet.weightKg set = weightKg
             /\ NoDup (map getWorkoutSetId
                         (firstSessionSets (upsertWorkoutSet freshId setData prev)))).
  { assert (Hmerged : forall x sanitized,
               WorkoutSet.exerciseId sanitized = coreExerciseString exercise ->
               getWorkoutSetId (mergeSet x sanitized) = coreExerciseString exercise).
    { intros x sanitized E. rewrite (getWorkoutSetId_named (mergeSet x sanitized)).
      - exact E.
      - cbn. rewrite E. destruct exercise; discriminate. }
    destruct (upsertWorkoutSet_sets freshId setData prev)
      as [(l1 & x & l2 & Hprev & Hx & Hnext)|(Hnone & Hnext)]; rewrite Hnext.
    - eexists. split; [apply in_elt|]. split; [apply Hmerged; reflexivity|].
      repeat split. rewrite Hprev in Hnd. rewrite !map_app in *. cbn [map] in *.
      rewrite Hmerged by reflexivity. rewrite Hx in Hnd. exact Hnd.
    - eexists. split; [apply in_or_app; right; left; reflexivity|].
      split; [apply (getWorkoutSetId_named _ Hid)|]. repeat split.
      rewrite map_app. cbn [map].
      match goal with
      | |- context [getWorkoutSetId ?s :: nil] =>
          change (getWorkoutSetId s) with (getWorkoutSetId setData)
      end.
      rewrite (getWorkoutSetId_named _ Hid).
      apply NoDup_app; [exact Hnd|repeat constructor; intros []|].
      intros id Hin [<-|[]]. apply in_map_iff in Hin. destruct Hin as (y & Hy & Hin).
      exact (Hnone y Hin Hy). }
  destruct Hsets as (set & Hin & Hset & Hs & Hr & Hw & Hnd').
  unfold logBest. rewrite (workout_of_upsert freshId setData prev Htl).
  assert (Hfilter :
    filter (fun s => String.eqb (getSetExerciseId s) (coreExerciseString exercise))
      (firstSessionSets (upsertWorkoutSet freshId setData prev)) = [set]).
  { rewrite <- Hset. apply (filter_unique_id _ set Hnd' Hin). }
  rewrite Hfilter. cbn [fold_left]. rewrite Hs, Hr, Hw.
  unfold Qmax, GenericMinMax.gmax.
  assert (E : (0 ?= sets * reps * weightKg) = Lt) by (apply Qlt_alt; exact Hpos).
  rewrite E. reflexivity.
Qed.

Lemma upsert_sets_the_day_best_witness :
  logBest jalon
    (upsertWorkoutSet "fresh"
       {| WorkoutSet.exerciseId := coreExerciseString jalon;
          WorkoutSet.sets := 4; WorkoutSet.reps := 8; WorkoutSet.weightKg := 45;
          WorkoutSet.rir := None; WorkoutSet.exercise := None |}
       Scenario.twoMealsOneSet)
  = 4 * 8 * 45.
Proof.
  apply upsert_sets_the_day_best.
  - reflexivity.
  - repeat constructor. intros [].
  - reflexivity.
Defined.

(** X25. Removing the set of an exercise right after upserting it gives the
    same sets of the first session as removing it from the log as it was,
    and leaves no set of that exercise. *)
Theorem remove_after_upsert (freshId freshId' : string) (setData : WorkoutSet.t)
    (prev : DailyLog.t) :
  WorkoutSet.exerciseId setData <> EmptyString ->
  firstSessionSets
    (removeWorkoutSet freshId' (WorkoutSet.exerciseId setData)
       (upsertWorkoutSet freshId setData prev))
  = firstSessionSets (removeWorkoutSet freshId' (WorkoutSet.exerciseId setData) prev)
  /\ forall set,
       In set (firstSessionSets
                 (removeWorkoutSet freshId' (WorkoutSet.exerciseId setData)
                    (upsertWorkoutSet freshId setData prev))) ->
       getWorkoutSetId set <> WorkoutSet.exerciseId setData.
Proof.
  intros Hid.
  assert (Hremove : forall log,
             firstSessionSets (removeWorkoutSet freshId' (WorkoutSet.exerciseId setData) log)
             = filter (fun entry => negb (String.eqb (getWorkoutSetId entry)
                                            (WorkoutSet.exerciseId setData)))
                 (firstSessionSets log)).
  { intros log. unfold removeWorkoutSet, firstSessionSets.
    cbn [withWorkout DailyLog.workout withSets WorkoutSession.sets].
    destruct (DailyLog.workout log); reflexivity. }
  rewrite !Hremove. split.
  - destruct (upsertWorkoutSet_sets freshId setData prev)
      as [(l1 & x & l2 & Hprev & Hx & Hnext)|(Hnone & Hnext)]; rewrite Hnext.
    + rewrite Hprev, !filter_app. cbn [filter].
      rewrite (getWorkoutSetId_named (mergeSet x _)) by exact Hid.
      cbn [mergeSet WorkoutSet.exerciseId]. rewrite Hx, String.eqb_refl. reflexivity.
    + rewrite filter_app. cbn [filter].
      rewrite getWorkoutSetId_named by exact Hid. cbn [WorkoutSet.exerciseId].
      rewrite String.eqb_refl. cbn [negb]. apply app_nil_r.
  - intros set Hin. apply filter_In in Hin. destruct Hin as (_ & H).
    apply negb_true_iff, String.eqb_neq in H. exact H.
Qed.

Lemma remove_after_upsert_witness :
  firstSessionSets
    (removeWorkoutSet "fresh" "remo" (upsertWorkoutSet "fresh" (Scenario.setOf "remo" 3 10 50)
                                        Scenario.twoMealsOneSet))
  = firstSessionSets (removeWorkoutSet "fresh" "remo" Scenario.twoMealsOneSet).
Proof.
  refine (proj1 (remove_after_upsert "fresh" "fresh" (Scenario.setOf "remo" 3 10 50)
                   Scenario.twoMealsOneSet _)).
  discriminate.
Defined.

(** ** The detector and the order of the logs *)

(** X26. When the dates of the logs are pairwise distinct, the daily-streak
    branch of the detector does not depend on the order in which the state
    holds the logs. *)
Theorem pain_streak_order_independent (rows rows' : list DailyLog.t) :
  Permutation rows rows' ->
  NoDup (map DailyLog.date rows) ->
  hasConsecutivePainSpike rows = hasConsecutivePainSpike rows'.
Proof.
  intros Hperm Hnd.
  assert (Hnd' : NoDup (map DailyLog.date rows')).
  { apply (Permutation_NoDup (l := map DailyLog.date rows)); [|exact Hnd].
    apply Permutation_map. exact Hperm. }
  assert (Hiff : forall l, NoDup (map DailyLog.date l) ->
             (hasConsecutivePainSpike l = true <-> threeConsecutiveHighPainDays l)).
  { intros l Hl. rewrite hasConsecutivePainSpike_sorted. split.
    - intros H. destruct (hasStreak3_sound _ H) as (day & a & b & c & Ha & Hb & Hc & Hrest).
      exists day, a, b, c. rewrite sort_In in Ha, Hb, Hc. tauto.
    - intros (day & a & b & c & Ha & Hb & Hc & Hrest).
      apply hasStreak3_complete; [apply sort_oldest_first_strict; exact Hl|].
      exists day, a, b, c. rewrite !sort_In. tauto. }
  assert (Hmove : forall l l', Permutation l l' ->
             threeConsecutiveHighPainDays l -> threeConsecutiveHighPainDays l').
  { intros l l' Hp (day & a & b & c & Ha & Hb & Hc & Hrest).
    exists day, a, b, c.
    repeat split; try tauto; eapply Permutation_in; eauto. }
  destruct (hasConsecutivePainSpike rows) eqn:E, (hasConsecutivePainSpike rows') eqn:E';
    try reflexivity; exfalso.
  - apply (Hiff rows Hnd) in E. apply (Hmove _ _ Hperm) in E.
    apply (Hiff rows' Hnd') in E. congruence.
  - apply (Hiff rows' Hnd') in E'. apply (Hmove _ _ (Permutation_sym Hperm)) in E'.
    apply (Hiff rows Hnd) in E'. congruence.
Qed.

Lemma pain_streak_order_independent_witness :
  hasConsecutivePainSpike Scenario.threePainDays
  = hasConsecutivePainSpike (rev Scenario.threePainDays).
Proof.
  apply pain_streak_order_independent.
  - apply Permutation_rev.
  - repeat constructor; vm_compute; intuition discriminate.
Defined.

(** ** The detector on a host without clock changes *)

(** X27. On a host that stays at a fixed offset from UTC, for daily logs
    with pairwise distinct dates, the daily-streak branch of the detector
    fires if and only if three consecutive calendar dates each have a log
    with a lumbar pain of 7 or more; the run does not carry over a calendar
    gap, so logs on a day, on the next day and then on the third day after
    it (none on the day between) never fire. *)
Theorem pain_streak_iff_fixed_offset (offset : Z) :
  (forall rows : list DailyLog.t,
      NoDup (map DailyLog.date rows) ->
      (Zoned.hasConsecutivePainSpike (Zoned.fixedOffset offset) rows = true
       <-> threeConsecutiveHighPainDays rows))
  /\ (forall a b c : DailyLog.t,
         DailyLog.date b = (DailyLog.date a + 1)%Z ->
         DailyLog.date c = (DailyLog.date a + 3)%Z ->
         Zoned.hasConsecutivePainSpike (Zoned.fixedOffset offset) [a; b; c] = false).
Proof.
  split.
  - intros rows Hnd. rewrite hasConsecutivePainSpike_fixedOffset.
    apply hasConsecutivePainSpike_iff. exact Hnd.
  - intros a b c Db Dc. rewrite hasConsecutivePainSpike_fixedOffset.
    destruct (hasConsecutivePainSpike [a; b; c]) eqn:E; [|reflexivity].
    exfalso. apply hasConsecutivePainSpike_iff in E.
    + destruct E as (day & x & y & z & Hx & Hy & Hz & Dx & Dy & Dz & _).
      cbn [In] in Hx, Hy, Hz.
      destruct Hx as [<-|[<-|[<-|[]]]], Hy as [<-|[<-|[<-|[]]]], Hz as [<-|[<-|[<-|[]]]]; lia.
    + cbn [map]. repeat constructor; cbn [In]; lia.
Qed.

(** Pain of 8 on the first three days of March fires, an hour east of
    UTC. *)
Lemma pain_streak_iff_fixed_offset_witness :
  Zoned.hasConsecutivePainSpike (Zoned.fixedOffset Scenario.oneHourEast) Scenario.threePainDays
  = true.
Proof.
  apply (proj1 (pain_streak_iff_fixed_offset Scenario.oneHourEast)).
  - repeat constructor; vm_compute; intuition discriminate.
  - exists (ymd 2024 3 1),
      (Scenario.logOf (ymd 2024 3 1) 8 [] []),
      (Scenario.logOf (ymd 2024 3 2) 8 [] []),
      (Scenario.logOf (ymd 2024 3 3) 8 [] []).
    unfold Scenario.threePainDays. cbn [In].
    repeat split; auto; apply Qle_bool_iff; reflexivity.
Defined.
